(** * Captain: the streaming response renderer and the image path sandbox

    A shallow embedding of [src/utils/stream_handler.py] (class
    [StreamHandler]) and of [_resolve_path] / [read_image] from
    [src/tools/vlm_tools.py], with the properties of the specification
    stated and settled over it; then the turn loop of [src/main.py], the
    image checks of [vlm_tools.py] and [get_file_completions] of
    [src/utils/shell_prompt.py], with further properties read off the
    code.

    Conventions of the embedding.
    - A Python [str] is held as the UTF-8 encoding of its code points, in
      a [string] of bytes.  [len] counts code points and [s[:n]] keeps
      the first [n] code points; the string operations used on paths and
      names ([startswith], [split], [lstrip], [rfind] on ASCII characters)
      are the same on the encoding as on the code points.
    - The value produced by [json.loads] is a [json] tree.  JSON numbers are
      integers here; floating point payloads are outside the model.
    - [tool_states] is an [OrderedDict]: an association list without
      duplicate keys whose order is insertion order.  [pending_results] is a
      plain [dict] that is never iterated: a [gmap].
    - Every handler is a computation [M A]: it reads and writes the
      handler object, calls rich (console and live regions) and the
      persistence sink in order, and either returns or raises a Python
      exception that none of the handlers catches.  The sink is the
      [save_content] function the handler was built with; it is taken to
      return.
    - rich is the environment of the handlers.  A call to rich either
      returns or raises: [console.print] and [Live.stop] render their
      panel and raise [MarkupError] on a text with a closing tag that
      matches no open tag (such as ["see [/INST]"]).  Which calls return is
      a parameter, the [Console], that sees every call made so far; the
      properties hold for every console.
    - Paths are [pathlib] paths of the POSIX flavour. *)

From Stdlib Require Import ZArith String Ascii List Lia.
From stdpp Require Import base gmap strings list pretty.
Import ListNotations.
Local Open Scope string_scope.
Set Warnings "-register-all".

(** ** Python values *)

Module Py.

(** What [json.loads] returns.  An object is the [dict], held as an
  association list that [dict_get] reads at the first binding of a key. *)
Inductive json : Type :=
| JNull
| JBool (b : bool)
| JInt (z : Z)
| JStr (s : string)
| JArr (items : list json)
| JObj (fields : list (string * json)).

(** Hashable Python values as dictionary keys.  [True == 1] and
  [False == 0] hash alike, so a boolean key is the integer key. *)
Inductive pykey : Type :=
| KNone
| KInt (z : Z)
| KStr (s : string).

#[global] Instance pykey_eq_dec : EqDecision pykey.
Proof. solve_decision. Defined.

#[global] Instance pykey_countable : Countable pykey.
Proof.
refine (inj_countable'
          (fun k => match k with
                    | KNone => inl tt
                    | KInt z => inr (inl z)
                    | KStr s => inr (inr s)
                    end)
          (fun x => match x with
                    | inl _ => KNone
                    | inr (inl z) => KInt z
                    | inr (inr s) => KStr s
                    end) _).
intros []; reflexivity.
Defined.

(** [hash(v)]: lists and dicts are unhashable. *)
Definition py_hash (v : json) : option pykey :=
match v with
| JNull => Some KNone
| JBool b => Some (KInt (if b then 1 else 0)%Z)
| JInt z => Some (KInt z)
| JStr s => Some (KStr s)
| JArr _ => None
| JObj _ => None
end.

(** [bool(v)], as used by [if subagent]. *)
Definition truthy (v : json) : bool :=
match v with
| JNull => false
| JBool b => b
| JInt z => negb (z =? 0)%Z
| JStr s => negb (String.eqb s "")
| JArr l => match l with [] => false | _ => true end
| JObj l => match l with [] => false | _ => true end
end.

Fixpoint assoc_get {A : Type} (k : string) (l : list (string * A)) : option A :=
match l with
| [] => None
| (k', v) :: rest => if String.eqb k k' then Some v else assoc_get k rest
end.

(** The bytes [10xxxxxx] that continue a code point in UTF-8. *)
Definition continuation (c : ascii) : bool :=
let n := nat_of_ascii c in Nat.leb 128 n && Nat.ltb n 192.

(** [len(s)]: the number of code points. *)
Fixpoint len (s : string) : nat :=
match s with
| EmptyString => O
| String c rest => if continuation c then len rest else S (len rest)
end.

(** [s[:n]]: the first [n] code points. *)
Fixpoint str_prefix (n : nat) (s : string) : string :=
match s with
| EmptyString => EmptyString
| String c rest =>
  if continuation c then String c (str_prefix n rest)
  else match n with
       | O => EmptyString
       | S n' => String c (str_prefix n' rest)
       end
end.

(** ["".join(parts)] *)
Definition join (parts : list string) : string := String.concat "" parts.

(** [s.lstrip(chars)] for a set of characters given by a predicate. *)
Fixpoint lstrip (strip : ascii -> bool) (s : string) : string :=
match s with
| EmptyString => EmptyString
| String c rest => if strip c then lstrip strip rest else s
end.

End Py.
Export Py.

(** ** The ordered dictionary of tool records *)

Module OrderedDict.
Section ordered_dict.
Context {V : Type}.

(** [d.get(k)] / [k in d] *)
Fixpoint lookup (k : pykey) (d : list (pykey * V)) : option V :=
match d with
| [] => None
| (k', v) :: rest => if decide (k = k') then Some v else lookup k rest
end.

(** [d[k] = v]: an existing key keeps its position, a new key goes last. *)
Fixpoint set_item (k : pykey) (v : V) (d : list (pykey * V)) : list (pykey * V) :=
match d with
| [] => [(k, v)]
| (k', v') :: rest =>
  if decide (k = k') then (k', v) :: rest else (k', v') :: set_item k v rest
end.

(** [d[k]] changed in place by [f]; nothing happens for an absent key. *)
Fixpoint alter_item (f : V -> V) (k : pykey) (d : list (pykey * V))
: list (pykey * V) :=
match d with
| [] => []
| (k', v') :: rest =>
  if decide (k = k') then (k', f v') :: rest
  else (k', v') :: alter_item f k rest
end.

Definition keys (d : list (pykey * V)) : list pykey := map fst d.
End ordered_dict.
End OrderedDict.

(** ** What the handler shows and writes *)

(** The two [rich.live.Live] regions a handler owns. *)
Inductive region : Type := ContentRegion | ToolsRegion.

(** The panels built by the handlers, with the texts they are assembled
    from: colours, borders and box shapes are left out. *)
Inductive renderable : Type :=
| ThinkingPanel (title body : string)
| AnswerPanel (title markdown : string)
| PendingTools (panels : list (string * string))
| ToolCompletePanel (title name_display args_str result_str : string)
| ParseErrorPanel (message : string)
| SubAgentStartPanel (title subagent_name task : string)
| SubAgentCompletePanel (title preview : string)
| ErrorPanel (title content : string).

(** The third argument of [save_content(output_path, category, payload)]. *)
Inductive payload : Type :=
| TextPayload (text : string)
| ToolCallPayload (name : json) (args_str : string).

Inductive effect : Type :=
| ConsolePrint (r : renderable)
| SaveContent (category : string) (p : payload)
| LiveStart (g : region) (r : renderable) (transient : bool)
| LiveUpdate (g : region) (r : renderable)
| LiveStop (g : region).

(** ** Handler state *)

Inductive tool_status : Type := pending | complete.

#[global] Instance tool_status_eq_dec : EqDecision tool_status.
Proof. solve_decision. Defined.

(** One entry of [tool_states]; [subagent] is absent on top-level calls. *)
Record tool_state : Type := mk_tool_state {
  name : json;
  args_str : string;
  status : tool_status;
  result : option string;
  subagent : option json
}.

(** The values [current_state] takes. *)
Inductive phase : Type :=
| model_thinking | model_answer | tool_call | tool_result | sub_agent
| sub_agent_thinking | sub_agent_answer | sub_agent_tool_call
| sub_agent_tool_result.

#[global] Instance phase_eq_dec : EqDecision phase.
Proof. solve_decision. Defined.

Record StreamHandler : Type := mk_handler {
  tool_states : list (pykey * tool_state);
  pending_results : gmap pykey json;
  thinking_buffer : list string;
  answer_buffer : list string;
  current_state : option phase;
  current_live : option renderable;
  tools_live : option renderable
}.

(** [StreamHandler.__init__] *)
Definition init : StreamHandler :=
  {| tool_states := []; pending_results := ∅; thinking_buffer := [];
     answer_buffer := []; current_state := None; current_live := None;
     tools_live := None |}.

Definition set_tool_states v (h : StreamHandler) : StreamHandler :=
  {| tool_states := v; pending_results := pending_results h;
     thinking_buffer := thinking_buffer h; answer_buffer := answer_buffer h;
     current_state := current_state h; current_live := current_live h;
     tools_live := tools_live h |}.

Definition set_pending_results v (h : StreamHandler) : StreamHandler :=
  {| tool_states := tool_states h; pending_results := v;
     thinking_buffer := thinking_buffer h; answer_buffer := answer_buffer h;
     current_state := current_state h; current_live := current_live h;
     tools_live := tools_live h |}.

Definition set_thinking_buffer v (h : StreamHandler) : StreamHandler :=
  {| tool_states := tool_states h; pending_results := pending_results h;
     thinking_buffer := v; answer_buffer := answer_buffer h;
     current_state := current_state h; current_live := current_live h;
     tools_live := tools_live h |}.

Definition set_answer_buffer v (h : StreamHandler) : StreamHandler :=
  {| tool_states := tool_states h; pending_results := pending_results h;
     thinking_buffer := thinking_buffer h; answer_buffer := v;
     current_state := current_state h; current_live := current_live h;
     tools_live := tools_live h |}.

Definition set_current_state v (h : StreamHandler) : StreamHandler :=
  {| tool_states := tool_states h; pending_results := pending_results h;
     thinking_buffer := thinking_buffer h; answer_buffer := answer_buffer h;
     current_state := v; current_live := current_live h;
     tools_live := tools_live h |}.

Definition set_current_live v (h : StreamHandler) : StreamHandler :=
  {| tool_states := tool_states h; pending_results := pending_results h;
     thinking_buffer := thinking_buffer h; answer_buffer := answer_buffer h;
     current_state := current_state h; current_live := v;
     tools_live := tools_live h |}.

Definition set_tools_live v (h : StreamHandler) : StreamHandler :=
  {| tool_states := tool_states h; pending_results := pending_results h;
     thinking_buffer := thinking_buffer h; answer_buffer := answer_buffer h;
     current_state := current_state h; current_live := current_live h;
     tools_live := v |}.

(** ** The monad of handler methods *)

(** The exceptions a handler lets escape: [.get] on a JSON value that is not
    an object, an unhashable id used as a dictionary key (or [len(None)]),
    [d[k]] for an absent key, what [json.loads] raises besides
    [JSONDecodeError] ([ValueError] for an integer of more digits than the
    interpreter converts, [RecursionError] for a document nested too
    deeply), and [RichError] for whatever a call to rich raises
    ([MarkupError] for a text with an unmatched closing tag, [LiveError]). *)
Inductive exn : Type :=
| AttributeError | TypeError | KeyError | ValueError | RecursionError | RichError.

Inductive outcome (A : Type) : Type :=
| Return (a : A)
| Raise (e : exn).
Arguments Return {A} a.
Arguments Raise {A} e.

(** The console the handler was built with, as the handler meets it:
    [k past e] tells whether the call [e] returns after the calls [past]
    (oldest first) have been made.  The handlers never look at the
    console; they only call it. *)
Definition Console : Type := list effect -> effect -> bool.

(** The console after the calls [o]. *)
Definition shift (o : list effect) (k : Console) : Console :=
  fun past e => k (o ++ past)%list e.

(** A console on which every call returns. *)
Definition quiet : Console := fun _ _ => true.

(** The calls that go to rich; [save_content] is the caller's sink. *)
Definition is_rich (e : effect) : bool :=
  match e with
  | SaveContent _ _ => false
  | _ => true
  end.

Definition returns (k : Console) (e : effect) : bool :=
  negb (is_rich e) || k [] e.

(** A run yields the outcome, the handler object as the run leaves it and
    the calls that returned, in order. *)
Definition M (A : Type) : Type :=
  Console -> StreamHandler -> outcome A * StreamHandler * list effect.

Definition ret {A : Type} (a : A) : M A := fun _ h => (Return a, h, []).

(** Sequencing: what was written and shown before an exception stays, and
    the handler object stays as the exception found it. *)
Definition bind {A B : Type} (m : M A) (f : A -> M B) : M B :=
  fun k h =>
    match m k h with
    | (Return a, h1, o1) =>
        match f a (shift o1 k) h1 with
        | (r, h2, o2) => (r, h2, (o1 ++ o2)%list)
        end
    | (Raise e, h1, o1) => (Raise e, h1, o1)
    end.

Notation "'let*' x ':=' m 'in' k" := (bind m (fun x => k))
  (at level 10, x name, m at level 100, k at level 200, only parsing).
Notation "m >> k" := (bind m (fun _ => k))
  (at level 90, right associativity, only parsing).

Definition get : M StreamHandler := fun _ h => (Return h, h, []).
Definition modify (f : StreamHandler -> StreamHandler) : M unit :=
  fun _ h => (Return tt, f h, []).

(** One call: it returns, or it raises and nothing of it is shown. *)
Definition emit (e : effect) : M unit :=
  fun k h =>
    if returns k e then (Return tt, h, [e]) else (Raise RichError, h, []).

Definition raise {A : Type} (e : exn) : M A := fun _ h => (Raise e, h, []).
Definition when (b : bool) (m : M unit) : M unit := if b then m else ret tt.

(** Projections of a run. *)
Definition state_of {A : Type} (r : outcome A * StreamHandler * list effect)
  : StreamHandler := snd (fst r).
Definition effects_of {A : Type} (r : outcome A * StreamHandler * list effect)
  : list effect := snd r.
Definition outcome_of {A : Type} (r : outcome A * StreamHandler * list effect)
  : outcome A := fst (fst r).

(** What [json.loads] does with a document. *)
Inductive loads_result : Type :=
| Loaded (v : json)
| JSONDecodeError
| LoadsRaises (e : exn).

(** A run in which no call to rich raised. *)
Definition clean {A : Type} (r : outcome A * StreamHandler * list effect) : bool :=
  match outcome_of r with
  | Raise RichError => false
  | _ => true
  end.

(** What the console lets through of the calls [o], made in order: all of
    them, or those before the first call that raises. *)
Fixpoint accepts (k : Console) (o : list effect) : bool :=
  match o with
  | [] => true
  | e :: rest => returns k e && accepts (shift [e] k) rest
  end.

Fixpoint performed (k : Console) (o : list effect) : list effect :=
  match o with
  | [] => []
  | e :: rest => if returns k e then e :: performed (shift [e] k) rest else []
  end.

(** ** The methods of [StreamHandler] *)

Definition nl : string := String (ascii_of_nat 10) EmptyString.

Definition phase_in (cur : option phase) (ps : list phase) : bool :=
  match cur with
  | None => false
  | Some p => existsb (fun q => bool_decide (p = q)) ps
  end.

Definition is_some {A : Type} (o : option A) : bool :=
  match o with Some _ => true | None => false end.

Definition nonempty {A : Type} (l : list A) : bool :=
  match l with [] => false | _ => true end.

Section handlers.

(** The library functions the handlers call.
    [json_loads s] is what [json.loads(s)] does: it returns a value, raises
    [json.JSONDecodeError], or raises another exception; [json_dumps v] is
    [json.dumps(v, ensure_ascii=False, indent=2)], [None] where it raises;
    [py_str v] is [str(v)], which is also how an f-string shows [v]. *)
Variable json_loads : string -> loads_result.
Variable json_dumps : json -> option string.
Variable py_str : json -> string.

(** *** Live regions *)

Definition _update_live (r : renderable) (transient : bool) : M unit :=
  let* h := get in
  match current_live h with
  | None =>
      modify (set_current_live (Some r)) >>
      emit (LiveStart ContentRegion r transient)
  | Some _ =>
      emit (LiveUpdate ContentRegion r) >>
      modify (set_current_live (Some r))
  end.

Definition _stop_current_live : M unit :=
  let* h := get in
  when (is_some (current_live h))
    (emit (LiveStop ContentRegion) >> modify (set_current_live None)).

Definition name_display (st : tool_state) : string :=
  match subagent st with
  | Some sub =>
      if truthy sub
      then "[" ++ py_str sub ++ "] " ++ py_str (name st)
      else py_str (name st)
  | None => py_str (name st)
  end.

Definition title_prefix (st : tool_state) : string :=
  match subagent st with
  | Some sub => if truthy sub then py_str sub ++ ": " else ""
  | None => ""
  end.

(** One [(name_display, args_str)] pair per pending record, in the order
    of the dictionary; [None] when nothing is pending. *)
Definition _render_pending_tools (h : StreamHandler) : option renderable :=
  let panels :=
    map (fun kv => (name_display (snd kv), args_str (snd kv)))
        (filter (fun kv => status (snd kv) = pending) (tool_states h)) in
  if nonempty panels then Some (PendingTools panels) else None.

Definition _stop_tools_live : M unit :=
  let* h := get in
  when (is_some (tools_live h))
    (emit (LiveStop ToolsRegion) >> modify (set_tools_live None)).

Definition _update_tools_live : M unit :=
  let* h := get in
  match _render_pending_tools h with
  | None => _stop_tools_live
  | Some pending_content =>
      match tools_live h with
      | None =>
          modify (set_tools_live (Some pending_content)) >>
          emit (LiveStart ToolsRegion pending_content true)
      | Some _ =>
          emit (LiveUpdate ToolsRegion pending_content) >>
          modify (set_tools_live (Some pending_content))
      end
  end.

(** *** Buffers and phase changes *)

Definition _save_and_clear_buffers (think_type answer_type : string) : M unit :=
  (let* h := get in
   when (nonempty (thinking_buffer h))
     (emit (SaveContent think_type (TextPayload (join (thinking_buffer h)))) >>
      modify (set_thinking_buffer []))) >>
  (let* h := get in
   when (nonempty (answer_buffer h))
     (emit (SaveContent answer_type (TextPayload (join (answer_buffer h)))) >>
      modify (set_answer_buffer []))).

Definition _transition_from_tool_state : M unit :=
  let* h := get in
  when (phase_in (current_state h)
          [tool_call; tool_result; sub_agent_tool_call; sub_agent_tool_result])
    _stop_tools_live.

Definition _transition_from_content_state
    (target_state : phase) (think_type answer_type : string) : M unit :=
  _transition_from_tool_state >>
  let* h := get in
  when (negb (bool_decide (current_state h = Some target_state))
        && is_some (current_live h))
    (_save_and_clear_buffers think_type answer_type >> _stop_current_live).

(** *** Content events *)

Definition handle_model_thinking (content : string) : M unit :=
  _transition_from_content_state model_thinking "think" "answer" >>
  modify (set_current_state (Some model_thinking)) >>
  modify (fun h => set_thinking_buffer (thinking_buffer h ++ [content])%list h) >>
  let* h := get in
  _update_live
    (ThinkingPanel "[bold yellow]🤔 Model Thinking[/bold yellow]"
                   (join (thinking_buffer h)))
    false.

Definition handle_model_answer (content : string) : M unit :=
  _transition_from_content_state model_answer "think" "answer" >>
  modify (set_current_state (Some model_answer)) >>
  modify (fun h => set_answer_buffer (answer_buffer h ++ [content])%list h) >>
  let* h := get in
  _update_live
    (AnswerPanel "[bold green]💬 Model Answer[/bold green]"
                 (join (answer_buffer h)))
    false.

(** *** Tool events *)

(** [d.get(k, default)] on the value [json.loads] returned. *)
Definition dict_get (d : json) (k : string) (default : json) : M json :=
  match d with
  | JObj fields =>
      ret (match assoc_get k fields with Some v => v | None => default end)
  | _ => raise AttributeError
  end.

Definition hash_key (v : json) : M pykey :=
  match py_hash v with
  | Some k => ret k
  | None => raise TypeError
  end.

(** [self.tool_states[k]] *)
Definition get_record (k : pykey) : M tool_state :=
  let* h := get in
  match OrderedDict.lookup k (tool_states h) with
  | Some st => ret st
  | None => raise KeyError
  end.

(** [self.tool_states[k]["status"] = "complete"] followed by
    [self.tool_states[k]["result"] = r] *)
Definition mark_complete (r : string) (st : tool_state) : tool_state :=
  {| name := name st; args_str := args_str st; status := complete;
     result := Some r; subagent := subagent st |}.

Definition set_complete (k : pykey) (r : string) : M unit :=
  get_record k >>
  modify (fun h =>
    set_tool_states (OrderedDict.alter_item (mark_complete r) k (tool_states h)) h).

Definition truncation_marker : string := nl ++ "... (truncated)".

Definition _print_tool_complete (st : tool_state) : M unit :=
  match result st with
  | None => raise TypeError
  | Some r =>
      let result_str :=
        if Nat.ltb 1000 (len r)
        then str_prefix 1000 r ++ truncation_marker
        else r in
      emit (ConsolePrint
              (ToolCompletePanel
                 ("[bold green]✅ " ++ title_prefix st ++ py_str (name st)
                    ++ " - Complete[/bold green]")
                 (name_display st) (args_str st) result_str)) >>
      emit (SaveContent "tool_call" (ToolCallPayload (name st) (args_str st)))
  end.

Definition dumps_args (tool_args : json) : string :=
  match json_dumps tool_args with
  | Some s => s
  | None => py_str tool_args
  end.

Definition handle_tool_call (content : string) : M unit :=
  (let* h := get in
   when (negb (phase_in (current_state h) [tool_call; tool_result])
         && is_some (current_live h))
     (_save_and_clear_buffers "think" "answer" >> _stop_current_live)) >>
  modify (set_current_state (Some tool_call)) >>
  match json_loads content with
  | Loaded tool_data =>
      let* tool_id := dict_get tool_data "id" (JStr "") in
      let* tool_name := dict_get tool_data "name" (JStr "") in
      let* tool_args := dict_get tool_data "args" (JObj []) in
      let args := dumps_args tool_args in
      let* k := hash_key tool_id in
      modify (fun h =>
        set_tool_states
          (OrderedDict.set_item k
             {| name := tool_name; args_str := args; status := pending;
                result := None; subagent := None |}
             (tool_states h)) h) >>
      let* h := get in
      match pending_results h !! k with
      | Some cached =>
          set_complete k (py_str cached) >>
          modify (fun h => set_pending_results (delete k (pending_results h)) h) >>
          _stop_tools_live >>
          let* st := get_record k in
          _print_tool_complete st
      | None => _update_tools_live
      end
  | JSONDecodeError =>
      emit (ConsolePrint (ParseErrorPanel ("Error parsing tool call: " ++ content)))
  | LoadsRaises e => raise e
  end.

Definition handle_tool_result (content : string) : M unit :=
  modify (set_current_state (Some tool_result)) >>
  match json_loads content with
  | Loaded result_data =>
      let* tool_id := dict_get result_data "id" (JStr "") in
      let* res := dict_get result_data "content" (JStr content) in
      let* k := hash_key tool_id in
      let* h := get in
      if is_some (OrderedDict.lookup k (tool_states h)) then
        set_complete k (py_str res) >>
        _stop_tools_live >>
        (let* st := get_record k in _print_tool_complete st) >>
        _update_tools_live
      else
        modify (fun h => set_pending_results (<[k := res]> (pending_results h)) h)
  | JSONDecodeError =>
      emit (ConsolePrint (ParseErrorPanel ("Error parsing tool result: " ++ content)))
  | LoadsRaises e => raise e
  end.

(** *** Sub-agent events *)

Definition handle_sub_agent_start (subagent_name task_desc : string) : M unit :=
  (let* h := get in
   when (negb (phase_in (current_state h) [tool_call; tool_result])
         && is_some (current_live h))
     (_save_and_clear_buffers "think" "answer" >> _stop_current_live)) >>
  _stop_tools_live >>
  modify (set_current_state (Some sub_agent)) >>
  emit (ConsolePrint
          (SubAgentStartPanel
             ("[bold magenta]🤖 Sub Agent: " ++ subagent_name ++ "[/bold magenta]")
             subagent_name
             (if Nat.ltb 200 (len task_desc)
              then str_prefix 200 task_desc ++ "..."
              else task_desc))).

Definition handle_sub_agent_end (content : string) : M unit :=
  (let* h := get in
   when (is_some (current_live h))
     (_save_and_clear_buffers "sub_agent_think" "sub_agent_answer" >>
      _stop_current_live)) >>
  _stop_tools_live >>
  let result_preview :=
    if Nat.ltb 500 (len content)
    then str_prefix 500 content ++ "..."
    else content in
  emit (ConsolePrint
          (SubAgentCompletePanel "[bold green]✅ Sub Agent Complete[/bold green]"
                                 result_preview)) >>
  emit (SaveContent "sub_agent" (TextPayload content)).

Definition handle_sub_agent_thinking (content subagent_label : string) : M unit :=
  _transition_from_content_state sub_agent_thinking
    "sub_agent_think" "sub_agent_answer" >>
  modify (set_current_state (Some sub_agent_thinking)) >>
  modify (fun h => set_thinking_buffer (thinking_buffer h ++ [content])%list h) >>
  let* h := get in
  _update_live
    (ThinkingPanel ("[bold yellow]🤔 " ++ subagent_label ++ " Thinking[/bold yellow]")
                   (join (thinking_buffer h)))
    false.

Definition handle_sub_agent_answer (content subagent_label : string) : M unit :=
  _transition_from_content_state sub_agent_answer
    "sub_agent_think" "sub_agent_answer" >>
  modify (set_current_state (Some sub_agent_answer)) >>
  modify (fun h => set_answer_buffer (answer_buffer h ++ [content])%list h) >>
  let* h := get in
  _update_live
    (AnswerPanel ("[bold magenta]💬 " ++ subagent_label ++ " Answer[/bold magenta]")
                 (join (answer_buffer h)))
    false.

Definition handle_sub_agent_tool_call (content : string) : M unit :=
  (let* h := get in
   when (negb (phase_in (current_state h)
                 [tool_call; tool_result; sub_agent_tool_call;
                  sub_agent_tool_result])
         && is_some (current_live h))
     (_save_and_clear_buffers "sub_agent_think" "sub_agent_answer" >>
      _stop_current_live)) >>
  modify (set_current_state (Some sub_agent_tool_call)) >>
  match json_loads content with
  | Loaded tool_data =>
      let* tool_id := dict_get tool_data "id" (JStr "") in
      let* tool_name := dict_get tool_data "name" (JStr "") in
      let* tool_args := dict_get tool_data "args" (JObj []) in
      let* subagent_name := dict_get tool_data "subagent" (JStr "SubAgent") in
      let args := dumps_args tool_args in
      let* k := hash_key tool_id in
      modify (fun h =>
        set_tool_states
          (OrderedDict.set_item k
             {| name := tool_name; args_str := args; status := pending;
                result := None; subagent := Some subagent_name |}
             (tool_states h)) h) >>
      let* h := get in
      match pending_results h !! k with
      | Some cached =>
          set_complete k (py_str cached) >>
          modify (fun h => set_pending_results (delete k (pending_results h)) h) >>
          _stop_tools_live >>
          let* st := get_record k in
          _print_tool_complete st
      | None => _update_tools_live
      end
  | JSONDecodeError =>
      emit (ConsolePrint
              (ParseErrorPanel ("Error parsing sub_agent tool call: " ++ content)))
  | LoadsRaises e => raise e
  end.

Definition handle_sub_agent_tool_result (content : string) : M unit :=
  modify (set_current_state (Some sub_agent_tool_result)) >>
  match json_loads content with
  | Loaded result_data =>
      let* tool_id := dict_get result_data "id" (JStr "") in
      let* res := dict_get result_data "content" (JStr content) in
      let* k := hash_key tool_id in
      let* h := get in
      if is_some (OrderedDict.lookup k (tool_states h)) then
        set_complete k (py_str res) >>
        _stop_tools_live >>
        (let* st := get_record k in _print_tool_complete st) >>
        _update_tools_live
      else
        modify (fun h => set_pending_results (<[k := res]> (pending_results h)) h)
  | JSONDecodeError =>
      emit (ConsolePrint
              (ParseErrorPanel ("Error parsing sub_agent tool result: " ++ content)))
  | LoadsRaises e => raise e
  end.

Definition handle_error (content : string) : M unit :=
  _stop_tools_live >>
  _stop_current_live >>
  emit (ConsolePrint
          (ErrorPanel "[bold red]❌ Error from ChatStream[/bold red]" content)).

(** *** The dispatcher *)

(** One response of the agent stream: a dict whose entries, when present,
    are strings.  [ev_type = None] stands for a missing ["type"] key and
    for ["type": None] alike, as [response.get("type")] does. *)
Record event : Type := mk_event {
  ev_type : option string;
  ev_content : option string;
  ev_subagent : option string;
  ev_task : option string
}.

Definition get_default (o : option string) (d : string) : string :=
  match o with Some v => v | None => d end.

(** The table of handlers built by [handle_response]. *)
Definition handlers (response : event) (content : string)
  : list (string * M unit) :=
  [ ("model_thinking", handle_model_thinking content);
    ("model_answer", handle_model_answer content);
    ("tool_call", handle_tool_call content);
    ("tool_result", handle_tool_result content);
    ("sub_agent_start",
      handle_sub_agent_start (get_default (ev_subagent response) "general")
                             (get_default (ev_task response) ""));
    ("sub_agent_end", handle_sub_agent_end content);
    ("sub_agent_thinking",
      handle_sub_agent_thinking content
        (get_default (ev_subagent response) "SubAgent"));
    ("sub_agent_answer",
      handle_sub_agent_answer content
        (get_default (ev_subagent response) "SubAgent"));
    ("sub_agent_tool_call", handle_sub_agent_tool_call content);
    ("sub_agent_tool_result", handle_sub_agent_tool_result content);
    ("error", handle_error content) ].

Definition handle_response (response : option event) : M unit :=
  match response with
  | None => ret tt
  | Some ev =>
      match ev_type ev with
      | None => ret tt
      | Some response_type =>
          if String.eqb response_type "" then ret tt
          else
            let content := get_default (ev_content ev) "" in
            match assoc_get response_type (handlers ev content) with
            | Some handler => handler
            | None => ret tt
            end
      end
  end.

Definition finalize : M unit :=
  _stop_tools_live >>
  _stop_current_live >>
  _save_and_clear_buffers "think" "answer".


(** The loop of [main]: every response of the stream goes through
    [handle_response], in order; an exception ends the loop. *)
Fixpoint handle_stream (responses : list (option event)) : M unit :=
  match responses with
  | [] => ret tt
  | r :: rest => handle_response r >> handle_stream rest
  end.
End handlers.

(** ** Sample payloads

    A decoder, an encoder and a [str] for the payloads the examples below
    run on.  They agree with Python on the documents listed and on scalars
    and empty containers; no theorem depends on them, they only instantiate
    the library functions at concrete inputs. *)

Module Sample.

Definition q : string := String (ascii_of_nat 34) EmptyString.

(** [{"id": "7", "name": "search"}] *)
Definition call7 : string :=
  "{" ++ q ++ "id" ++ q ++ ": " ++ q ++ "7" ++ q ++ ", "
      ++ q ++ "name" ++ q ++ ": " ++ q ++ "search" ++ q ++ "}".

(** [{"id": "7", "content": "42"}] *)
Definition result7 : string :=
  "{" ++ q ++ "id" ++ q ++ ": " ++ q ++ "7" ++ q ++ ", "
      ++ q ++ "content" ++ q ++ ": " ++ q ++ "42" ++ q ++ "}".

(** [{"id": "7", "content": "43"}] *)
Definition result7' : string :=
  "{" ++ q ++ "id" ++ q ++ ": " ++ q ++ "7" ++ q ++ ", "
      ++ q ++ "content" ++ q ++ ": " ++ q ++ "43" ++ q ++ "}".

(** Not a JSON document. *)
Definition garbage : string := "{oops".

(** [{"id": "8", "name": "[/x]"}], a call whose name reads as a closing
    tag, and [{"id": "8", "content": "ok"}]. *)
Definition call8 : string :=
  "{" ++ q ++ "id" ++ q ++ ": " ++ q ++ "8" ++ q ++ ", "
      ++ q ++ "name" ++ q ++ ": " ++ q ++ "[/x]" ++ q ++ "}".

Definition result8 : string :=
  "{" ++ q ++ "id" ++ q ++ ": " ++ q ++ "8" ++ q ++ ", "
      ++ q ++ "content" ++ q ++ ": " ++ q ++ "ok" ++ q ++ "}".

Definition loads (s : string) : loads_result :=
  if String.eqb s call7 then
    Loaded (JObj [("id", JStr "7"); ("name", JStr "search")])
  else if String.eqb s result7 then
    Loaded (JObj [("id", JStr "7"); ("content", JStr "42")])
  else if String.eqb s result7' then
    Loaded (JObj [("id", JStr "7"); ("content", JStr "43")])
  else if String.eqb s call8 then
    Loaded (JObj [("id", JStr "8"); ("name", JStr "[/x]")])
  else if String.eqb s result8 then
    Loaded (JObj [("id", JStr "8"); ("content", JStr "ok")])
  else JSONDecodeError.

Definition str (v : json) : string :=
  match v with
  | JNull => "None"
  | JBool true => "True"
  | JBool false => "False"
  | JInt z => pretty z
  | JStr s => s
  | JArr _ => "[]"
  | JObj _ => "{}"
  end.

Definition dumps (v : json) : option string :=
  match v with
  | JNull => Some "null"
  | JBool true => Some "true"
  | JBool false => Some "false"
  | JInt z => Some (pretty z)
  | JStr s => Some (q ++ s ++ q)
  | JArr _ => Some "[]"
  | JObj _ => Some "{}"
  end.

Definition ev (type content : string) : option event :=
  Some {| ev_type := Some type; ev_content := Some content;
          ev_subagent := None; ev_task := None |}.

(** *** A console for the examples

    It follows rich in what the examples need.  A text rendered as markup
    is refused when a closing tag [[/name]] matches no open tag ([[/]]
    closes the last one); a tag starts with a lower-case letter, [#], [@]
    or [/].  [console.print] renders its panel and the panels of the live
    regions that are up, [Live.stop] renders the panels that are up, and
    starting or updating a region renders nothing. *)

Definition tag_start (c : ascii) : bool :=
  let n := nat_of_ascii c in
  (Nat.leb 97 n && Nat.leb n 122)
  || Ascii.eqb c "#" || Ascii.eqb c "@" || Ascii.eqb c "/".

Fixpoint remove_first (name : string) (stack : list string) : option (list string) :=
  match stack with
  | [] => None
  | t :: rest =>
      if String.eqb t name then Some rest
      else match remove_first name rest with
           | Some rest' => Some (t :: rest')
           | None => None
           end
  end.

Definition close_tag (name : string) (stack : list string) : option (list string) :=
  if String.eqb name "" then
    match stack with
    | [] => None
    | _ :: rest => Some rest
    end
  else remove_first name stack.

(** [stack] holds the open tags, [tag] the text read since a ['[']. *)
Fixpoint scan (s : string) (stack : list string) (tag : option string) : bool :=
  match s with
  | EmptyString => true
  | String c rest =>
      match tag with
      | None =>
          if Ascii.eqb c "[" then scan rest stack (Some "") else scan rest stack None
      | Some t =>
          if Ascii.eqb c "]" then
            match t with
            | EmptyString => scan rest stack None
            | String c0 name =>
                if Ascii.eqb c0 "/" then
                  match close_tag name stack with
                  | Some stack' => scan rest stack' None
                  | None => false
                  end
                else if tag_start c0 then scan rest (t :: stack) None
                else scan rest stack None
            end
          else if Ascii.eqb c "[" then scan rest stack (Some "")
          else scan rest stack (Some (t ++ String c ""))
      end
  end.

Definition markup_ok (s : string) : bool := scan s [] None.

(** The texts of a panel that are given to rich as markup: titles, and the
    body where it is a plain [str]. *)
Definition markup_texts (r : renderable) : list string :=
  match r with
  | ThinkingPanel title body => [title; body]
  | AnswerPanel title _ => [title]
  | PendingTools panels =>
      map (fun p => "[bold cyan]🔧 Tool Call: " ++ fst p ++ "[/bold cyan]") panels
  | ToolCompletePanel title _ _ _ => [title]
  | ParseErrorPanel message => [message]
  | SubAgentStartPanel title _ _ => [title]
  | SubAgentCompletePanel title _ => [title]
  | ErrorPanel title content => [title; content]
  end.

Definition renders (r : renderable) : bool := forallb markup_ok (markup_texts r).

(** The panels of the regions that are up after the calls [past]. *)
Fixpoint shown (past : list effect) (content tools : option renderable)
  : list renderable :=
  match past with
  | [] =>
      (match content with Some r => [r] | None => [] end)
      ++ (match tools with Some r => [r] | None => [] end)
  | LiveStart ContentRegion r _ :: rest | LiveUpdate ContentRegion r :: rest =>
      shown rest (Some r) tools
  | LiveStart ToolsRegion r _ :: rest | LiveUpdate ToolsRegion r :: rest =>
      shown rest content (Some r)
  | LiveStop ContentRegion :: rest => shown rest None tools
  | LiveStop ToolsRegion :: rest => shown rest content None
  | _ :: rest => shown rest content tools
  end.

Definition rich : Console :=
  fun past e =>
    match e with
    | ConsolePrint r => renders r && forallb renders (shown past None None)
    | LiveStop _ => forallb renders (shown past None None)
    | _ => true
    end.
End Sample.


(** ** [src/tools/vlm_tools.py]: the workspace sandbox of [read_image] *)

Module Vlm.

(** A [pathlib] path of the POSIX flavour: whether it is anchored at the
    root, and its components. *)
Record pypath : Type := mk_path {
  absolute : bool;
  parts : list string
}.

Definition slash : ascii := ascii_of_nat 47.
Definition backslash : ascii := ascii_of_nat 92.

(** The characters of ['/\\']. *)
Definition is_slash (c : ascii) : bool :=
  Ascii.eqb c slash || Ascii.eqb c backslash.

(** [s.startswith(c)] for a one-character [c]. *)
Definition startswith (c : ascii) (s : string) : bool :=
  match s with
  | String c' _ => Ascii.eqb c' c
  | EmptyString => false
  end.

(** [s.split('/')] *)
Fixpoint split_slash (s : string) : list string :=
  match s with
  | EmptyString => [EmptyString]
  | String c rest =>
      if Ascii.eqb c slash then EmptyString :: split_slash rest
      else match split_slash rest with
           | w :: ws => String c w :: ws
           | [] => [String c EmptyString]
           end
  end.

(** [Path(s)]: empty and ['.'] components are dropped. *)
Definition Path (s : string) : pypath :=
  {| absolute := startswith slash s;
     parts := filter (fun w => w <> "" /\ w <> ".") (split_slash s) |}.

Definition is_absolute (p : pypath) : bool := absolute p.

(** [a / b] *)
Definition joinpath (a b : pypath) : pypath :=
  if is_absolute b then b
  else {| absolute := absolute a; parts := parts a ++ parts b |}.

Fixpoint is_prefix (xs ys : list string) : bool :=
  match xs, ys with
  | [], _ => true
  | x :: xs', y :: ys' => String.eqb x y && is_prefix xs' ys'
  | _ :: _, [] => false
  end.

(** [p.relative_to(base)] does not raise [ValueError]. *)
Definition relative_to_ok (p base : pypath) : bool :=
  Bool.eqb (absolute p) (absolute base) && is_prefix (parts base) (parts p).

(** [p] lies in the directory [base]: it is [base] followed by further
    components. *)
Definition inside (base p : pypath) : Prop :=
  absolute p = absolute base /\ exists rest, parts p = (parts base ++ rest)%list.

(** The exceptions of [read_image]; [OSError] stands for any exception
    that is none of the three the tool lets pass. *)
Inductive error : Type :=
| FileNotFoundError | PermissionError | ValueError | RuntimeError | OSError.

(** What [read_image] returns. *)
Inductive image : Type :=
| UrlImage (prompt url : string)
| Base64Image (prompt mime_type data : string).

(** [Path.resolve] without symbolic links: ['..'] removes the component
    before it, and nothing at the root. *)
Fixpoint normalize (acc : list string) (ps : list string) : list string :=
  match ps with
  | [] => rev acc
  | p :: rest =>
      if String.eqb p ".."
      then normalize (match acc with [] => [] | _ :: acc' => acc' end) rest
      else normalize (p :: acc) rest
  end.

Definition resolve_lexical (p : pypath) : pypath :=
  {| absolute := absolute p; parts := normalize [] (parts p) |}.

Fixpoint has_nul (s : string) : bool :=
  match s with
  | EmptyString => false
  | String c rest => Ascii.eqb c zero || has_nul rest
  end.

(** [Path.resolve] on a file system without symbolic links:
    [ValueError] ("embedded null byte") for a path with a NUL in it. *)
Definition resolve_plain (p : pypath) : error + pypath :=
  if existsb has_nul (parts p) then inl ValueError
  else inr (resolve_lexical p).

Section sandbox.

(** [get_workspace_path()] of [utils.utils], and the file system as the
    library sees it.  [resolve] is [Path.resolve()], which follows
    symbolic links and removes ['..']; it raises on a path it cannot
    handle ([ValueError] for an embedded NUL, [RuntimeError] for a loop
    of links), and so do [Path.exists()] and [Path.is_file()] ([OSError]
    for a name that is too long). *)
Variable get_workspace_path : string.
Variable resolve : pypath -> error + pypath.
Variable exists_ : pypath -> error + bool.
Variable is_file : pypath -> error + bool.
Variable read_bytes : pypath -> error + string.

(** [_validate_image_extension], [_get_media_type] and
    [base64.standard_b64encode]. *)
Variable _validate_image_extension : pypath -> bool.
Variable _get_media_type : pypath -> string.
Variable b64encode : string -> string.

(** [Path(get_workspace_path()).resolve()] *)
Definition workspace : error + pypath := resolve (Path get_workspace_path).

Definition _resolve_path (path : string) : error + pypath :=
  match workspace with
  | inl e => inl e
  | inr workspace =>
      let path :=
        if startswith slash path || startswith backslash path
        then lstrip is_slash path
        else path in
      let file_path := Path path in
      match (if is_absolute file_path then resolve file_path
             else resolve (joinpath workspace file_path)) with
      | inl e => inl e
      | inr resolved =>
          if relative_to_ok resolved workspace then inr resolved
          else inl PermissionError
      end
  end.

(** The handlers at the end of [read_image]: [FileNotFoundError] and
    [ValueError] pass, [PermissionError] is raised anew, anything else
    becomes [RuntimeError]. *)
Definition reraise (e : error) : error :=
  match e with
  | FileNotFoundError => FileNotFoundError
  | PermissionError => PermissionError
  | ValueError => ValueError
  | RuntimeError => RuntimeError
  | OSError => RuntimeError
  end.

Definition read_image (path_or_url prompt : string) : error + image :=
  if String.prefix "http://" path_or_url || String.prefix "https://" path_or_url
  then inr (UrlImage prompt path_or_url)
  else
    match _resolve_path path_or_url with
    | inl e => inl (reraise e)
    | inr file_path =>
        match exists_ file_path with
        | inl e => inl (reraise e)
        | inr false => inl (reraise FileNotFoundError)
        | inr true =>
            match is_file file_path with
            | inl e => inl (reraise e)
            | inr false => inl (reraise ValueError)
            | inr true =>
                if negb (_validate_image_extension file_path)
                then inl (reraise ValueError)
                else
                  match read_bytes file_path with
                  | inl e => inl (reraise e)
                  | inr image_data =>
                      inr (Base64Image prompt (_get_media_type file_path)
                                       (b64encode image_data))
                  end
            end
        end
    end.
End sandbox.
End Vlm.

(** ** Closed forms of the helper methods

    What each helper writes and shows on a console that lets every call
    return, read off the state it starts in. *)

(** What a flush writes, read off the buffers. *)
Definition flush_writes (think_type answer_type : string) (h : StreamHandler)
  : list effect :=
  (if nonempty (thinking_buffer h)
   then [SaveContent think_type (TextPayload (join (thinking_buffer h)))]
   else [])
  ++ (if nonempty (answer_buffer h)
      then [SaveContent answer_type (TextPayload (join (answer_buffer h)))]
      else []).

Definition clear_buffers (h : StreamHandler) : StreamHandler :=
  set_answer_buffer [] (set_thinking_buffer [] h).

Definition stop_effects (g : region) (live : option renderable) : list effect :=
  if is_some live then [LiveStop g] else [].

Section closed_forms.
Variable py_str : json -> string.

Definition update_tools_effects (h : StreamHandler) : list effect :=
  match _render_pending_tools py_str h with
  | None => stop_effects ToolsRegion (tools_live h)
  | Some pending_content =>
      match tools_live h with
      | None => [LiveStart ToolsRegion pending_content true]
      | Some _ => [LiveUpdate ToolsRegion pending_content]
      end
  end.

Definition shown_result (r : string) : string :=
  if Nat.ltb 1000 (len r)
  then str_prefix 1000 r ++ truncation_marker
  else r.

Definition complete_panel (st : tool_state) (r : string) : renderable :=
  ToolCompletePanel
    ("[bold green]✅ " ++ title_prefix py_str st ++ py_str (name st)
       ++ " - Complete[/bold green]")
    (name_display py_str st) (args_str st) (shown_result r).
End closed_forms.

(** The type tags [handle_response] has a handler for. *)
Definition event_types : list string :=
  [ "model_thinking"; "model_answer"; "tool_call"; "tool_result";
    "sub_agent_start"; "sub_agent_end"; "sub_agent_thinking";
    "sub_agent_answer"; "sub_agent_tool_call"; "sub_agent_tool_result";
    "error" ].

(** ** The four content events *)

Inductive content_event : Type :=
| ModelThinking | ModelAnswer | SubAgentThinking | SubAgentAnswer.

(** The phase a content event puts the handler in. *)
Definition content_phase (e : content_event) : phase :=
  match e with
  | ModelThinking => model_thinking
  | ModelAnswer => model_answer
  | SubAgentThinking => sub_agent_thinking
  | SubAgentAnswer => sub_agent_answer
  end.

(** The handler [handle_response] calls for it. *)
Definition content_handler (e : content_event) (content label : string) : M unit :=
  match e with
  | ModelThinking => handle_model_thinking content
  | ModelAnswer => handle_model_answer content
  | SubAgentThinking => handle_sub_agent_thinking content label
  | SubAgentAnswer => handle_sub_agent_answer content label
  end.

(** The categories that handler passes to the flush. *)
Definition content_categories (e : content_event) : string * string :=
  match e with
  | ModelThinking | ModelAnswer => ("think", "answer")
  | SubAgentThinking | SubAgentAnswer => ("sub_agent_think", "sub_agent_answer")
  end.

(** The buffer the event appends to, and the other one. *)
Definition own_buffer (e : content_event) (h : StreamHandler) : list string :=
  match e with
  | ModelThinking | SubAgentThinking => thinking_buffer h
  | ModelAnswer | SubAgentAnswer => answer_buffer h
  end.


(** The panel it draws for the accumulated [text]. *)
Definition content_panel (e : content_event) (label text : string) : renderable :=
  match e with
  | ModelThinking =>
      ThinkingPanel "[bold yellow]🤔 Model Thinking[/bold yellow]" text
  | ModelAnswer =>
      AnswerPanel "[bold green]💬 Model Answer[/bold green]" text
  | SubAgentThinking =>
      ThinkingPanel ("[bold yellow]🤔 " ++ label ++ " Thinking[/bold yellow]") text
  | SubAgentAnswer =>
      AnswerPanel ("[bold magenta]💬 " ++ label ++ " Answer[/bold magenta]") text
  end.

(** Whether [current_state] is one of the four tool phases, and what
    [_transition_from_tool_state] then does. *)
Definition leaving_tools (h : StreamHandler) : bool :=
  phase_in (current_state h)
    [tool_call; tool_result; sub_agent_tool_call; sub_agent_tool_result].

Definition tool_transition_effects (h : StreamHandler) : list effect :=
  if leaving_tools h then stop_effects ToolsRegion (tools_live h) else [].

(** The closed form of [_transition_from_content_state]: whether it
    flushes, the state it leaves and what it emits. *)
Definition must_flush (target : phase) (h : StreamHandler) : bool :=
  negb (bool_decide (current_state h = Some target)) && is_some (current_live h).

Definition after_tool_transition (h : StreamHandler) : StreamHandler :=
  if leaving_tools h then set_tools_live None h else h.

Definition after_content_transition (target : phase) (h : StreamHandler)
  : StreamHandler :=
  if must_flush target h
  then set_current_live None (clear_buffers (after_tool_transition h))
  else after_tool_transition h.

Definition content_transition_effects
    (target : phase) (think_type answer_type : string) (h : StreamHandler)
  : list effect :=
  tool_transition_effects h
  ++ (if must_flush target h
      then flush_writes think_type answer_type h ++ [LiveStop ContentRegion]
      else []).

(** [buffer.append(content)] on the buffer of the event. *)
Definition append_fragment (e : content_event) (content : string)
    (h : StreamHandler) : StreamHandler :=
  match e with
  | ModelThinking | SubAgentThinking =>
      set_thinking_buffer (thinking_buffer h ++ [content]) h
  | ModelAnswer | SubAgentAnswer =>
      set_answer_buffer (answer_buffer h ++ [content]) h
  end.

(** What [_update_live] emits: a start when no region is live, an update
    otherwise. *)
Definition draw_effect (live : option renderable) (r : renderable)
    (transient : bool) : effect :=
  if is_some live then LiveUpdate ContentRegion r
  else LiveStart ContentRegion r transient.

(** ** Closed forms of the tool handlers, on a console that lets every
    call return *)

(** The flush at the head of the tool-call, sub-agent-start and
    sub-agent-end handlers: it happens when the current phase is none of
    [phases] and a content region is live. *)
Definition head_flush (phases : list phase) (h : StreamHandler) : bool :=
  negb (phase_in (current_state h) phases) && is_some (current_live h).

Definition after_head_flush (phases : list phase) (h : StreamHandler)
  : StreamHandler :=
  if head_flush phases h then set_current_live None (clear_buffers h) else h.

Definition head_flush_effects (phases : list phase)
    (think_type answer_type : string) (h : StreamHandler) : list effect :=
  if head_flush phases h
  then (flush_writes think_type answer_type h ++ [LiveStop ContentRegion])%list
  else [].

(** A run that continues after [o1] was emitted. *)
Definition after_effects {A : Type} (o1 : list effect)
    (r : outcome A * StreamHandler * list effect)
  : outcome A * StreamHandler * list effect :=
  (outcome_of r, state_of r, (o1 ++ effects_of r)%list).

Section tool_closed_forms.
Variable json_dumps : json -> option string.
Variable py_str : json -> string.

Definition field (k : string) (fields : list (string * json)) (default : json)
  : json :=
  match assoc_get k fields with Some v => v | None => default end.

(** The pending record a call handler builds from the fields of its
    payload.  [sub] tells the sub-agent handler, which also records the
    ["subagent"] field. *)
Definition call_record (sub : bool) (f : list (string * json)) : tool_state :=
  {| name := field "name" f (JStr "");
     args_str := dumps_args json_dumps py_str (field "args" f (JObj []));
     status := pending;
     result := None;
     subagent := if sub
                 then Some (field "subagent" f (JStr "SubAgent"))
                 else None |}.

(** The key and the record a call payload leads to, or the exception it
    ends in. *)
Definition parsed_call (sub : bool) (tool_data : json)
  : exn + (pykey * tool_state) :=
  match tool_data with
  | JObj f =>
      match py_hash (field "id" f (JStr "")) with
      | Some k => inr (k, call_record sub f)
      | None => inl TypeError
      end
  | _ => inl AttributeError
  end.

(** The key and the result value of a result payload. *)
Definition parsed_result (content : string) (result_data : json)
  : exn + (pykey * json) :=
  match result_data with
  | JObj f =>
      match py_hash (field "id" f (JStr "")) with
      | Some k => inr (k, field "content" f (JStr content))
      | None => inl TypeError
      end
  | _ => inl AttributeError
  end.

Definition completion_effects (done : tool_state) (r : string) : list effect :=
  [ConsolePrint (complete_panel py_str done r);
   SaveContent "tool_call" (ToolCallPayload (name done) (args_str done))].

(** A call handler once the record [st] for key [k] is known. *)
Definition register_call (k : pykey) (st : tool_state) (h : StreamHandler)
  : outcome unit * StreamHandler * list effect :=
  let h1 := set_tool_states (OrderedDict.set_item k st (tool_states h)) h in
  match pending_results h !! k with
  | Some cached =>
      let r := py_str cached in
      (Return tt,
       set_tools_live None
         (set_pending_results (delete k (pending_results h))
            (set_tool_states
               (OrderedDict.alter_item (mark_complete r) k (tool_states h1)) h1)),
       (stop_effects ToolsRegion (tools_live h)
          ++ completion_effects (mark_complete r st) r)%list)
  | None =>
      (Return tt, set_tools_live (_render_pending_tools py_str h1) h1,
       update_tools_effects py_str h1)
  end.

(** A result handler once the key [k] and the result value are known. *)
Definition register_result (k : pykey) (res : json) (h : StreamHandler)
  : outcome unit * StreamHandler * list effect :=
  match OrderedDict.lookup k (tool_states h) with
  | Some st =>
      let r := py_str res in
      let h1 :=
        set_tools_live None
          (set_tool_states
             (OrderedDict.alter_item (mark_complete r) k (tool_states h)) h) in
      (Return tt, set_tools_live (_render_pending_tools py_str h1) h1,
       (stop_effects ToolsRegion (tools_live h)
          ++ completion_effects (mark_complete r st) r
          ++ update_tools_effects py_str h1)%list)
  | None =>
      (Return tt, set_pending_results (<[k := res]> (pending_results h)) h, [])
  end.

(** A call handler after its head flush and phase assignment. *)
Definition call_body (sub : bool) (what : string) (decoded : loads_result)
    (content : string) (h : StreamHandler)
  : outcome unit * StreamHandler * list effect :=
  match decoded with
  | Loaded tool_data =>
      match parsed_call sub tool_data with
      | inr (k, st) => register_call k st h
      | inl e => (Raise e, h, [])
      end
  | JSONDecodeError =>
      (Return tt, h, [ConsolePrint (ParseErrorPanel (what ++ content))])
  | LoadsRaises e => (Raise e, h, [])
  end.

Definition result_body (what : string) (decoded : loads_result)
    (content : string) (h : StreamHandler)
  : outcome unit * StreamHandler * list effect :=
  match decoded with
  | Loaded result_data =>
      match parsed_result content result_data with
      | inr (k, res) => register_result k res h
      | inl e => (Raise e, h, [])
      end
  | JSONDecodeError =>
      (Return tt, h, [ConsolePrint (ParseErrorPanel (what ++ content))])
  | LoadsRaises e => (Raise e, h, [])
  end.
End tool_closed_forms.

(** ** Reading a trace of effects *)

(** The text written to the sink, with its category, in order. *)
Definition text_saves (o : list effect) : list (string * string) :=
  omap (fun e => match e with
                 | SaveContent category (TextPayload text) => Some (category, text)
                 | _ => None
                 end) o.

(** The buffers as a flush under [(think_type, answer_type)] files them. *)
Definition buffer_writes (think_type answer_type : string) (h : StreamHandler)
  : list (string * string) :=
  (if nonempty (thinking_buffer h)
   then [(think_type, join (thinking_buffer h))] else [])
  ++ (if nonempty (answer_buffer h)
      then [(answer_type, join (answer_buffer h))] else []).

(** The two lists of phases in which a call handler does not flush. *)
Definition top_tool_phases : list phase := [tool_call; tool_result].

Definition all_tool_phases : list phase :=
  [tool_call; tool_result; sub_agent_tool_call; sub_agent_tool_result].

(** ** The dispatcher as a closed case analysis *)

(** What [handle_response] does with a response: nothing, or one handler
    with its arguments.  [sub] tells the sub-agent variant of a tool
    handler. *)
Inductive dispatch : Type :=
| Ignored
| Content (e : content_event) (content label : string)
| ToolCall (sub : bool) (content : string)
| ToolResult (sub : bool) (content : string)
| SubAgentStart (subagent_name task_desc : string)
| SubAgentEnd (content : string)
| Error (content : string).

Definition classify (response : option event) : dispatch :=
  match response with
  | None => Ignored
  | Some ev =>
      match ev_type ev with
      | None => Ignored
      | Some ty =>
          let content := get_default (ev_content ev) "" in
          let label := get_default (ev_subagent ev) "SubAgent" in
          if String.eqb ty "model_thinking" then Content ModelThinking content label
          else if String.eqb ty "model_answer" then Content ModelAnswer content label
          else if String.eqb ty "tool_call" then ToolCall false content
          else if String.eqb ty "tool_result" then ToolResult false content
          else if String.eqb ty "sub_agent_start" then
            SubAgentStart (get_default (ev_subagent ev) "general")
                          (get_default (ev_task ev) "")
          else if String.eqb ty "sub_agent_end" then SubAgentEnd content
          else if String.eqb ty "sub_agent_thinking" then
            Content SubAgentThinking content label
          else if String.eqb ty "sub_agent_answer" then
            Content SubAgentAnswer content label
          else if String.eqb ty "sub_agent_tool_call" then ToolCall true content
          else if String.eqb ty "sub_agent_tool_result" then ToolResult true content
          else if String.eqb ty "error" then Error content
          else Ignored
      end
  end.

Section dispatch_run.
Variable json_loads : string -> loads_result.
Variable json_dumps : json -> option string.
Variable py_str : json -> string.

Definition run_dispatch (d : dispatch) : M unit :=
  match d with
  | Ignored => ret tt
  | Content e content label => content_handler e content label
  | ToolCall false content => handle_tool_call json_loads json_dumps py_str content
  | ToolCall true content =>
      handle_sub_agent_tool_call json_loads json_dumps py_str content
  | ToolResult false content => handle_tool_result json_loads py_str content
  | ToolResult true content => handle_sub_agent_tool_result json_loads py_str content
  | SubAgentStart subagent_name task_desc =>
      handle_sub_agent_start subagent_name task_desc
  | SubAgentEnd content => handle_sub_agent_end content
  | Error content => handle_error content
  end.

(** The id a tool event carries: the key its payload's ["id"] hashes to. *)
Definition payload_key (content : string) : option pykey :=
  match json_loads content with
  | Loaded (JObj f) => py_hash (field "id" f (JStr ""))
  | _ => None
  end.

Definition dispatch_key (d : dispatch) : option pykey :=
  match d with
  | ToolCall _ content | ToolResult _ content => payload_key content
  | _ => None
  end.
End dispatch_run.

(** The flush of each handler: the state in which it happens, the two
    categories the handler passes, and the text the event then writes. *)
Definition flushes (d : dispatch) (h : StreamHandler) : bool :=
  match d with
  | Content e _ _ => must_flush (content_phase e) h
  | ToolCall false _ | SubAgentStart _ _ => head_flush top_tool_phases h
  | ToolCall true _ => head_flush all_tool_phases h
  | SubAgentEnd _ => is_some (current_live h)
  | ToolResult _ _ | Error _ | Ignored => false
  end.

Definition flush_categories (d : dispatch) : string * string :=
  match d with
  | Content e _ _ => content_categories e
  | ToolCall true _ | SubAgentEnd _ => ("sub_agent_think", "sub_agent_answer")
  | _ => ("think", "answer")
  end.

Definition written_text (d : dispatch) (h : StreamHandler) : list (string * string) :=
  ((if flushes d h
    then buffer_writes (fst (flush_categories d)) (snd (flush_categories d)) h
    else [])
   ++ match d with
      | SubAgentEnd content => [("sub_agent", content)]
      | _ => []
      end)%list.

(** How one event can change the two stores of the correlator, for an
    event that carries the key [carried] (or none). *)
Inductive store_step (carried : option pykey) (h h' : StreamHandler) : Prop :=
| store_same :
    tool_states h' = tool_states h ->
    pending_results h' = pending_results h ->
    store_step carried h h'
| store_new_pending k st :
    carried = Some k ->
    status st = pending ->
    pending_results h !! k = None ->
    tool_states h' = OrderedDict.set_item k st (tool_states h) ->
    pending_results h' = pending_results h ->
    store_step carried h h'
| store_new_complete k st r :
    carried = Some k ->
    is_some (pending_results h !! k) = true ->
    tool_states h' =
      OrderedDict.alter_item (mark_complete r) k
        (OrderedDict.set_item k st (tool_states h)) ->
    pending_results h' = delete k (pending_results h) ->
    store_step carried h h'
| store_completed k st r :
    carried = Some k ->
    OrderedDict.lookup k (tool_states h) = Some st ->
    tool_states h' = OrderedDict.alter_item (mark_complete r) k (tool_states h) ->
    pending_results h' = pending_results h ->
    store_step carried h h'
| store_cached k res :
    carried = Some k ->
    OrderedDict.lookup k (tool_states h) = None ->
    tool_states h' = tool_states h ->
    pending_results h' = <[k := res]> (pending_results h) ->
    store_step carried h h'.

(** The dictionaries reached from [ts0] by assignments under the key an
    event carries: all that a handler does to the tool records, whether it
    runs to its end or is cut short by an exception. *)
Inductive touched (carried : option pykey) (ts0 : list (pykey * tool_state))
  : list (pykey * tool_state) -> Prop :=
| touched_none : touched carried ts0 ts0
| touched_set k st ts :
    carried = Some k -> touched carried ts0 ts ->
    touched carried ts0 (OrderedDict.set_item k st ts)
| touched_alter k f ts :
    carried = Some k -> touched carried ts0 ts ->
    touched carried ts0 (OrderedDict.alter_item f k ts).

Definition only_touches {A : Type} (carried : option pykey) (m : M A) : Prop :=
  forall ts0 k h,
    touched carried ts0 (tool_states h) ->
    touched carried ts0 (tool_states (state_of (m k h))).


(** ** One turn of [main]

    [main] builds a fresh handler for every submitted message, feeds it the
    stream, and calls [finalize] when the stream ends.  An exception raised
    by a handler or by [finalize] leaves the [try] through
    [except Exception], and [finalize] is not called after an exception in
    the loop.  [RequestError e] marks the entry into that branch with the
    exception [e]; the branch prints a panel with the message of [e] and
    the traceback, two more calls to rich that are not followed here. *)

Inductive turn_effect : Type :=
| Handler (e : effect)
| RequestError (e : exn).

Section turn.
Variable json_loads : string -> loads_result.
Variable json_dumps : json -> option string.
Variable py_str : json -> string.

Definition run_turn (k : Console) (responses : list (option event))
  : StreamHandler * list turn_effect :=
  match (handle_stream json_loads json_dumps py_str responses >> finalize) k init with
  | (Return _, h, o) => (h, map Handler o)
  | (Raise e, h, o) => (h, (map Handler o ++ [RequestError e])%list)
  end.
End turn.

(** The handler's part of the trace of a turn. *)
Definition handler_effects (trace : list turn_effect) : list effect :=
  omap (fun t => match t with Handler e => Some e | RequestError _ => None end)
       trace.

(** ** Reading more off a trace *)

(** The texts written under one of the categories [cats], in order. *)
Definition channel_saves (cats : list string) (o : list effect) : list string :=
  map snd (List.filter (fun ct => existsb (String.eqb (fst ct)) cats) (text_saves o)).

Definition thinking_categories : list string := ["think"; "sub_agent_think"].
Definition answer_categories : list string := ["answer"; "sub_agent_answer"].

(** The fragment an event appends to the thinking buffer, or to the answer
    buffer. *)
Definition thinking_fragments (d : dispatch) : list string :=
  match d with
  | Content ModelThinking content _ | Content SubAgentThinking content _ => [content]
  | _ => []
  end.

Definition answer_fragments (d : dispatch) : list string :=
  match d with
  | Content ModelAnswer content _ | Content SubAgentAnswer content _ => [content]
  | _ => []
  end.

(** The fragments a stream of responses carries for each buffer. *)
Definition stream_thinking (responses : list (option event)) : list string :=
  flat_map (fun r => thinking_fragments (classify r)) responses.

Definition stream_answer (responses : list (option event)) : list string :=
  flat_map (fun r => answer_fragments (classify r)) responses.

(** The two pairs of categories the handlers flush under. *)
Definition standard_pair (think_type answer_type : string) : Prop :=
  (think_type = "think" /\ answer_type = "answer")
  \/ (think_type = "sub_agent_think" /\ answer_type = "sub_agent_answer").

(** What a trace has written of one buffer, followed by what the buffer
    still holds. *)
Definition written_and_buffered (cats : list string) (buffer : list string)
    (o : list effect) : string :=
  join (channel_saves cats o) ++ join buffer.

(** The live-region calls of a trace replayed on one region: a region is
    started only when it is not live, updated and stopped only when it is.
    [None] when the trace breaks that discipline, otherwise whether the
    region is live at the end. *)
Definition same_region (g g' : region) : bool :=
  match g, g' with
  | ContentRegion, ContentRegion | ToolsRegion, ToolsRegion => true
  | _, _ => false
  end.

Fixpoint replay (g : region) (live : bool) (o : list effect) : option bool :=
  match o with
  | [] => Some live
  | LiveStart g' _ _ :: rest =>
      if same_region g g'
      then (if live then None else replay g true rest)
      else replay g live rest
  | LiveUpdate g' _ :: rest =>
      if same_region g g'
      then (if live then replay g true rest else None)
      else replay g live rest
  | LiveStop g' :: rest =>
      if same_region g g'
      then (if live then replay g false rest else None)
      else replay g live rest
  | _ :: rest => replay g live rest
  end.

Definition region_live (g : region) (h : StreamHandler) : bool :=
  match g with
  | ContentRegion => is_some (current_live h)
  | ToolsRegion => is_some (tools_live h)
  end.

(** The tool region is down, or shows the pending records of the state. *)
Definition tools_region_ok (py_str : json -> string) (h : StreamHandler) : Prop :=
  tools_live h = None \/ tools_live h = _render_pending_tools py_str h.

(** How many completion panels a trace prints, and how many [tool_call]
    entries it writes. *)
Definition is_completion_panel (e : effect) : bool :=
  match e with
  | ConsolePrint (ToolCompletePanel _ _ _ _) => true
  | _ => false
  end.

Definition is_tool_call_save (e : effect) : bool :=
  match e with
  | SaveContent _ (ToolCallPayload _ _) => true
  | _ => false
  end.

Definition count_effects (p : effect -> bool) (o : list effect) : nat :=
  length (List.filter p o).

(** Whether each completion panel of a trace is followed at once by a
    [tool_call] entry and each such entry follows a panel; [owed] tells
    that the trace opens with the entry of a panel printed before it. *)
Fixpoint paired (owed : bool) (o : list effect) : bool :=
  match o with
  | [] => negb owed
  | e :: rest =>
      if owed then is_tool_call_save e && paired false rest
      else if is_completion_panel e then paired true rest
      else negb (is_tool_call_save e) && paired false rest
  end.

(** ** More sample payloads *)

Module Sample2.

(** [42], a JSON document that is not an object. *)
Definition number : string := "42".

(** [{"id": [1]}], an object whose id is a list. *)
Definition list_id : string :=
  "{" ++ Sample.q ++ "id" ++ Sample.q ++ ": [1]}".

(** A number of more digits than [int] converts: [json.loads] raises
    [ValueError]. *)
Definition long_number : string :=
  string_of_list_ascii (List.repeat "1"%char 5000).

Definition loads (s : string) : loads_result :=
  if String.eqb s number then Loaded (JInt 42)
  else if String.eqb s list_id then Loaded (JObj [("id", JArr [JInt 1])])
  else if String.eqb s long_number then LoadsRaises ValueError
  else Sample.loads s.
End Sample2.

(** ** Payloads the tool handlers can work with *)

(** A tool event whose content [json.loads] refuses with
    [JSONDecodeError], or decodes to an object with a hashable ["id"];
    every event of another kind. *)
Definition workable (json_loads : string -> loads_result) (d : dispatch) : bool :=
  match d with
  | ToolCall _ content | ToolResult _ content =>
      match json_loads content with
      | Loaded (JObj f) => is_some (py_hash (field "id" f (JStr "")))
      | Loaded _ => false
      | JSONDecodeError => true
      | LoadsRaises _ => false
      end
  | _ => true
  end.

(** ** The image checks of [read_image] *)

Module VlmFiles.

(** [p.name]: the last component, [''] when there is none. *)
Definition name (p : Vlm.pypath) : string := List.last (Vlm.parts p) "".

(** [s.rfind(c)] for a character [c]; [None] stands for [-1]. *)
Fixpoint rfind (c : ascii) (s : string) : option nat :=
  match s with
  | EmptyString => None
  | String c' rest =>
      match rfind c rest with
      | Some i => Some (S i)
      | None => if Ascii.eqb c' c then Some 0%nat else None
      end
  end.

(** [s[i:]] *)
Fixpoint str_from (i : nat) (s : string) : string :=
  match i, s with
  | O, _ => s
  | S i', String _ rest => str_from i' rest
  | S _, EmptyString => EmptyString
  end.

(** [p.suffix]: the name from its last dot on, unless that dot opens or
    closes the name. *)
Definition suffix (p : Vlm.pypath) : string :=
  let name := name p in
  match rfind "."%char name with
  | Some i =>
      if Nat.ltb 0 i && Nat.ltb i (String.length name - 1)
      then str_from i name
      else ""
  | None => ""
  end.

(** [str(p)] *)
Definition str (p : Vlm.pypath) : string :=
  match Vlm.parts p with
  | [] => if Vlm.absolute p then "/" else "."
  | ps => (if Vlm.absolute p then "/" else "") ++ String.concat "/" ps
  end.

Section media.

(** [str.lower] and [mimetypes.guess_type(path)[0]]. *)
Variable lower : string -> string.
Variable guess_type : string -> option string.

Definition supported_extensions : list string :=
  [".jpg"; ".jpeg"; ".png"; ".gif"; ".webp"; ".bmp"].

Definition _validate_image_extension (path : string) : bool :=
  let ext := lower (suffix (Vlm.Path path)) in
  existsb (String.eqb ext) supported_extensions.

(** [mime_type or 'image/jpeg']: an empty string is falsy as [None] is. *)
Definition _get_media_type (path : string) : string :=
  match guess_type path with
  | Some mime_type =>
      if String.eqb mime_type "" then "image/jpeg" else mime_type
  | None => "image/jpeg"
  end.
End media.

(** The components [pathlib] itself produces: not empty, not ['.'], and
    without a slash. *)
Fixpoint has_char (c : ascii) (s : string) : bool :=
  match s with
  | EmptyString => false
  | String c' rest => Ascii.eqb c' c || has_char c rest
  end.

Definition plain_part (w : string) : bool :=
  negb (String.eqb w "") && negb (String.eqb w ".")
  && negb (has_char Vlm.slash w).

Definition well_formed (p : Vlm.pypath) : bool :=
  forallb plain_part (Vlm.parts p).

Section local_image.
Variable get_workspace_path : string.
Variable resolve : Vlm.pypath -> Vlm.error + Vlm.pypath.
Variable exists_ : Vlm.pypath -> Vlm.error + bool.
Variable is_file : Vlm.pypath -> Vlm.error + bool.
Variable read_bytes : Vlm.pypath -> Vlm.error + string.
Variable b64encode : string -> string.
Variable lower : string -> string.
Variable guess_type : string -> option string.

(** [read_image] with the two checks it calls on [str(file_path)]. *)
Definition read_image : string -> string -> Vlm.error + Vlm.image :=
  Vlm.read_image get_workspace_path resolve exists_ is_file read_bytes
    (fun file_path => _validate_image_extension lower (str file_path))
    (fun file_path => _get_media_type guess_type (str file_path))
    b64encode.
End local_image.

(** An ASCII [str.lower], for the examples. *)
Definition lower_char (c : ascii) : ascii :=
  let n := nat_of_ascii c in
  if Nat.leb 65 n && Nat.leb n 90 then ascii_of_nat (n + 32) else c.

Fixpoint ascii_lower (s : string) : string :=
  match s with
  | EmptyString => EmptyString
  | String c rest => String (lower_char c) (ascii_lower rest)
  end.
End VlmFiles.

(** ** File completions of the prompt

    [get_file_completions] of [src/utils/shell_prompt.py].  The functions
    of [os] and [os.path] it calls are parameters, read as one snapshot of
    the file system; [listdir] is [None] where [os.listdir] raises
    [OSError].  The variable [user_prefix] of the source is assigned and
    never read; it is left out. *)

Module ShellPrompt.

(** A [Completion], by the arguments it is built from. *)
Record Completion : Type := mk_completion {
  text : string;
  start_position : Z;
  display : string;
  display_meta : string
}.

(** [sub in s] *)
Fixpoint contains (sub s : string) : bool :=
  String.prefix sub s
  || match s with
     | EmptyString => false
     | String _ rest => contains sub rest
     end.

(** [s.endswith(suf)] *)
Definition endswith (suf s : string) : bool :=
  Nat.leb (String.length suf) (String.length s)
  && String.eqb (VlmFiles.str_from (String.length s - String.length suf) s) suf.

(** [s.replace(a, b)] for single characters. *)
Fixpoint replace_char (a b : ascii) (s : string) : string :=
  match s with
  | EmptyString => EmptyString
  | String c rest =>
      String (if Ascii.eqb c a then b else c) (replace_char a b rest)
  end.

Section completions.

(** [get_workspace_path()] and the functions of [os.path] and [os] the
    generator calls.  [realpath] raises [ValueError] on a path with a NUL
    character in it, which is [None] here; [listdir] raises [OSError] on a
    directory it cannot list, which is [None] too; the others return for
    every string. *)
Variable get_workspace_path : string.
Variable realpath : string -> option string.
Variable normpath dirname basename : string -> string.
Variable join : string -> string -> string.
Variable isabs isdir : string -> bool.
Variable listdir : string -> option (list string).
Variable lower : string -> string.
Variable sorted : list string -> list string.

(** One round of the loop over the entries: [None] where the source says
    [continue], the completion it yields otherwise. *)
Definition visit (search_dir prefix_part : string)
    (extensions : option (list string)) (entry : string) : option Completion :=
  if String.prefix "." entry && negb (String.prefix "." prefix_part) then None
  else if negb (String.eqb prefix_part "")
          && negb (String.prefix prefix_part (lower entry)) then None
  else
    let full_path := join search_dir entry in
    let is_dir := isdir full_path in
    let filtered :=
      match extensions with
      | Some ((_ :: _) as exts) =>
          negb is_dir
          && negb (existsb (fun ext => endswith (lower ext) (lower entry)) exts)
      | _ => false
      end in
    if filtered then None
    else
      let display_name := if is_dir then entry ++ "/" else entry in
      let meta := if is_dir then "dir" else "file" in
      let start_pos :=
        if negb (String.eqb prefix_part "")
        then (- Z.of_nat (len prefix_part))%Z else 0%Z in
      Some {| text := entry ++ (if is_dir then "/" else "");
              start_position := start_pos;
              display := display_name;
              display_meta := meta |}.

(** The loop, with its counter of yielded completions. *)
Fixpoint scan (search_dir prefix_part : string) (extensions : option (list string))
    (entries : list string) (count : nat) : list Completion :=
  match entries with
  | [] => []
  | entry :: rest =>
      if Nat.leb 30 count then []
      else
        match visit search_dir prefix_part extensions entry with
        | None => scan search_dir prefix_part extensions rest count
        | Some c => c :: scan search_dir prefix_part extensions rest (S count)
        end
  end.

(** The completions the generator yields, in order; [None] when it raises
    instead, which it does before it yields anything.  An [OSError] of
    [listdir] is caught and ends the generator. *)
Definition get_file_completions (partial_path : string)
    (extensions : option (list string)) : option (list Completion) :=
  let workspace :=
    if String.eqb get_workspace_path "" then "." else get_workspace_path in
  match realpath workspace with
  | None => None
  | Some workspace_resolved =>
      let partial_path := if String.eqb partial_path "" then "./" else partial_path in
      if contains ".." partial_path || isabs partial_path then Some []
      else
        let partial_path := replace_char Vlm.backslash Vlm.slash partial_path in
        let search_base := normpath (join workspace partial_path) in
        match realpath search_base with
        | None => None
        | Some search_base_resolved =>
            if negb (String.prefix workspace_resolved search_base_resolved)
            then Some []
            else
              let search_dir :=
                if isdir search_base then search_base else dirname search_base in
              let prefix_part :=
                if isdir search_base then "" else lower (basename search_base) in
              match realpath search_dir with
              | None => None
              | Some search_dir_resolved =>
                  if negb (String.prefix workspace_resolved search_dir_resolved)
                  then Some []
                  else if negb (isdir search_dir) then Some []
                  else
                    match listdir search_dir with
                    | Some entries =>
                        Some (scan search_dir prefix_part extensions
                                (sorted entries) 0)
                    | None => Some []
                    end
              end
        end
  end.

(** The directory a partial path is completed in, and the name prefix that
    is matched, as [get_file_completions] computes them. *)
Definition search_base (partial_path : string) : string :=
  let workspace :=
    if String.eqb get_workspace_path "" then "." else get_workspace_path in
  let partial_path := if String.eqb partial_path "" then "./" else partial_path in
  normpath (join workspace (replace_char Vlm.backslash Vlm.slash partial_path)).

Definition search_dir (partial_path : string) : string :=
  if isdir (search_base partial_path) then search_base partial_path
  else dirname (search_base partial_path).

Definition prefix_part (partial_path : string) : string :=
  if isdir (search_base partial_path) then ""
  else lower (basename (search_base partial_path)).
End completions.

(** A small file system for the examples: the workspace [/ws] holds the
    directory [docs] and the files [.env], [b.md] and [a.txt]. *)
Module Fs.
Definition join (a b : string) : string := a ++ "/" ++ b.

Definition normpath (p : string) : string :=
  VlmFiles.str (Vlm.resolve_lexical (Vlm.Path p)).

Definition dirname (p : string) : string :=
  match VlmFiles.rfind Vlm.slash p with
  | Some (S i) => str_prefix (S i) p
  | Some O => "/"
  | None => ""
  end.

Definition basename (p : string) : string :=
  match VlmFiles.rfind Vlm.slash p with
  | Some i => VlmFiles.str_from (S i) p
  | None => p
  end.

Definition isdir (p : string) : bool :=
  String.eqb p "/ws" || String.eqb p "/ws/docs".

Definition listdir (p : string) : option (list string) :=
  if String.eqb p "/ws" then Some ["docs"; "b.md"; ".env"; "a.txt"]
  else if String.eqb p "/ws/docs" then Some []
  else None.

Fixpoint insert_sorted (x : string) (l : list string) : list string :=
  match l with
  | [] => [x]
  | y :: rest => if String.leb x y then x :: l else y :: insert_sorted x rest
  end.

Definition sorted (l : list string) : list string :=
  fold_right insert_sorted [] l.

(** No symbolic links: a path is its own real path, unless it has a NUL
    character in it. *)
Definition realpath (p : string) : option string :=
  if Vlm.has_nul p then None else Some p.

Definition completions
  : string -> option (list string) -> option (list Completion) :=
  get_file_completions "/ws" realpath normpath dirname basename join
    (String.prefix "/") isdir listdir VlmFiles.ascii_lower sorted.
End Fs.
End ShellPrompt.

(** * Properties *)

(** ** Running the monad *)

Lemma after_effects_nil {A : Type} (r : outcome A * StreamHandler * list effect) :
  after_effects [] r = r.
Proof. by destruct r as [[? ?] ?]. Qed.

Lemma bind_run_at {A B : Type} (m : M A) (f : A -> M B) k h a h1 o1 :
  m k h = (Return a, h1, o1) ->
  bind m f k h = after_effects o1 (f a (shift o1 k) h1).
Proof.
  intros Hm. unfold bind, after_effects. rewrite Hm.
  by destruct (f a (shift o1 k) h1) as [[? ?] ?].
Qed.

Lemma bind_run {A B : Type} (m : M A) (f : A -> M B) h a h1 o1 :
  m quiet h = (Return a, h1, o1) -> bind m f quiet h = after_effects o1 (f a quiet h1).
Proof. apply bind_run_at. Qed.

Lemma bind_ret {A B : Type} (a : A) (f : A -> M B) k h : bind (ret a) f k h = f a k h.
Proof. erewrite bind_run_at by reflexivity. apply after_effects_nil. Qed.

Lemma bind_get {B : Type} (f : StreamHandler -> M B) k h : bind get f k h = f h k h.
Proof. erewrite bind_run_at by reflexivity. apply after_effects_nil. Qed.

Lemma bind_modify {B : Type} g (f : unit -> M B) k h :
  bind (modify g) f k h = f tt k (g h).
Proof. erewrite bind_run_at by reflexivity. apply after_effects_nil. Qed.

Lemma bind_raise {A B : Type} e (f : A -> M B) k h :
  bind (raise e) f k h = (Raise e, h, []).
Proof. reflexivity. Qed.

(** ** What the console lets through *)

Lemma accepts_quiet o : accepts quiet o = true.
Proof.
  induction o as [|e o IH]; [reflexivity|].
  simpl. unfold returns. rewrite orb_true_r. exact IH.
Qed.

Lemma accepts_app k o1 o2 :
  accepts k (o1 ++ o2) = accepts k o1 && accepts (shift o1 k) o2.
Proof.
  revert k. induction o1 as [|e o1 IH]; intros k; [reflexivity|].
  simpl. rewrite IH, andb_assoc. reflexivity.
Qed.

Lemma performed_accepted k o : accepts k o = true -> performed k o = o.
Proof.
  revert k. induction o as [|e o IH]; intros k; [reflexivity|].
  simpl. intros [He Ho]%andb_prop. by rewrite He, IH.
Qed.

Lemma performed_app k o1 o2 :
  performed k (o1 ++ o2)
  = if accepts k o1 then (o1 ++ performed (shift o1 k) o2)%list
    else performed k o1.
Proof.
  revert k. induction o1 as [|e o1 IH]; intros k; [reflexivity|].
  simpl. destruct (returns k e); [|reflexivity].
  rewrite IH. simpl. by destruct (accepts (shift [e] k) o1).
Qed.

Lemma performed_prefix k o : exists rest, o = (performed k o ++ rest)%list.
Proof.
  revert k. induction o as [|e o IH]; intros k; [by exists []|].
  simpl. destruct (returns k e); [|by exists (e :: o)].
  destruct (IH (shift [e] k)) as [rest Hrest]. exists rest.
  simpl. by rewrite <- Hrest.
Qed.

(** ** A run on any console is the run on the quiet console, cut at the
    first call that raises *)

Definition faithful {A : Type} (m : M A) : Prop :=
  forall k h,
    if accepts k (effects_of (m quiet h)) then m k h = m quiet h
    else outcome_of (m k h) = Raise RichError
         /\ effects_of (m k h) = performed k (effects_of (m quiet h)).

Lemma faithful_ret {A : Type} (a : A) : faithful (ret a).
Proof. intros k h. reflexivity. Qed.

Lemma faithful_get : faithful get.
Proof. intros k h. reflexivity. Qed.

Lemma faithful_modify f : faithful (modify f).
Proof. intros k h. reflexivity. Qed.

Lemma faithful_raise {A : Type} e : faithful (@raise A e).
Proof. intros k h. reflexivity. Qed.

Lemma emit_quiet e h : emit e quiet h = (Return tt, h, [e]).
Proof. unfold emit, returns. by rewrite orb_true_r. Qed.

Lemma faithful_emit e : faithful (emit e).
Proof.
  intros k h. rewrite emit_quiet. simpl. unfold emit.
  destruct (returns k e); simpl; [reflexivity|]. by split.
Qed.

Lemma bind_raises {A B : Type} (m : M A) (f : A -> M B) k h e :
  outcome_of (m k h) = Raise e ->
  bind m f k h = (Raise e, state_of (m k h), effects_of (m k h)).
Proof.
  unfold bind. destruct (m k h) as [[[a|e'] h1] o1]; simpl; [done|].
  by intros [= ->].
Qed.

Lemma faithful_bind {A B : Type} (m : M A) (f : A -> M B) :
  faithful m -> (forall a, faithful (f a)) -> faithful (bind m f).
Proof.
  intros Hm Hf k h. specialize (Hm k h).
  destruct (m quiet h) as [[[a|e] h1] o1] eqn:Hq.
  - rewrite (bind_run m f h a h1 o1 Hq).
    specialize (Hf a (shift o1 k) h1).
    change (f a (shift o1 quiet) h1) with (f a quiet h1) in Hf.
    destruct (f a quiet h1) as [[r2 h2] o2].
    unfold after_effects, effects_of, state_of, outcome_of in *.
    cbn [fst snd] in *.
    rewrite accepts_app, performed_app.
    destruct (accepts k o1).
    + rewrite (bind_run_at m f k h a h1 o1 Hm). unfold after_effects.
      cbn [andb]. destruct (accepts (shift o1 k) o2).
      * by rewrite Hf.
      * destruct Hf as [Ho He].
        unfold effects_of, state_of, outcome_of. cbn [fst snd].
        by rewrite Ho, He.
    + destruct Hm as [Ho He]. cbn [andb].
      rewrite (bind_raises m f k h RichError) by exact Ho.
      by cbn [fst snd].
  - rewrite (bind_raises m f quiet h e) by (by rewrite Hq).
    rewrite Hq. unfold effects_of, state_of, outcome_of in *. cbn [fst snd] in *.
    destruct (accepts k o1).
    + rewrite (bind_raises m f k h e) by (by rewrite Hm). by rewrite Hm.
    + destruct Hm as [Ho He].
      rewrite (bind_raises m f k h RichError) by exact Ho.
      by cbn [fst snd].
Qed.

Lemma faithful_when b (m : M unit) : faithful m -> faithful (when b m).
Proof. intros Hm. destruct b; [exact Hm|apply faithful_ret]. Qed.

(** A run in which no call to rich raises is the run on the quiet console. *)
Lemma faithful_clean {A : Type} (m : M A) k h :
  faithful m -> clean (m k h) = true -> m k h = m quiet h.
Proof.
  intros Hm Hclean. specialize (Hm k h).
  destruct (accepts k (effects_of (m quiet h))); [exact Hm|].
  destruct Hm as [Hm _]. unfold clean in Hclean. by rewrite Hm in Hclean.
Qed.

Lemma clean_returns {A : Type} (r : outcome A * StreamHandler * list effect) a :
  outcome_of r = Return a -> clean r = true.
Proof. unfold clean. by intros ->. Qed.

Lemma faithful_effects {A : Type} (m : M A) k h :
  faithful m -> effects_of (m k h) = performed k (effects_of (m quiet h)).
Proof.
  intros Hm. specialize (Hm k h).
  destruct (accepts k (effects_of (m quiet h))) eqn:Hacc; [|by destruct Hm].
  by rewrite Hm, performed_accepted.
Qed.

Lemma faithful_accepted {A : Type} (m : M A) k h :
  faithful m -> accepts k (effects_of (m quiet h)) = true -> m k h = m quiet h.
Proof. intros Hm Hacc. specialize (Hm k h). by rewrite Hacc in Hm. Qed.

Lemma faithful_outcome {A : Type} (m : M A) k h :
  faithful m ->
  outcome_of (m k h)
  = if accepts k (effects_of (m quiet h)) then outcome_of (m quiet h)
    else Raise RichError.
Proof.
  intros Hm. specialize (Hm k h).
  destruct (accepts k (effects_of (m quiet h))); [by rewrite Hm|by destruct Hm].
Qed.

Ltac faithful_step :=
  lazymatch goal with
  | |- faithful (bind _ _) => apply faithful_bind; [|intros ?]
  | |- faithful (ret _) => apply faithful_ret
  | |- faithful get => apply faithful_get
  | |- faithful (modify _) => apply faithful_modify
  | |- faithful (emit _) => apply faithful_emit
  | |- faithful (raise _) => apply faithful_raise
  | |- faithful (when _ _) => apply faithful_when
  | |- faithful (match ?x with _ => _ end) => destruct x
  end.

Create HintDb faithful.
Ltac faithfully := repeat first [solve [auto with faithful nocore] | faithful_step].

Lemma faithful__stop_current_live : faithful _stop_current_live.
Proof. unfold _stop_current_live. faithfully. Qed.

Lemma faithful__stop_tools_live : faithful _stop_tools_live.
Proof. unfold _stop_tools_live. faithfully. Qed.

Lemma faithful__save_and_clear_buffers think_type answer_type :
  faithful (_save_and_clear_buffers think_type answer_type).
Proof. unfold _save_and_clear_buffers. faithfully. Qed.

#[local] Hint Resolve faithful__stop_current_live faithful__stop_tools_live
  faithful__save_and_clear_buffers : faithful.

Lemma faithful__update_live r transient : faithful (_update_live r transient).
Proof. unfold _update_live. faithfully. Qed.

Lemma faithful__update_tools_live py_str : faithful (_update_tools_live py_str).
Proof. unfold _update_tools_live. faithfully. Qed.

Lemma faithful__transition_from_tool_state : faithful _transition_from_tool_state.
Proof. unfold _transition_from_tool_state. faithfully. Qed.

#[local] Hint Resolve faithful__update_live faithful__update_tools_live
  faithful__transition_from_tool_state : faithful.

Lemma faithful__transition_from_content_state target think_type answer_type :
  faithful (_transition_from_content_state target think_type answer_type).
Proof. unfold _transition_from_content_state. faithfully. Qed.

Lemma faithful_get_record k : faithful (get_record k).
Proof. unfold get_record. faithfully. Qed.

#[local] Hint Resolve faithful__transition_from_content_state faithful_get_record
  : faithful.

Lemma faithful_set_complete k r : faithful (set_complete k r).
Proof. unfold set_complete. faithfully. Qed.

Lemma faithful__print_tool_complete py_str st :
  faithful (_print_tool_complete py_str st).
Proof. unfold _print_tool_complete. faithfully. Qed.

Lemma faithful_dict_get d k v : faithful (dict_get d k v).
Proof. unfold dict_get. faithfully. Qed.

Lemma faithful_hash_key v : faithful (hash_key v).
Proof. unfold hash_key. faithfully. Qed.

#[local] Hint Resolve faithful_set_complete faithful__print_tool_complete
  faithful_dict_get faithful_hash_key : faithful.

Section faithful_handlers.
Variable json_loads : string -> loads_result.
Variable json_dumps : json -> option string.
Variable py_str : json -> string.

Lemma faithful_content_handler e content label :
  faithful (content_handler e content label).
Proof.
  destruct e; simpl;
    unfold handle_model_thinking, handle_model_answer,
      handle_sub_agent_thinking, handle_sub_agent_answer; faithfully.
Qed.

Lemma faithful_handle_tool_call content :
  faithful (handle_tool_call json_loads json_dumps py_str content).
Proof. unfold handle_tool_call. faithfully. Qed.

Lemma faithful_handle_sub_agent_tool_call content :
  faithful (handle_sub_agent_tool_call json_loads json_dumps py_str content).
Proof. unfold handle_sub_agent_tool_call. faithfully. Qed.

Lemma faithful_handle_tool_result content :
  faithful (handle_tool_result json_loads py_str content).
Proof. unfold handle_tool_result. faithfully. Qed.

Lemma faithful_handle_sub_agent_tool_result content :
  faithful (handle_sub_agent_tool_result json_loads py_str content).
Proof. unfold handle_sub_agent_tool_result. faithfully. Qed.

Lemma faithful_handle_sub_agent_start subagent_name task_desc :
  faithful (handle_sub_agent_start subagent_name task_desc).
Proof. unfold handle_sub_agent_start. faithfully. Qed.

Lemma faithful_handle_sub_agent_end content : faithful (handle_sub_agent_end content).
Proof. unfold handle_sub_agent_end. faithfully. Qed.

Lemma faithful_handle_error content : faithful (handle_error content).
Proof. unfold handle_error. faithfully. Qed.

Lemma faithful_finalize : faithful finalize.
Proof. unfold finalize. faithfully. Qed.


Lemma faithful_run_dispatch d :
  faithful (run_dispatch json_loads json_dumps py_str d).
Proof.
  destruct d as [|e content label|[] content|[] content|? ?|content|content];
    simpl;
    auto using faithful_ret, faithful_content_handler, faithful_handle_tool_call,
      faithful_handle_sub_agent_tool_call, faithful_handle_tool_result,
      faithful_handle_sub_agent_tool_result, faithful_handle_sub_agent_start,
      faithful_handle_sub_agent_end, faithful_handle_error.
Qed.
End faithful_handlers.


(** ** The ordered dictionary *)

Section ordered_dict_facts.
Context {V : Type}.
Implicit Types (d : list (pykey * V)) (k : pykey) (v : V).

Lemma lookup_set_item_eq k v d :
  OrderedDict.lookup k (OrderedDict.set_item k v d) = Some v.
Proof.
  induction d as [|[k' v'] d IH]; simpl.
  - by rewrite decide_True.
  - destruct (decide (k = k')) as [->|Hne]; simpl.
    + by rewrite decide_True.
    + by rewrite decide_False.
Qed.

Lemma lookup_set_item_ne k k' v d :
  k ≠ k' ->
  OrderedDict.lookup k' (OrderedDict.set_item k v d) = OrderedDict.lookup k' d.
Proof.
  intros Hne. induction d as [|[k0 v0] d IH]; simpl.
  - rewrite decide_False; [done|congruence].
  - destruct (decide (k = k0)) as [->|Hk]; simpl.
    + rewrite !decide_False; congruence.
    + destruct (decide (k' = k0)); [done|apply IH].
Qed.

Lemma lookup_alter_item_eq (f : V -> V) k d :
  OrderedDict.lookup k (OrderedDict.alter_item f k d)
  = f <$> OrderedDict.lookup k d.
Proof.
  induction d as [|[k0 v0] d IH]; simpl; [done|].
  destruct (decide (k = k0)) as [->|Hk]; simpl.
  - by rewrite decide_True.
  - by rewrite decide_False.
Qed.

Lemma lookup_alter_item_ne (f : V -> V) k k' d :
  k ≠ k' ->
  OrderedDict.lookup k' (OrderedDict.alter_item f k d) = OrderedDict.lookup k' d.
Proof.
  intros Hne. induction d as [|[k0 v0] d IH]; simpl; [done|].
  destruct (decide (k = k0)) as [->|Hk]; simpl.
  - rewrite !decide_False; congruence.
  - destruct (decide (k' = k0)); [done|apply IH].
Qed.

Lemma keys_alter_item (f : V -> V) k d :
  OrderedDict.keys (OrderedDict.alter_item f k d) = OrderedDict.keys d.
Proof.
  induction d as [|[k0 v0] d IH]; simpl; [done|].
  destruct (decide (k = k0)); simpl; [done|].
  by rewrite <- IH.
Qed.

Lemma elem_of_keys_set_item k k' v d :
  k' ∈ OrderedDict.keys (OrderedDict.set_item k v d) ->
  k' = k \/ k' ∈ OrderedDict.keys d.
Proof.
  induction d as [|[k0 v0] d IH]; simpl.
  - rewrite list_elem_of_singleton. by left.
  - destruct (decide (k = k0)) as [->|Hk]; simpl.
    + by right.
    + rewrite !elem_of_cons. intros [->|Hin]; [right; by left|].
      destruct (IH Hin); [by left|right; by right].
Qed.

Lemma NoDup_keys_set_item k v d :
  NoDup (OrderedDict.keys d) ->
  NoDup (OrderedDict.keys (OrderedDict.set_item k v d)).
Proof.
  induction d as [|[k0 v0] d IH]; simpl; intros Hnd.
  - apply NoDup_singleton.
  - apply NoDup_cons in Hnd as [Hnotin Hnd].
    destruct (decide (k = k0)) as [->|Hk]; simpl.
    + by apply NoDup_cons.
    + apply NoDup_cons. split; [|by apply IH].
      intros Hin. apply elem_of_keys_set_item in Hin as [Heq|Hin]; congruence.
Qed.

Lemma lookup_None_not_key k d :
  OrderedDict.lookup k d = None <-> k ∉ OrderedDict.keys d.
Proof.
  induction d as [|[k0 v0] d IH]; simpl.
  - split; [intros _; apply not_elem_of_nil|done].
  - rewrite not_elem_of_cons. destruct (decide (k = k0)) as [->|Hk].
    + split; [done|]. intros [? _]. congruence.
    + rewrite IH. tauto.
Qed.

Lemma filter_key_absent (P : pykey * V -> Prop) `{!forall x, Decision (P x)} k d :
  k ∉ OrderedDict.keys d ->
  filter (fun kv => fst kv = k /\ P kv) d = [].
Proof.
  induction d as [|[k0 v0] d IH]; simpl; intros Hnotin; [done|].
  apply not_elem_of_cons in Hnotin as [Hne Hnotin].
  rewrite filter_cons. simpl. case_decide as Hc; [|by apply IH].
  destruct Hc as [Hk _]. congruence.
Qed.

(** With distinct keys, at most one entry of the dictionary has key [k]. *)
Lemma NoDup_keys_at_most_one (P : pykey * V -> Prop)
    `{!forall x, Decision (P x)} k d :
  NoDup (OrderedDict.keys d) ->
  length (filter (fun kv => fst kv = k /\ P kv) d) <= 1.
Proof.
  induction d as [|[k0 v0] d IH]; simpl; intros Hnd; [lia|].
  apply NoDup_cons in Hnd as [Hnotin Hnd].
  rewrite filter_cons. simpl. case_decide as Hc; simpl; [|by apply IH].
  destruct Hc as [<- _]. rewrite filter_key_absent; [simpl; lia|done].
Qed.
End ordered_dict_facts.

(** ** What the helper methods compute *)


Lemma _stop_tools_live_run h :
  _stop_tools_live quiet h
  = (Return tt, set_tools_live None h, stop_effects ToolsRegion (tools_live h)).
Proof. destruct h as [? ? ? ? ? ? [r|]]; reflexivity. Qed.

Lemma _stop_current_live_run h :
  _stop_current_live quiet h
  = (Return tt, set_current_live None h, stop_effects ContentRegion (current_live h)).
Proof. destruct h as [? ? ? ? ? [r|] ?]; reflexivity. Qed.

Lemma _save_and_clear_buffers_run think_type answer_type h :
  _save_and_clear_buffers think_type answer_type quiet h
  = (Return tt, clear_buffers h, flush_writes think_type answer_type h).
Proof. destruct h as [? ? [|t tb] [|a ab] ? ? ?]; reflexivity. Qed.

Section helper_facts.
Variable json_loads : string -> loads_result.
Variable json_dumps : json -> option string.
Variable py_str : json -> string.


Lemma _update_tools_live_run h :
  _update_tools_live py_str quiet h
  = (Return tt, set_tools_live (_render_pending_tools py_str h) h,
     update_tools_effects py_str h).
Proof.
  unfold _update_tools_live, update_tools_effects, bind, get.
  destruct (_render_pending_tools py_str h) as [pc|].
  - destruct h as [? ? ? ? ? ? [r|]]; reflexivity.
  - rewrite _stop_tools_live_run. reflexivity.
Qed.


Lemma _print_tool_complete_run st r h :
  result st = Some r ->
  _print_tool_complete py_str st quiet h
  = (Return tt, h,
     [ConsolePrint (complete_panel py_str st r);
      SaveContent "tool_call" (ToolCallPayload (name st) (args_str st))]).
Proof. intros Hr. unfold _print_tool_complete. rewrite Hr. reflexivity. Qed.

Lemma get_record_run k st h :
  OrderedDict.lookup k (tool_states h) = Some st ->
  get_record k quiet h = (Return st, h, []).
Proof. intros Hk. unfold get_record, bind, get. by rewrite Hk. Qed.

Lemma set_complete_run k r st h :
  OrderedDict.lookup k (tool_states h) = Some st ->
  set_complete k r quiet h
  = (Return tt,
     set_tool_states (OrderedDict.alter_item (mark_complete r) k (tool_states h)) h,
     []).
Proof.
  intros Hk. unfold set_complete, bind. by rewrite (get_record_run _ _ _ Hk).
Qed.
End helper_facts.

(** ** Flushing the buffers *)

(** A flush calls the sink only, so that it runs the same on every
    console. *)
Lemma _save_and_clear_buffers_run_at think_type answer_type k h :
  _save_and_clear_buffers think_type answer_type k h
  = (Return tt, clear_buffers h, flush_writes think_type answer_type h).
Proof.
  rewrite <- _save_and_clear_buffers_run.
  apply faithful_clean; [apply faithful__save_and_clear_buffers|].
  destruct h as [? ? [|t tb] [|a ab] ? ? ?]; reflexivity.
Qed.

(** C2. On every console, a flush writes each non-empty buffer to the
    sink exactly once, as the concatenation of its fragments in the order
    they were appended, and writes nothing for an empty buffer; it
    returns, leaves both buffers empty and touches nothing else, so that
    flushing again right away writes nothing at all. *)
Theorem flush_writes_each_buffer_once
    (think_type answer_type : string) (k : Console) (h : StreamHandler) :
  let r := _save_and_clear_buffers think_type answer_type k h in
  outcome_of r = Return tt
  /\ effects_of r =
       ((if nonempty (thinking_buffer h)
         then [SaveContent think_type
                 (TextPayload (String.concat "" (thinking_buffer h)))]
         else [])
        ++ (if nonempty (answer_buffer h)
            then [SaveContent answer_type
                    (TextPayload (String.concat "" (answer_buffer h)))]
            else []))%list
  /\ thinking_buffer (state_of r) = []
  /\ answer_buffer (state_of r) = []
  /\ tool_states (state_of r) = tool_states h
  /\ pending_results (state_of r) = pending_results h
  /\ current_state (state_of r) = current_state h
  /\ current_live (state_of r) = current_live h
  /\ tools_live (state_of r) = tools_live h
  /\ (forall k',
        effects_of (_save_and_clear_buffers think_type answer_type k' (state_of r))
        = []).
Proof.
  intros r. subst r. rewrite _save_and_clear_buffers_run_at.
  repeat split.
Qed.

(** ** The dispatcher *)

Section dispatcher_facts.
Variable json_loads : string -> loads_result.
Variable json_dumps : json -> option string.
Variable py_str : json -> string.

Lemma assoc_get_absent {A : Type} (k : string) (l : list (string * A)) :
  k ∉ map fst l -> assoc_get k l = None.
Proof.
  induction l as [|[k' v] l IH]; simpl; [done|].
  intros Hnotin. apply not_elem_of_cons in Hnotin as [Hne Hnotin].
  apply String.eqb_neq in Hne. rewrite Hne. by apply IH.
Qed.

Lemma handlers_keys response content :
  map fst (handlers json_loads json_dumps py_str response content) = event_types.
Proof. reflexivity. Qed.

(** C8. On every console, a [None] response, a response without a type
    tag (or with [None] or the empty string for one) and a response whose
    tag has no handler all make the dispatcher return at once: it does not
    raise, the handler object is left exactly as it was, and nothing is
    written to the sink, printed, or done to a live region. *)
Theorem unrecognized_response_ignored
    (response : option event) (k : Console) (h : StreamHandler) :
  (response = None
   \/ exists ev, response = Some ev
        /\ (ev_type ev = None
            \/ exists ty, ev_type ev = Some ty /\ ty ∉ event_types)) ->
  handle_response json_loads json_dumps py_str response k h = (Return tt, h, []).
Proof.
  intros [->|(ev & -> & [Hty|(ty & Hty & Hnotin)])]; unfold handle_response;
    [reflexivity|by rewrite Hty|].
  rewrite Hty. destruct (String.eqb ty ""); [reflexivity|].
  rewrite assoc_get_absent; [reflexivity|by rewrite handlers_keys].
Qed.
End dispatcher_facts.

(** ** Phase changes *)

Lemma _transition_from_tool_state_run h :
  _transition_from_tool_state quiet h
  = (Return tt, after_tool_transition h, tool_transition_effects h).
Proof.
  unfold _transition_from_tool_state, tool_transition_effects,
    after_tool_transition, leaving_tools.
  unfold bind, get, when.
  destruct (phase_in _ _); [|reflexivity].
  by rewrite _stop_tools_live_run.
Qed.

Lemma current_of_after_tool_transition h :
  current_state (after_tool_transition h) = current_state h
  /\ current_live (after_tool_transition h) = current_live h.
Proof. unfold after_tool_transition. by destruct (leaving_tools h). Qed.

Lemma buffers_of_after_tool_transition think_type answer_type h :
  flush_writes think_type answer_type (after_tool_transition h)
  = flush_writes think_type answer_type h.
Proof. unfold after_tool_transition. by destruct (leaving_tools h). Qed.

Lemma _transition_from_content_state_run target think_type answer_type h :
  _transition_from_content_state target think_type answer_type quiet h
  = (Return tt, after_content_transition target h,
     content_transition_effects target think_type answer_type h).
Proof.
  unfold _transition_from_content_state, bind at 1.
  rewrite _transition_from_tool_state_run.
  unfold after_content_transition, content_transition_effects, must_flush.
  destruct (current_of_after_tool_transition h) as [Hcs Hcl].
  unfold bind at 1, get, when. rewrite Hcs, Hcl.
  destruct (negb _ && _) eqn:Hflush; [|reflexivity].
  unfold bind. rewrite _save_and_clear_buffers_run, _stop_current_live_run.
  rewrite buffers_of_after_tool_transition. simpl. rewrite Hcl.
  apply andb_prop in Hflush as [_ Hlive].
  destruct (current_live h); [reflexivity|discriminate].
Qed.

Lemma _update_live_run r transient h :
  _update_live r transient quiet h
  = (Return tt, set_current_live (Some r) h,
     [draw_effect (current_live h) r transient]).
Proof.
  unfold _update_live, draw_effect, bind, get.
  destruct (current_live h); reflexivity.
Qed.

Lemma content_handler_run e content label h :
  content_handler e content label quiet h
  = let h1 := append_fragment e content
                (set_current_state (Some (content_phase e))
                   (after_content_transition (content_phase e) h)) in
    let panel := content_panel e label (join (own_buffer e h1)) in
    (Return tt, set_current_live (Some panel) h1,
     (content_transition_effects (content_phase e)
        (fst (content_categories e)) (snd (content_categories e)) h
      ++ [draw_effect (current_live h1) panel false])%list).
Proof.
  destruct e; simpl;
    unfold handle_model_thinking, handle_model_answer,
      handle_sub_agent_thinking, handle_sub_agent_answer;
    unfold bind at 1; rewrite _transition_from_content_state_run;
    unfold bind, modify, get; rewrite _update_live_run; reflexivity.
Qed.


(** ** Tool events *)

Lemma head_flush_run phases think_type answer_type h :
  (let* h := get in
   when (negb (phase_in (current_state h) phases) && is_some (current_live h))
     (_save_and_clear_buffers think_type answer_type >> _stop_current_live))
    quiet h
  = (Return tt, after_head_flush phases h,
     head_flush_effects phases think_type answer_type h).
Proof.
  unfold after_head_flush, head_flush_effects, head_flush, bind at 1, get, when.
  destruct (negb _ && _) eqn:Hflush; [|reflexivity].
  unfold bind. rewrite _save_and_clear_buffers_run, _stop_current_live_run. simpl.
  apply andb_prop in Hflush as [_ Hlive].
  destruct (current_live h); [reflexivity|discriminate].
Qed.

Section tool_facts.
Variable json_loads : string -> loads_result.
Variable json_dumps : json -> option string.
Variable py_str : json -> string.

(** The common part of the four tool handlers: the fields of the payload
    are read and the id is hashed. *)
Ltac read_payload :=
  unfold dict_get; rewrite !bind_ret; unfold hash_key, field;
  destruct (py_hash _) as [k|]; [|reflexivity];
  rewrite bind_ret.

Lemma register_call_run k st h :
  (modify (fun h =>
     set_tool_states (OrderedDict.set_item k st (tool_states h)) h) >>
   let* h := get in
   match pending_results h !! k with
   | Some cached =>
       set_complete k (py_str cached) >>
       modify (fun h => set_pending_results (delete k (pending_results h)) h) >>
       _stop_tools_live >>
       let* st := get_record k in
       _print_tool_complete py_str st
   | None => _update_tools_live py_str
   end) quiet h
  = register_call py_str k st h.
Proof.
  unfold register_call, bind at 1, modify. unfold bind at 1, get. simpl.
  destruct (pending_results h !! k) as [cached|].
  - unfold bind at 1.
    erewrite set_complete_run by (simpl; apply lookup_set_item_eq).
    unfold bind at 1, modify. unfold bind at 1.
    rewrite _stop_tools_live_run. unfold bind.
    erewrite get_record_run
      by (simpl; rewrite lookup_alter_item_eq, lookup_set_item_eq; reflexivity).
    erewrite _print_tool_complete_run by reflexivity.
    reflexivity.
  - rewrite _update_tools_live_run. reflexivity.
Qed.

Lemma register_result_run k res h :
  (let* h := get in
   if is_some (OrderedDict.lookup k (tool_states h)) then
     set_complete k (py_str res) >>
     _stop_tools_live >>
     (let* st := get_record k in _print_tool_complete py_str st) >>
     _update_tools_live py_str
   else
     modify (fun h => set_pending_results (<[k := res]> (pending_results h)) h)) quiet h
  = register_result py_str k res h.
Proof.
  unfold register_result. rewrite bind_get.
  destruct (OrderedDict.lookup k (tool_states h)) as [st|] eqn:Hk; simpl;
    [|reflexivity].
  erewrite bind_run by (eapply set_complete_run; exact Hk).
  erewrite bind_run by apply _stop_tools_live_run.
  erewrite (bind_run (bind _ _)).
  2:{ erewrite bind_run
        by (eapply get_record_run; simpl;
            rewrite lookup_alter_item_eq, Hk; reflexivity).
      erewrite _print_tool_complete_run by reflexivity. reflexivity. }
  rewrite _update_tools_live_run. reflexivity.
Qed.

Lemma handle_tool_call_run content h :
  handle_tool_call json_loads json_dumps py_str content quiet h
  = after_effects (head_flush_effects top_tool_phases "think" "answer" h)
      (call_body json_dumps py_str false "Error parsing tool call: "
         (json_loads content) content
         (set_current_state (Some tool_call)
            (after_head_flush top_tool_phases h))).
Proof.
  unfold handle_tool_call.
  erewrite bind_run by apply head_flush_run. f_equal.
  rewrite bind_modify.
  destruct (json_loads content) as [tool_data| |e]; [|reflexivity..].
  unfold call_body, parsed_call.
  destruct tool_data; try reflexivity.
  read_payload. apply register_call_run.
Qed.

Lemma handle_sub_agent_tool_call_run content h :
  handle_sub_agent_tool_call json_loads json_dumps py_str content quiet h
  = after_effects
      (head_flush_effects all_tool_phases
         "sub_agent_think" "sub_agent_answer" h)
      (call_body json_dumps py_str true "Error parsing sub_agent tool call: "
         (json_loads content) content
         (set_current_state (Some sub_agent_tool_call)
            (after_head_flush all_tool_phases h))).
Proof.
  unfold handle_sub_agent_tool_call.
  erewrite bind_run by apply head_flush_run. f_equal.
  rewrite bind_modify.
  destruct (json_loads content) as [tool_data| |e]; [|reflexivity..].
  unfold call_body, parsed_call.
  destruct tool_data; try reflexivity.
  read_payload. apply register_call_run.
Qed.

Lemma handle_tool_result_run content h :
  handle_tool_result json_loads py_str content quiet h
  = result_body py_str "Error parsing tool result: " (json_loads content) content
      (set_current_state (Some tool_result) h).
Proof.
  unfold handle_tool_result. rewrite bind_modify.
  destruct (json_loads content) as [result_data| |e]; [|reflexivity..].
  unfold result_body, parsed_result.
  destruct result_data; try reflexivity.
  read_payload. apply register_result_run.
Qed.

Lemma handle_sub_agent_tool_result_run content h :
  handle_sub_agent_tool_result json_loads py_str content quiet h
  = result_body py_str "Error parsing sub_agent tool result: "
      (json_loads content) content
      (set_current_state (Some sub_agent_tool_result) h).
Proof.
  unfold handle_sub_agent_tool_result. rewrite bind_modify.
  destruct (json_loads content) as [result_data| |e]; [|reflexivity..].
  unfold result_body, parsed_result.
  destruct result_data; try reflexivity.
  read_payload. apply register_result_run.
Qed.
End tool_facts.

(** ** Truncated previews *)



Lemma str_prefix_short n s : (len s <= n)%nat -> str_prefix n s = s.
Proof.
  revert n. induction s as [|c s IH]; intros n; simpl; [done|].
  destruct (continuation c); intros Hlen; [by rewrite IH|].
  destruct n as [|n]; [lia|]. rewrite IH by lia. reflexivity.
Qed.


Lemma string_length_app s1 s2 :
  String.length (s1 ++ s2) = (String.length s1 + String.length s2)%nat.
Proof. induction s1 as [|c s1 IH]; simpl; [done|by rewrite IH]. Qed.

(** ** The end of a sub-agent *)

Lemma end_flush_run think_type answer_type h :
  (let* h := get in
   when (is_some (current_live h))
     (_save_and_clear_buffers think_type answer_type >> _stop_current_live))
    quiet h
  = (Return tt,
     (if is_some (current_live h)
      then set_current_live None (clear_buffers h) else h),
     (if is_some (current_live h)
      then (flush_writes think_type answer_type h ++ [LiveStop ContentRegion])%list
      else [])).
Proof.
  rewrite bind_get. unfold when.
  destruct (current_live h) as [r|] eqn:Hlive; simpl; [|reflexivity].
  erewrite bind_run by apply _save_and_clear_buffers_run.
  rewrite _stop_current_live_run. unfold after_effects; simpl.
  rewrite Hlive. reflexivity.
Qed.

Lemma handle_sub_agent_end_run content h :
  handle_sub_agent_end content quiet h
  = (Return tt,
     set_tools_live None
       (if is_some (current_live h)
        then set_current_live None (clear_buffers h) else h),
     ((if is_some (current_live h)
       then flush_writes "sub_agent_think" "sub_agent_answer" h
              ++ [LiveStop ContentRegion]
       else [])
      ++ stop_effects ToolsRegion (tools_live h)
      ++ [ConsolePrint
            (SubAgentCompletePanel "[bold green]✅ Sub Agent Complete[/bold green]"
               (if Nat.ltb 500 (len content)
                then str_prefix 500 content ++ "..."
                else content));
          SaveContent "sub_agent" (TextPayload content)])%list).
Proof.
  unfold handle_sub_agent_end.
  erewrite bind_run by apply end_flush_run.
  erewrite bind_run by apply _stop_tools_live_run.
  unfold after_effects, bind, emit; simpl.
  destruct (current_live h); reflexivity.
Qed.


(** ** Which categories a flush writes under *)

Lemma text_saves_app o1 o2 :
  text_saves (o1 ++ o2) = (text_saves o1 ++ text_saves o2)%list.
Proof. apply omap_app. Qed.

Lemma text_saves_flush_writes think_type answer_type h :
  text_saves (flush_writes think_type answer_type h)
  = buffer_writes think_type answer_type h.
Proof.
  unfold flush_writes, buffer_writes.
  by destruct (nonempty (thinking_buffer h)), (nonempty (answer_buffer h)).
Qed.

Lemma text_saves_stop g live : text_saves (stop_effects g live) = [].
Proof. by destruct live. Qed.

Lemma text_saves_head_flush phases think_type answer_type h :
  text_saves (head_flush_effects phases think_type answer_type h)
  = if head_flush phases h then buffer_writes think_type answer_type h else [].
Proof.
  unfold head_flush_effects. destruct (head_flush phases h); [|reflexivity].
  rewrite text_saves_app, text_saves_flush_writes. apply app_nil_r.
Qed.

Lemma handle_sub_agent_start_run subagent_name task_desc h :
  handle_sub_agent_start subagent_name task_desc quiet h
  = (Return tt,
     set_current_state (Some sub_agent)
       (set_tools_live None (after_head_flush top_tool_phases h)),
     (head_flush_effects top_tool_phases "think" "answer" h
      ++ stop_effects ToolsRegion (tools_live h)
      ++ [ConsolePrint
            (SubAgentStartPanel
               ("[bold magenta]🤖 Sub Agent: " ++ subagent_name ++ "[/bold magenta]")
               subagent_name
               (if Nat.ltb 200 (len task_desc)
                then str_prefix 200 task_desc ++ "..."
                else task_desc))])%list).
Proof.
  unfold handle_sub_agent_start.
  erewrite bind_run by apply head_flush_run.
  erewrite bind_run by apply _stop_tools_live_run.
  rewrite bind_modify. unfold after_effects, emit; simpl.
  unfold after_head_flush. by destruct (head_flush _ h).
Qed.

Lemma finalize_run h :
  finalize quiet h
  = (Return tt,
     clear_buffers (set_current_live None (set_tools_live None h)),
     (stop_effects ToolsRegion (tools_live h)
      ++ stop_effects ContentRegion (current_live h)
      ++ flush_writes "think" "answer" h)%list).
Proof.
  unfold finalize.
  erewrite bind_run by apply _stop_tools_live_run.
  erewrite bind_run by apply _stop_current_live_run.
  rewrite _save_and_clear_buffers_run. reflexivity.
Qed.

Lemma handle_error_run content h :
  handle_error content quiet h
  = (Return tt, set_current_live None (set_tools_live None h),
     (stop_effects ToolsRegion (tools_live h)
      ++ stop_effects ContentRegion (current_live h)
      ++ [ConsolePrint
            (ErrorPanel "[bold red]❌ Error from ChatStream[/bold red]" content)])%list).
Proof.
  unfold handle_error.
  erewrite bind_run by apply _stop_tools_live_run.
  erewrite bind_run by apply _stop_current_live_run.
  reflexivity.
Qed.

Section category_facts.
Variable json_loads : string -> loads_result.
Variable json_dumps : json -> option string.
Variable py_str : json -> string.

Lemma text_saves_update_tools h :
  text_saves (update_tools_effects py_str h) = [].
Proof.
  unfold update_tools_effects.
  destruct (_render_pending_tools py_str h); [by destruct (tools_live h)|].
  apply text_saves_stop.
Qed.

Lemma text_saves_call_body sub what decoded content h :
  text_saves (effects_of (call_body json_dumps py_str sub what decoded content h))
  = [].
Proof.
  unfold call_body. destruct decoded as [d| |e]; [|reflexivity..].
  destruct (parsed_call _ _ _ _) as [e|[k st]]; [reflexivity|].
  unfold register_call. destruct (pending_results h !! k); simpl.
  - rewrite text_saves_app, text_saves_stop. reflexivity.
  - apply text_saves_update_tools.
Qed.

Lemma text_saves_result_body what decoded content h :
  text_saves (effects_of (result_body py_str what decoded content h)) = [].
Proof.
  unfold result_body. destruct decoded as [d| |e]; [|reflexivity..].
  destruct (parsed_result _ _) as [e|[k res]]; [reflexivity|].
  unfold register_result.
  destruct (OrderedDict.lookup k (tool_states h)); [|reflexivity].
  unfold effects_of; cbn [snd].
  rewrite !text_saves_app, text_saves_stop, text_saves_update_tools. reflexivity.
Qed.

(** What each handler writes of the buffers when no call raises. *)
Lemma text_saves_dispatch d h :
  text_saves (effects_of (run_dispatch json_loads json_dumps py_str d quiet h))
  = written_text d h.
Proof.
  unfold written_text.
  destruct d as [|e content label|[] content|[] content|? ?|content|content];
    simpl.
  - reflexivity.
  - rewrite content_handler_run. simpl. unfold content_transition_effects.
    rewrite !text_saves_app.
    unfold tool_transition_effects.
    destruct (leaving_tools h); rewrite ?text_saves_stop; simpl;
      (destruct (must_flush _ h);
       [rewrite text_saves_app, text_saves_flush_writes; simpl|simpl];
       unfold draw_effect; destruct (is_some _); simpl;
       rewrite ?app_nil_r; reflexivity).
  - rewrite handle_sub_agent_tool_call_run. unfold after_effects. simpl.
    rewrite text_saves_app, text_saves_call_body, text_saves_head_flush.
    reflexivity.
  - rewrite handle_tool_call_run. unfold after_effects. simpl.
    rewrite text_saves_app, text_saves_call_body, text_saves_head_flush.
    reflexivity.
  - rewrite handle_sub_agent_tool_result_run. apply text_saves_result_body.
  - rewrite handle_tool_result_run. apply text_saves_result_body.
  - rewrite handle_sub_agent_start_run. simpl.
    rewrite !text_saves_app, text_saves_head_flush, text_saves_stop.
    reflexivity.
  - rewrite handle_sub_agent_end_run. simpl.
    rewrite !text_saves_app, text_saves_stop.
    destruct (is_some (current_live h)); simpl; [|reflexivity].
    rewrite text_saves_app, text_saves_flush_writes. simpl.
    by rewrite app_nil_r.
  - rewrite handle_error_run. simpl.
    by rewrite !text_saves_app, !text_saves_stop.
Qed.

Lemma text_saves_finalize h :
  text_saves (effects_of (finalize quiet h)) = buffer_writes "think" "answer" h.
Proof.
  rewrite finalize_run. simpl.
  by rewrite !text_saves_app, !text_saves_stop, text_saves_flush_writes.
Qed.

(** What is written on any console is the head of what is written when no
    call raises, and all of it when none does. *)
Lemma text_saves_cut {A : Type} (m : M A) k h :
  faithful m ->
  (exists rest,
      text_saves (effects_of (m quiet h))
      = (text_saves (effects_of (m k h)) ++ rest)%list)
  /\ (clean (m k h) = true ->
      text_saves (effects_of (m k h)) = text_saves (effects_of (m quiet h))).
Proof.
  intros Hm. split.
  - rewrite (faithful_effects m k h Hm).
    destruct (performed_prefix k (effects_of (m quiet h))) as [rest Hrest].
    exists (text_saves rest). rewrite <- text_saves_app. by rewrite <- Hrest.
  - intros Hclean. by rewrite (faithful_clean m k h Hm Hclean).
Qed.

(** C4 (as the code has it). The categories of a flush are those the
    handler doing it passes, whatever phase is being left and whatever
    event filled the buffers: the handlers of ModelThinking, ModelAnswer,
    ToolCall and SubAgentStart and [finalize] write the thinking buffer
    under [think] and the answer buffer under [answer]; the handlers of
    SubAgentThinking, SubAgentAnswer, SubAgentToolCall and SubAgentEnd
    write them under [sub_agent_think] and [sub_agent_answer].  For every
    event, console and state, each text the event writes is a buffer under
    the category of the event's handler (or the content of a sub-agent end
    under [sub_agent]); the texts written are the head of [written_text],
    and all of it when no call to rich raises.  [finalize] flushes
    whatever the phase is, once its two stops have returned. *)
Theorem flush_categories_by_handler
    (d : dispatch) (k : Console) (h : StreamHandler) :
  let r := run_dispatch json_loads json_dumps py_str d k h in
  let f := finalize k h in
  (forall category text,
      In (category, text) (text_saves (effects_of r)) ->
      (category = fst (flush_categories d) /\ text = join (thinking_buffer h))
      \/ (category = snd (flush_categories d) /\ text = join (answer_buffer h))
      \/ (category = "sub_agent" /\ d = SubAgentEnd text))
  /\ (exists rest, written_text d h = (text_saves (effects_of r) ++ rest)%list)
  /\ (clean r = true -> text_saves (effects_of r) = written_text d h)
  /\ (exists rest,
        buffer_writes "think" "answer" h = (text_saves (effects_of f) ++ rest)%list)
  /\ (clean f = true ->
      text_saves (effects_of f) = buffer_writes "think" "answer" h).
Proof.
  intros r f. subst r f.
  destruct (text_saves_cut (run_dispatch json_loads json_dumps py_str d) k h
              (faithful_run_dispatch json_loads json_dumps py_str d))
    as [[rest Hrest] Hclean].
  destruct (text_saves_cut finalize k h faithful_finalize) as [Hf Hfclean].
  rewrite text_saves_dispatch in Hrest, Hclean.
  rewrite text_saves_finalize in Hf, Hfclean.
  split; [|by repeat split; [exists rest|..]].
  intros category text Hin.
  assert (In (category, text) (written_text d h)) as Hw.
  { rewrite Hrest. apply in_or_app. by left. }
  unfold written_text, buffer_writes in Hw.
  apply in_app_or in Hw as [Hw|Hw].
  - destruct (flushes d h); [|done].
    apply in_app_or in Hw as [Hw|Hw].
    + destruct (nonempty (thinking_buffer h)); [|done].
      destruct Hw as [[= <- <-]|[]]. by left.
    + destruct (nonempty (answer_buffer h)); [|done].
      destruct Hw as [[= <- <-]|[]]. right. by left.
  - destruct d; try done. destruct Hw as [[= <- <-]|[]]. right. by right.
Qed.
End category_facts.

(** ** The dispatcher, case by case *)

Section classify_facts.
Variable json_loads : string -> loads_result.
Variable json_dumps : json -> option string.
Variable py_str : json -> string.

Lemma handle_response_classify response :
  handle_response json_loads json_dumps py_str response
  = run_dispatch json_loads json_dumps py_str (classify response).
Proof.
  destruct response as [ev|]; [|reflexivity].
  unfold handle_response, classify.
  destruct (ev_type ev) as [ty|]; [|reflexivity].
  destruct (String.eqb_spec ty "") as [->|Hne]; [reflexivity|].
  unfold handlers, assoc_get.
  repeat (destruct (String.eqb ty _); [reflexivity|]).
  reflexivity.
Qed.
End classify_facts.

(** ** The two stores of the correlator *)

Lemma stores_of_after_head_flush phases h :
  tool_states (after_head_flush phases h) = tool_states h
  /\ pending_results (after_head_flush phases h) = pending_results h
  /\ tools_live (after_head_flush phases h) = tools_live h.
Proof. unfold after_head_flush. by destruct (head_flush phases h). Qed.

Lemma stores_of_after_content_transition target h :
  tool_states (after_content_transition target h) = tool_states h
  /\ pending_results (after_content_transition target h) = pending_results h.
Proof.
  unfold after_content_transition, after_tool_transition.
  by destruct (must_flush target h), (leaving_tools h).
Qed.

Section store_facts.
Variable json_loads : string -> loads_result.
Variable json_dumps : json -> option string.
Variable py_str : json -> string.

Lemma register_call_store k st h :
  status st = pending ->
  store_step (Some k) h (state_of (register_call py_str k st h)).
Proof.
  intros Hst. unfold register_call.
  destruct (pending_results h !! k) as [cached|] eqn:Hk; simpl.
  - eapply store_new_complete; simpl; try reflexivity. by rewrite Hk.
  - eapply store_new_pending; simpl; try reflexivity; done.
Qed.

Lemma register_result_store k res h :
  store_step (Some k) h (state_of (register_result py_str k res h)).
Proof.
  unfold register_result.
  destruct (OrderedDict.lookup k (tool_states h)) as [st|] eqn:Hk; simpl.
  - eapply store_completed; simpl; try reflexivity. exact Hk.
  - eapply store_cached; simpl; try reflexivity. exact Hk.
Qed.

Lemma store_step_frame carried h0 h h' :
  tool_states h0 = tool_states h ->
  pending_results h0 = pending_results h ->
  store_step carried h0 h' -> store_step carried h h'.
Proof.
  intros Hts Hpr Hstep.
  destruct Hstep; rewrite ?Hts, ?Hpr in *;
    eauto using store_step.
Qed.

Lemma call_body_store sub what content h0 :
  store_step (payload_key json_loads content) h0
    (state_of (call_body json_dumps py_str sub what (json_loads content) content h0)).
Proof.
  unfold call_body, payload_key, parsed_call.
  destruct (json_loads content) as [[]| |e]; try by apply store_same.
  destruct (py_hash _) as [k|]; [|by apply store_same].
  by apply register_call_store.
Qed.

Lemma result_body_store what content h0 :
  store_step (payload_key json_loads content) h0
    (state_of (result_body py_str what (json_loads content) content h0)).
Proof.
  unfold result_body, payload_key, parsed_result.
  destruct (json_loads content) as [[]| |e]; try by apply store_same.
  destruct (py_hash _) as [k|]; [|by apply store_same].
  apply register_result_store.
Qed.

(** Every event changes the stores in one of the five ways. *)
Lemma run_dispatch_store d h :
  store_step (dispatch_key json_loads d) h
    (state_of (run_dispatch json_loads json_dumps py_str d quiet h)).
Proof.
  destruct d as [|e content label|[] content|[] content|? ?|content|content];
    simpl.
  - by apply store_same.
  - rewrite content_handler_run. simpl.
    destruct (stores_of_after_content_transition (content_phase e) h) as [Hts Hpr].
    apply store_same; destruct e; simpl in *; assumption.
  - rewrite handle_sub_agent_tool_call_run. unfold after_effects, state_of at 1; simpl.
    destruct (stores_of_after_head_flush all_tool_phases h) as (Hts & Hpr & _).
    eapply store_step_frame; [| |apply call_body_store]; simpl; congruence.
  - rewrite handle_tool_call_run. unfold after_effects, state_of at 1; simpl.
    destruct (stores_of_after_head_flush top_tool_phases h) as (Hts & Hpr & _).
    eapply store_step_frame; [| |apply call_body_store]; simpl; congruence.
  - rewrite handle_sub_agent_tool_result_run.
    eapply store_step_frame; [| |apply result_body_store]; reflexivity.
  - rewrite handle_tool_result_run.
    eapply store_step_frame; [| |apply result_body_store]; reflexivity.
  - rewrite handle_sub_agent_start_run. simpl.
    destruct (stores_of_after_head_flush top_tool_phases h) as (Hts & Hpr & _).
    by apply store_same.
  - rewrite handle_sub_agent_end_run. simpl.
    apply store_same; by destruct (is_some (current_live h)).
  - rewrite handle_error_run. by apply store_same.
Qed.

Lemma store_step_NoDup carried h h' :
  store_step carried h h' ->
  NoDup (OrderedDict.keys (tool_states h)) ->
  NoDup (OrderedDict.keys (tool_states h')).
Proof.
  intros Hstep Hnd.
  destruct Hstep as [Hts _|k st _ _ _ Hts _|k st r _ _ Hts _|k st r _ _ Hts _
                     |k res _ _ Hts _]; rewrite Hts;
    rewrite ?keys_alter_item; auto using NoDup_keys_set_item.
Qed.

Lemma store_step_other carried h h' k :
  store_step carried h h' ->
  carried <> Some k ->
  OrderedDict.lookup k (tool_states h') = OrderedDict.lookup k (tool_states h)
  /\ pending_results h' !! k = pending_results h !! k.
Proof.
  intros Hstep Hne.
  destruct Hstep as [Hts Hpr|k0 st Hc _ _ Hts Hpr|k0 st r Hc _ Hts Hpr
                     |k0 st r Hc _ Hts Hpr|k0 res Hc _ Hts Hpr];
    rewrite Hts, Hpr; try done;
    assert (k0 <> k) by congruence.
  - by rewrite lookup_set_item_ne.
  - by rewrite lookup_alter_item_ne, lookup_set_item_ne, lookup_delete_ne.
  - by rewrite lookup_alter_item_ne.
  - by rewrite lookup_insert_ne.
Qed.
End store_facts.

(** ** Completions *)



Section completion_facts.
Variable json_loads : string -> loads_result.
Variable json_dumps : json -> option string.
Variable py_str : json -> string.






End completion_facts.

(** ** Payloads that are not JSON *)

Section parse_error_facts.
Variable json_loads : string -> loads_result.
Variable json_dumps : json -> option string.
Variable py_str : json -> string.

(** The flush at the head of a handler, on any console: the stop of the
    content region may raise, after the buffers were written and
    cleared. *)
Lemma head_flush_run_at phases think_type answer_type k h :
  (let* h := get in
   when (negb (phase_in (current_state h) phases) && is_some (current_live h))
     (_save_and_clear_buffers think_type answer_type >> _stop_current_live))
    k h
  = if head_flush phases h
    then if returns (shift (flush_writes think_type answer_type h) k)
              (LiveStop ContentRegion)
         then (Return tt, after_head_flush phases h,
               head_flush_effects phases think_type answer_type h)
         else (Raise RichError, clear_buffers h,
               flush_writes think_type answer_type h)
    else (Return tt, h, []).
Proof.
  rewrite bind_get.
  unfold after_head_flush, head_flush_effects, head_flush, when.
  destruct (negb _ && _) eqn:Hflush; [|reflexivity].
  apply andb_prop in Hflush as [_ Hlive].
  assert (_save_and_clear_buffers think_type answer_type k h
          = (Return tt, clear_buffers h, flush_writes think_type answer_type h))
    as Hsave.
  { rewrite (faithful_clean _ _ _
               (faithful__save_and_clear_buffers think_type answer_type));
      [apply _save_and_clear_buffers_run|].
    destruct h as [? ? [|t tb] [|a ab] ? ? ?]; reflexivity. }
  rewrite (bind_run_at _ _ _ _ _ _ _ Hsave).
  unfold _stop_current_live. rewrite bind_get. unfold when.
  assert (is_some (current_live (clear_buffers h)) = true) as -> by exact Hlive.
  unfold bind, emit, after_effects.
  destruct (returns _ _); simpl; [|by rewrite app_nil_r].
  reflexivity.
Qed.

(** C9 (as the code has it). Take a ToolCall or ToolResult whose content
    [json.loads] refuses with [JSONDecodeError], any console and any
    state.  Whatever rich does, the tool records, the result cache and the
    tool region stay as they were.  When no call to rich raises, the
    handler prints one error panel and returns, and the phase has become
    [tool_call] or [tool_result].  The ToolResult handler leaves the
    buffers and the content region alone.  The ToolCall handler has
    already done its phase change when it meets the payload: arriving in a
    phase other than [tool_call] / [tool_result] with a content region
    live, it has flushed and cleared both buffers and torn that region
    down; otherwise it leaves them alone too. *)
Theorem malformed_payload_only_reports
    (content : string) (k : Console) (h : StreamHandler) :
  json_loads content = JSONDecodeError ->
  let rc := handle_tool_call json_loads json_dumps py_str content k h in
  let rr := handle_tool_result json_loads py_str content k h in
  let call_panel :=
    ConsolePrint (ParseErrorPanel ("Error parsing tool call: " ++ content)) in
  tool_states (state_of rr) = tool_states h
  /\ pending_results (state_of rr) = pending_results h
  /\ tools_live (state_of rr) = tools_live h
  /\ tool_states (state_of rc) = tool_states h
  /\ pending_results (state_of rc) = pending_results h
  /\ tools_live (state_of rc) = tools_live h
  /\ (clean rr = true ->
      rr = (Return tt, set_current_state (Some tool_result) h,
            [ConsolePrint
               (ParseErrorPanel ("Error parsing tool result: " ++ content))]))
  /\ (clean rc = true ->
      outcome_of rc = Return tt
      /\ current_state (state_of rc) = Some tool_call
      /\ (if negb (phase_in (current_state h) [tool_call; tool_result])
             && is_some (current_live h)
          then effects_of rc =
                 (flush_writes "think" "answer" h
                    ++ [LiveStop ContentRegion; call_panel])%list
               /\ thinking_buffer (state_of rc) = []
               /\ answer_buffer (state_of rc) = []
               /\ current_live (state_of rc) = None
          else rc = (Return tt, set_current_state (Some tool_call) h,
                     [call_panel]))).
Proof.
  intros Hbad rc rr call_panel.
  assert (tool_states (state_of rr) = tool_states h
          /\ pending_results (state_of rr) = pending_results h
          /\ tools_live (state_of rr) = tools_live h) as Hrr.
  { subst rr. unfold handle_tool_result. rewrite bind_modify, Hbad.
    unfold emit. by destruct (returns _ _). }
  assert (tool_states (state_of rc) = tool_states h
          /\ pending_results (state_of rc) = pending_results h
          /\ tools_live (state_of rc) = tools_live h) as Hrc.
  { subst rc. unfold handle_tool_call.
    pose proof (head_flush_run_at [tool_call; tool_result] "think" "answer" k h)
      as Hhead.
    destruct (head_flush [tool_call; tool_result] h) eqn:Hflush.
    - destruct (returns _ (LiveStop ContentRegion)).
      + rewrite (bind_run_at _ _ _ _ _ _ _ Hhead), bind_modify, Hbad.
        unfold after_head_flush, emit. rewrite Hflush.
        by destruct (returns _ _).
      + rewrite (bind_raises _ _ _ _ RichError) by (by rewrite Hhead).
        by rewrite Hhead.
    - rewrite (bind_run_at _ _ _ _ _ _ _ Hhead), bind_modify, Hbad.
      unfold emit. by destruct (returns _ _). }
  destruct Hrr as (? & ? & ?). destruct Hrc as (? & ? & ?).
  repeat (split; [assumption|]).
  split.
  - intros Hclean. subst rr.
    rewrite (faithful_clean _ _ _
               (faithful_handle_tool_result json_loads py_str content) Hclean).
    by rewrite handle_tool_result_run, Hbad.
  - intros Hclean. subst rc.
    rewrite (faithful_clean _ _ _
               (faithful_handle_tool_call json_loads json_dumps py_str content)
               Hclean).
    rewrite handle_tool_call_run, Hbad.
    unfold after_effects, head_flush_effects, after_head_flush, head_flush,
      top_tool_phases; simpl.
    destruct (negb _ && _); simpl; repeat split.
    by rewrite <- app_assoc.
Qed.
End parse_error_facts.

(** ** Correlating calls and results *)

Lemma bind_returns_at {A B : Type} (m : M A) (f : A -> M B) k h a :
  outcome_of (m k h) = Return a ->
  bind m f k h
  = after_effects (effects_of (m k h))
      (f a (shift (effects_of (m k h)) k) (state_of (m k h))).
Proof.
  intros Hm. apply bind_run_at.
  destruct (m k h) as [[o h1] o1]. unfold outcome_of in Hm. simpl in Hm.
  by subst.
Qed.

Lemma bind_returns {A B : Type} (m : M A) (f : A -> M B) h a :
  outcome_of (m quiet h) = Return a ->
  bind m f quiet h
  = after_effects (effects_of (m quiet h)) (f a quiet (state_of (m quiet h))).
Proof. apply bind_returns_at. Qed.

Section correlation_facts.
Variable json_loads : string -> loads_result.
Variable json_dumps : json -> option string.
Variable py_str : json -> string.

Lemma tool_call_run sub content cf k h :
  json_loads content = Loaded (JObj cf) ->
  py_hash (field "id" cf (JStr "")) = Some k ->
  run_dispatch json_loads json_dumps py_str (ToolCall sub content) quiet h
  = after_effects
      (head_flush_effects (if sub then all_tool_phases else top_tool_phases)
         (if sub then "sub_agent_think" else "think")
         (if sub then "sub_agent_answer" else "answer") h)
      (register_call py_str k (call_record json_dumps py_str sub cf)
         (set_current_state (Some (if sub then sub_agent_tool_call else tool_call))
            (after_head_flush
               (if sub then all_tool_phases else top_tool_phases) h))).
Proof.
  intros Hload Hk. destruct sub; simpl.
  - rewrite handle_sub_agent_tool_call_run, Hload. simpl. by rewrite Hk.
  - rewrite handle_tool_call_run, Hload. simpl. by rewrite Hk.
Qed.

Lemma tool_result_run sub content rf k h :
  json_loads content = Loaded (JObj rf) ->
  py_hash (field "id" rf (JStr "")) = Some k ->
  run_dispatch json_loads json_dumps py_str (ToolResult sub content) quiet h
  = register_result py_str k (field "content" rf (JStr content))
      (set_current_state
         (Some (if sub then sub_agent_tool_result else tool_result)) h).
Proof.
  intros Hload Hk. destruct sub; simpl.
  - rewrite handle_sub_agent_tool_result_run, Hload. simpl. by rewrite Hk.
  - rewrite handle_tool_result_run, Hload. simpl. by rewrite Hk.
Qed.

Lemma register_call_returns k st h :
  outcome_of (register_call py_str k st h) = Return tt.
Proof. unfold register_call. by destruct (pending_results h !! k). Qed.

Lemma register_result_returns k res h :
  outcome_of (register_result py_str k res h) = Return tt.
Proof.
  unfold register_result. by destruct (OrderedDict.lookup k (tool_states h)).
Qed.

(** After a call, the record of its key is the new one, completed with
    the cached result if there was one, and the cache no longer has the
    key. *)
Lemma register_call_record k st h :
  OrderedDict.lookup k (tool_states (state_of (register_call py_str k st h)))
  = Some (match pending_results h !! k with
          | Some cached => mark_complete (py_str cached) st
          | None => st
          end)
  /\ pending_results (state_of (register_call py_str k st h)) !! k = None.
Proof.
  unfold register_call.
  destruct (pending_results h !! k) as [cached|] eqn:Hk; simpl.
  - rewrite lookup_alter_item_eq, lookup_set_item_eq, lookup_delete_eq. done.
  - rewrite lookup_set_item_eq. done.
Qed.

Lemma register_call_cached k st cached h :
  pending_results h !! k = Some cached ->
  ConsolePrint
    (complete_panel py_str (mark_complete (py_str cached) st) (py_str cached))
  ∈ effects_of (register_call py_str k st h).
Proof.
  intros Hk. unfold register_call. rewrite Hk. simpl.
  apply elem_of_app. right. apply list_elem_of_here.
Qed.

Lemma register_result_record k res st h :
  OrderedDict.lookup k (tool_states h) = Some st ->
  let r := register_result py_str k res h in
  OrderedDict.lookup k (tool_states (state_of r))
  = Some (mark_complete (py_str res) st)
  /\ pending_results (state_of r) = pending_results h
  /\ ConsolePrint
       (complete_panel py_str (mark_complete (py_str res) st) (py_str res))
     ∈ effects_of r.
Proof.
  intros Hk. unfold register_result. rewrite Hk. simpl.
  rewrite lookup_alter_item_eq, Hk. repeat split.
  apply elem_of_app. right. apply list_elem_of_here.
Qed.

Lemma register_result_early k res h :
  OrderedDict.lookup k (tool_states h) = None ->
  register_result py_str k res h
  = (Return tt, set_pending_results (<[k := res]> (pending_results h)) h, []).
Proof. intros Hk. unfold register_result. by rewrite Hk. Qed.
End correlation_facts.

Section correlation.
Variable json_loads : string -> loads_result.
Variable json_dumps : json -> option string.
Variable py_str : json -> string.

(** The two orders of a call and a result with the same id, on a console
    that never raises. *)
Lemma paired_events_run
    (sub_call sub_result : bool) (call_content result_content : string)
    (cf rf : list (string * json)) (k : pykey) (h : StreamHandler) :
  json_loads call_content = Loaded (JObj cf) ->
  py_hash (field "id" cf (JStr "")) = Some k ->
  json_loads result_content = Loaded (JObj rf) ->
  py_hash (field "id" rf (JStr "")) = Some k ->
  OrderedDict.lookup k (tool_states h) = None ->
  let call :=
    run_dispatch json_loads json_dumps py_str (ToolCall sub_call call_content) in
  let result :=
    run_dispatch json_loads json_dumps py_str (ToolResult sub_result result_content) in
  let text := py_str (field "content" rf (JStr result_content)) in
  let done :=
    {| name := field "name" cf (JStr "");
       args_str := dumps_args json_dumps py_str (field "args" cf (JObj []));
       status := complete;
       result := Some text;
       subagent := if sub_call
                   then Some (field "subagent" cf (JStr "SubAgent"))
                   else None |} in
  let call_first := (call >> result) quiet h in
  let result_first := (result >> call) quiet h in
  outcome_of call_first = Return tt
  /\ outcome_of result_first = Return tt
  /\ OrderedDict.lookup k (tool_states (state_of call_first)) = Some done
  /\ OrderedDict.lookup k (tool_states (state_of result_first)) = Some done
  /\ pending_results (state_of call_first) !! k = None
  /\ pending_results (state_of result_first) !! k = None
  /\ ConsolePrint (complete_panel py_str done text) ∈ effects_of call_first
  /\ ConsolePrint (complete_panel py_str done text) ∈ effects_of result_first.
Proof.
  intros Hc Hck Hr Hrk Hfresh call result text done call_first result_first.
  set (st := call_record json_dumps py_str sub_call cf).
  set (res := field "content" rf (JStr result_content)).
  (* the call handled first *)
  assert (outcome_of (call quiet h) = Return tt) as Hcall_ret.
  { unfold call. erewrite tool_call_run by eassumption.
    apply register_call_returns. }
  destruct (register_call_record py_str k st
              (set_current_state
                 (Some (if sub_call then sub_agent_tool_call else tool_call))
                 (after_head_flush
                    (if sub_call then all_tool_phases else top_tool_phases) h)))
    as [HA_rec HA_cache].
  assert (exists stA,
             OrderedDict.lookup k (tool_states (state_of (call quiet h))) = Some stA
             /\ mark_complete text stA = done
             /\ pending_results (state_of (call quiet h)) !! k = None)
    as (stA & HA & HstA & HAc).
  { unfold call. erewrite tool_call_run by eassumption.
    eexists. split; [exact HA_rec|]. split; [|exact HA_cache].
    by destruct (pending_results _ !! k). }
  assert (call_first
          = after_effects (effects_of (call quiet h))
              (register_result py_str k res
                 (set_current_state
                    (Some (if sub_result then sub_agent_tool_result else tool_result))
                    (state_of (call quiet h))))) as Eq_cf.
  { unfold call_first. rewrite (bind_returns call _ h tt Hcall_ret).
    unfold result. by erewrite tool_result_run by eassumption. }
  destruct (register_result_record py_str k res stA
              (set_current_state
                 (Some (if sub_result then sub_agent_tool_result else tool_result))
                 (state_of (call quiet h))) HA) as (HR & HRc & HRp).
  (* the result handled first *)
  assert (result quiet h
          = (Return tt,
             set_pending_results (<[k := res]> (pending_results h))
               (set_current_state
                  (Some (if sub_result then sub_agent_tool_result else tool_result))
                  h), [])) as Eq_r.
  { unfold result. erewrite tool_result_run by eassumption.
    rewrite register_result_early by exact Hfresh. reflexivity. }
  set (B := set_pending_results (<[k := res]> (pending_results h))
              (set_current_state
                 (Some (if sub_result then sub_agent_tool_result else tool_result))
                 h)) in *.
  set (B0 := set_current_state
               (Some (if sub_call then sub_agent_tool_call else tool_call))
               (after_head_flush
                  (if sub_call then all_tool_phases else top_tool_phases) B)).
  assert (pending_results B0 !! k = Some res) as HB0.
  { unfold B0. simpl.
    destruct (stores_of_after_head_flush
                (if sub_call then all_tool_phases else top_tool_phases) B)
      as (_ & -> & _).
    apply lookup_insert_eq. }
  assert (result_first
          = after_effects
              (head_flush_effects
                 (if sub_call then all_tool_phases else top_tool_phases)
                 (if sub_call then "sub_agent_think" else "think")
                 (if sub_call then "sub_agent_answer" else "answer") B)
              (register_call py_str k st B0)) as Eq_rf.
  { unfold result_first. erewrite bind_run by exact Eq_r.
    rewrite after_effects_nil. unfold call.
    by erewrite tool_call_run by eassumption. }
  destruct (register_call_record py_str k st B0) as [HB_rec HB_cache].
  rewrite HB0 in HB_rec.
  pose proof (register_call_cached py_str k st res B0 HB0) as HB_print.
  rewrite Eq_cf, Eq_rf.
  split; [apply register_result_returns|].
  split; [apply register_call_returns|].
  split; [etrans; [exact HR|by f_equal]|].
  split; [exact HB_rec|].
  split; [etrans; [|exact HAc]; by f_equal|].
  split; [exact HB_cache|].
  split; apply elem_of_app; right; [by rewrite <- HstA|exact HB_print].
Qed.

(** C1 (as the code has it). Take a call event (ToolCall or
    SubAgentToolCall) and a result event (ToolResult or
    SubAgentToolResult) whose payloads are JSON objects carrying the same
    id, a handler that has no record for that id yet, and any console.
    Process the two in either order.  If no call to rich raises in that
    order, the two handlers return, the record of the id is Complete with
    the call's name and pretty-printed arguments and with the text of the
    result, the id is not in the result cache, and the completion panel of
    exactly that record has been printed. *)
Theorem call_and_result_commute
    (sub_call sub_result : bool) (call_content result_content : string)
    (cf rf : list (string * json)) (id : pykey)
    (k : Console) (h : StreamHandler) :
  json_loads call_content = Loaded (JObj cf) ->
  py_hash (field "id" cf (JStr "")) = Some id ->
  json_loads result_content = Loaded (JObj rf) ->
  py_hash (field "id" rf (JStr "")) = Some id ->
  OrderedDict.lookup id (tool_states h) = None ->
  let call :=
    run_dispatch json_loads json_dumps py_str (ToolCall sub_call call_content) in
  let result :=
    run_dispatch json_loads json_dumps py_str (ToolResult sub_result result_content) in
  let text := py_str (field "content" rf (JStr result_content)) in
  let done :=
    {| name := field "name" cf (JStr "");
       args_str := dumps_args json_dumps py_str (field "args" cf (JObj []));
       status := complete;
       result := Some text;
       subagent := if sub_call
                   then Some (field "subagent" cf (JStr "SubAgent"))
                   else None |} in
  let call_first := (call >> result) k h in
  let result_first := (result >> call) k h in
  (clean call_first = true ->
   outcome_of call_first = Return tt
   /\ OrderedDict.lookup id (tool_states (state_of call_first)) = Some done
   /\ pending_results (state_of call_first) !! id = None
   /\ ConsolePrint (complete_panel py_str done text) ∈ effects_of call_first)
  /\ (clean result_first = true ->
      outcome_of result_first = Return tt
      /\ OrderedDict.lookup id (tool_states (state_of result_first)) = Some done
      /\ pending_results (state_of result_first) !! id = None
      /\ ConsolePrint (complete_panel py_str done text) ∈ effects_of result_first).
Proof.
  intros Hc Hck Hr Hrk Hfresh call result text done call_first result_first.
  destruct (paired_events_run sub_call sub_result call_content result_content
              cf rf id h Hc Hck Hr Hrk Hfresh)
    as (Hcf & Hrf & Hcf_rec & Hrf_rec & Hcf_cache & Hrf_cache & Hcf_p & Hrf_p).
  assert (faithful call) as Fcall by apply faithful_run_dispatch.
  assert (faithful result) as Fresult by apply faithful_run_dispatch.
  split; intros Hclean.
  - unfold call_first in *.
    rewrite (faithful_clean (call >> result) k h) in *;
      try (apply faithful_bind; [exact Fcall|intros _; exact Fresult]);
      try exact Hclean.
    repeat split; assumption.
  - unfold result_first in *.
    rewrite (faithful_clean (result >> call) k h) in *;
      try (apply faithful_bind; [exact Fresult|intros _; exact Fcall]);
      try exact Hclean.
    repeat split; assumption.
Qed.
End correlation.

(** ** Tool records along a stream *)

Section stream_facts.
Variable json_loads : string -> loads_result.
Variable json_dumps : json -> option string.
Variable py_str : json -> string.

Lemma handle_stream_preserves
    (P : StreamHandler -> Prop) (Q : option event -> Prop) :
  (forall r h, Q r -> P h ->
     P (state_of (handle_response json_loads json_dumps py_str r quiet h))) ->
  forall responses h,
    Forall Q responses -> P h ->
    P (state_of (handle_stream json_loads json_dumps py_str responses quiet h)).
Proof.
  intros Hstep responses.
  induction responses as [|r rest IH]; intros h HQ HP; [exact HP|].
  apply Forall_cons in HQ as [Hr Hrest].
  specialize (Hstep r h Hr HP). simpl. unfold bind.
  destruct (handle_response json_loads json_dumps py_str r quiet h)
    as [[[[]|e] h1] o1]; [|exact Hstep].
  specialize (IH h1 Hrest Hstep).
  change (shift o1 quiet) with quiet.
  by destruct (handle_stream json_loads json_dumps py_str rest quiet h1) as [[? ?] ?].
Qed.

Lemma faithful_handle_response response :
  faithful (handle_response json_loads json_dumps py_str response).
Proof. rewrite handle_response_classify. apply faithful_run_dispatch. Qed.

Lemma faithful_handle_stream responses :
  faithful (handle_stream json_loads json_dumps py_str responses).
Proof.
  induction responses as [|r rest IH]; simpl.
  - apply faithful_ret.
  - apply faithful_bind; [apply faithful_handle_response|intros _; exact IH].
Qed.

(** An invariant of the handler object that every event keeps, on every
    console, holds along a stream, also one that is cut short. *)
Lemma handle_stream_keeps
    (P : StreamHandler -> Prop) (Q : option event -> Prop) :
  (forall r k h, Q r -> P h ->
     P (state_of (handle_response json_loads json_dumps py_str r k h))) ->
  forall responses k h,
    Forall Q responses -> P h ->
    P (state_of (handle_stream json_loads json_dumps py_str responses k h)).
Proof.
  intros Hstep responses.
  induction responses as [|r rest IH]; intros k h HQ HP; [exact HP|].
  apply Forall_cons in HQ as [Hr Hrest].
  specialize (Hstep r k h Hr HP). simpl. unfold bind.
  destruct (handle_response json_loads json_dumps py_str r k h)
    as [[[[]|e] h1] o1]; [|exact Hstep].
  specialize (IH (shift o1 k) h1 Hrest Hstep).
  by destruct (handle_stream json_loads json_dumps py_str rest (shift o1 k) h1)
    as [[? ?] ?].
Qed.

(** *** What a handler does to the tool records, wherever it stops *)

Lemma touched_NoDup carried ts0 ts :
  touched carried ts0 ts ->
  NoDup (OrderedDict.keys ts0) -> NoDup (OrderedDict.keys ts).
Proof.
  intros Hts Hnd. induction Hts as [|k st ts _ _ IH|k f ts _ _ IH]; [done| |].
  - by apply NoDup_keys_set_item.
  - by rewrite keys_alter_item.
Qed.

Lemma touched_other carried ts0 ts id :
  touched carried ts0 ts -> carried <> Some id ->
  OrderedDict.lookup id ts = OrderedDict.lookup id ts0.
Proof.
  intros Hts Hne. induction Hts as [|k st ts Hk _ IH|k f ts Hk _ IH]; [done| |];
    assert (k <> id) by congruence.
  - by rewrite lookup_set_item_ne.
  - by rewrite lookup_alter_item_ne.
Qed.

Lemma only_touches_ret {A : Type} carried (a : A) : only_touches carried (ret a).
Proof. by intros ts0 k h. Qed.

Lemma only_touches_get carried : only_touches carried get.
Proof. by intros ts0 k h. Qed.

Lemma only_touches_raise {A : Type} carried e : only_touches carried (@raise A e).
Proof. by intros ts0 k h. Qed.

Lemma only_touches_emit carried e : only_touches carried (emit e).
Proof. intros ts0 k h. unfold emit. by destruct (returns k e). Qed.

Lemma only_touches_modify carried f :
  (forall h, tool_states (f h) = tool_states h) ->
  only_touches carried (modify f).
Proof.
  intros Hf ts0 k h Hts.
  change (touched carried ts0 (tool_states (f h))). by rewrite Hf.
Qed.

Lemma only_touches_set carried k st :
  carried = Some k ->
  only_touches carried
    (modify (fun h =>
       set_tool_states (OrderedDict.set_item k st (tool_states h)) h)).
Proof. intros Hk ts0 k0 h Hts. simpl. by apply touched_set. Qed.

Lemma only_touches_alter carried k f :
  carried = Some k ->
  only_touches carried
    (modify (fun h =>
       set_tool_states (OrderedDict.alter_item f k (tool_states h)) h)).
Proof. intros Hk ts0 k0 h Hts. simpl. by apply touched_alter. Qed.

Lemma only_touches_bind {A B : Type} carried (m : M A) (f : A -> M B) :
  only_touches carried m -> (forall a, only_touches carried (f a)) ->
  only_touches carried (bind m f).
Proof.
  intros Hm Hf ts0 k h Hts. specialize (Hm ts0 k h Hts). unfold bind.
  destruct (m k h) as [[[a|e] h1] o1]; [|exact Hm].
  specialize (Hf a ts0 (shift o1 k) h1 Hm).
  by destruct (f a (shift o1 k) h1) as [[? ?] ?].
Qed.

Lemma only_touches_bind_ret {A B : Type} carried (a : A) (f : A -> M B) :
  only_touches carried (f a) -> only_touches carried (bind (ret a) f).
Proof. intros Hf ts0 k h. rewrite bind_ret. apply Hf. Qed.

Lemma only_touches_bind_raise {A B : Type} carried e (f : A -> M B) :
  only_touches carried (bind (raise e) f).
Proof. by intros ts0 k h. Qed.

Lemma only_touches_when carried b (m : M unit) :
  only_touches carried m -> only_touches carried (when b m).
Proof. intros Hm. destruct b; [exact Hm|apply only_touches_ret]. Qed.

(** The steps that leave the dictionary alone. *)
Ltac untouched :=
  repeat first
    [ apply only_touches_bind; [|intros ?]
    | apply only_touches_ret
    | apply only_touches_get
    | apply only_touches_raise
    | apply only_touches_emit
    | apply only_touches_when
    | apply only_touches_modify; reflexivity
    | lazymatch goal with
      | |- only_touches _ (match ?x with _ => _ end) => destruct x
      end ].

Lemma only_touches__stop_current_live carried :
  only_touches carried _stop_current_live.
Proof. unfold _stop_current_live. untouched. Qed.

Lemma only_touches__stop_tools_live carried :
  only_touches carried _stop_tools_live.
Proof. unfold _stop_tools_live. untouched. Qed.

Lemma only_touches__save_and_clear_buffers carried think_type answer_type :
  only_touches carried (_save_and_clear_buffers think_type answer_type).
Proof. unfold _save_and_clear_buffers. untouched. Qed.

Lemma only_touches__update_live carried r transient :
  only_touches carried (_update_live r transient).
Proof. unfold _update_live. untouched. Qed.

Lemma only_touches__update_tools_live carried :
  only_touches carried (_update_tools_live py_str).
Proof.
  unfold _update_tools_live.
  apply only_touches_bind; [apply only_touches_get|intros h].
  destruct (_render_pending_tools py_str h);
    [|apply only_touches__stop_tools_live].
  untouched.
Qed.

Lemma only_touches__transition_from_content_state carried target think_type answer_type :
  only_touches carried
    (_transition_from_content_state target think_type answer_type).
Proof.
  unfold _transition_from_content_state, _transition_from_tool_state.
  repeat first
    [ apply only_touches__stop_tools_live
    | apply only_touches__stop_current_live
    | apply only_touches__save_and_clear_buffers
    | apply only_touches_bind; [|intros ?]
    | apply only_touches_get
    | apply only_touches_when ].
Qed.

Lemma only_touches_head_flush carried phases think_type answer_type :
  only_touches carried
    (let* h := get in
     when (negb (phase_in (current_state h) phases) && is_some (current_live h))
       (_save_and_clear_buffers think_type answer_type >> _stop_current_live)).
Proof.
  repeat first
    [ apply only_touches__stop_current_live
    | apply only_touches__save_and_clear_buffers
    | apply only_touches_bind; [|intros ?]
    | apply only_touches_get
    | apply only_touches_when ].
Qed.

Lemma only_touches__print_tool_complete carried st :
  only_touches carried (_print_tool_complete py_str st).
Proof. unfold _print_tool_complete. untouched. Qed.

Lemma only_touches_set_complete carried k r :
  carried = Some k -> only_touches carried (set_complete k r).
Proof.
  intros Hk. unfold set_complete, get_record.
  apply only_touches_bind; [untouched|intros _].
  by apply only_touches_alter.
Qed.

Lemma only_touches_shown carried k :
  only_touches carried (let* st := get_record k in _print_tool_complete py_str st).
Proof.
  unfold get_record.
  apply only_touches_bind; [untouched|intros st].
  apply only_touches__print_tool_complete.
Qed.

(** What a call handler does once the payload is decoded, for either
    variant of the record. *)
Lemma only_touches_call_tail carried k st :
  carried = Some k ->
  only_touches carried
    (modify (fun h =>
       set_tool_states (OrderedDict.set_item k st (tool_states h)) h) >>
     let* h := get in
     match pending_results h !! k with
     | Some cached =>
         set_complete k (py_str cached) >>
         modify (fun h => set_pending_results (delete k (pending_results h)) h) >>
         _stop_tools_live >>
         let* st := get_record k in
         _print_tool_complete py_str st
     | None => _update_tools_live py_str
     end).
Proof.
  intros Hk.
  apply only_touches_bind; [by apply only_touches_set|intros _].
  apply only_touches_bind; [apply only_touches_get|intros h].
  destruct (pending_results h !! k); [|apply only_touches__update_tools_live].
  apply only_touches_bind; [by apply only_touches_set_complete|intros _].
  apply only_touches_bind; [by apply only_touches_modify|intros _].
  apply only_touches_bind; [apply only_touches__stop_tools_live|intros _].
  apply only_touches_shown.
Qed.

Lemma only_touches_result_tail carried k res :
  carried = Some k ->
  only_touches carried
    (let* h := get in
     if is_some (OrderedDict.lookup k (tool_states h)) then
       set_complete k (py_str res) >>
       _stop_tools_live >>
       (let* st := get_record k in _print_tool_complete py_str st) >>
       _update_tools_live py_str
     else
       modify (fun h => set_pending_results (<[k := res]> (pending_results h)) h)).
Proof.
  intros Hk.
  apply only_touches_bind; [apply only_touches_get|intros h].
  destruct (is_some _); [|by apply only_touches_modify].
  apply only_touches_bind; [by apply only_touches_set_complete|intros _].
  apply only_touches_bind; [apply only_touches__stop_tools_live|intros _].
  apply only_touches_bind; [apply only_touches_shown|intros _].
  apply only_touches__update_tools_live.
Qed.

(** Every event assigns under the key of its own id only, on every
    console and wherever its handler stops. *)
Lemma only_touches_run_dispatch d :
  only_touches (dispatch_key json_loads d)
    (run_dispatch json_loads json_dumps py_str d).
Proof.
  destruct d as [|e content label|sub content|sub content|? ?|content|content];
    simpl.
  - apply only_touches_ret.
  - destruct e; simpl;
      unfold handle_model_thinking, handle_model_answer,
        handle_sub_agent_thinking, handle_sub_agent_answer;
      repeat first
        [ apply only_touches__transition_from_content_state
        | apply only_touches__update_live
        | apply only_touches_bind; [|intros ?]
        | apply only_touches_get
        | apply only_touches_modify; reflexivity ].
  - unfold payload_key.
    destruct sub; unfold handle_sub_agent_tool_call, handle_tool_call;
      (apply only_touches_bind; [apply only_touches_head_flush|intros _]);
      (apply only_touches_bind; [by apply only_touches_modify|intros _]);
      (destruct (json_loads content) as [[| | | | |fields]| |e];
       try apply only_touches_bind_raise;
       try apply only_touches_emit; try apply only_touches_raise);
      unfold dict_get; repeat apply only_touches_bind_ret;
      unfold hash_key, field;
      (destruct (py_hash _) as [k|] eqn:Hk; [|apply only_touches_bind_raise]);
      apply only_touches_bind_ret; by apply only_touches_call_tail.
  - unfold payload_key.
    destruct sub; unfold handle_sub_agent_tool_result, handle_tool_result;
      (apply only_touches_bind; [by apply only_touches_modify|intros _]);
      (destruct (json_loads content) as [[| | | | |fields]| |e];
       try apply only_touches_bind_raise;
       try apply only_touches_emit; try apply only_touches_raise);
      unfold dict_get; repeat apply only_touches_bind_ret;
      unfold hash_key, field;
      (destruct (py_hash _) as [k|] eqn:Hk; [|apply only_touches_bind_raise]);
      apply only_touches_bind_ret; by apply only_touches_result_tail.
  - unfold handle_sub_agent_start.
    apply only_touches_bind; [apply only_touches_head_flush|intros _].
    apply only_touches_bind; [apply only_touches__stop_tools_live|intros _].
    untouched.
  - unfold handle_sub_agent_end.
    apply only_touches_bind.
    { apply only_touches_bind; [apply only_touches_get|intros h].
      apply only_touches_when.
      apply only_touches_bind;
        [apply only_touches__save_and_clear_buffers
        |intros _; apply only_touches__stop_current_live]. }
    intros _.
    apply only_touches_bind; [apply only_touches__stop_tools_live|intros _].
    untouched.
  - unfold handle_error.
    apply only_touches_bind; [apply only_touches__stop_tools_live|intros _].
    apply only_touches_bind; [apply only_touches__stop_current_live|intros _].
    untouched.
Qed.

(** C5 (as the code has it). Take any console and any sequence of events,
    processed to its end or cut short by an exception.  After it the
    dictionary of tool records has one record per id at most, hence at
    most one Pending record per id, and a record is exactly as it was when
    no event of the sequence carried its id.  A call event that carries an
    id and is processed next, on any console on which it meets no failure
    of rich, returns with the id out of the result cache. *)
Theorem tool_records_along_a_stream
    (responses : list (option event)) (k : Console) (h : StreamHandler) :
  NoDup (OrderedDict.keys (tool_states h)) ->
  let h' := state_of (handle_stream json_loads json_dumps py_str responses k h) in
  NoDup (OrderedDict.keys (tool_states h'))
  /\ (forall id,
        (length (filter (fun kv => fst kv = id /\ status (snd kv) = pending)
                        (tool_states h')) <= 1)%nat)
  /\ (forall id st,
        OrderedDict.lookup id (tool_states h) = Some st ->
        Forall (fun r => dispatch_key json_loads (classify r) <> Some id) responses ->
        OrderedDict.lookup id (tool_states h') = Some st)
  /\ (forall sub content cf id k',
        json_loads content = Loaded (JObj cf) ->
        py_hash (field "id" cf (JStr "")) = Some id ->
        let r := run_dispatch json_loads json_dumps py_str (ToolCall sub content) k' h' in
        clean r = true ->
        outcome_of r = Return tt /\ pending_results (state_of r) !! id = None).
Proof.
  intros Hnd h'.
  assert (forall r k0 h0,
             touched (dispatch_key json_loads (classify r)) (tool_states h0)
               (tool_states
                  (state_of (handle_response json_loads json_dumps py_str r k0 h0))))
    as Hstep.
  { intros r k0 h0. rewrite handle_response_classify.
    apply only_touches_run_dispatch. apply touched_none. }
  assert (NoDup (OrderedDict.keys (tool_states h'))) as Hnd'.
  { apply (handle_stream_keeps
             (fun h => NoDup (OrderedDict.keys (tool_states h))) (fun _ => True));
      [|by apply Forall_true|exact Hnd].
    intros r k0 h0 _ Hh0. by eapply touched_NoDup. }
  split; [exact Hnd'|].
  split;
    [intros id;
     by apply (NoDup_keys_at_most_one (fun kv => status (snd kv) = pending))|].
  split.
  - intros id st Hk Hother.
    apply (handle_stream_keeps
             (fun h => OrderedDict.lookup id (tool_states h) = Some st)
             (fun r => dispatch_key json_loads (classify r) <> Some id));
      [|exact Hother|exact Hk].
    intros r k0 h0 Hr Hh0.
    by rewrite (touched_other _ _ _ id (Hstep r k0 h0) Hr).
  - intros sub content cf id k' Hload Hk r Hclean. subst r.
    rewrite (faithful_clean _ _ _
               (faithful_run_dispatch json_loads json_dumps py_str
                  (ToolCall sub content)) Hclean).
    erewrite tool_call_run by eassumption.
    split; [apply register_call_returns|apply register_call_record].
Qed.
End stream_facts.

(** ** The workspace sandbox *)

Lemma is_prefix_spec xs ys :
  Vlm.is_prefix xs ys = true <-> exists rest, ys = (xs ++ rest)%list.
Proof.
  revert ys. induction xs as [|x xs IH]; intros ys; simpl.
  - split; [intros _; by exists ys|done].
  - destruct ys as [|y ys]; [split; [done|intros [? ?]; discriminate]|].
    rewrite andb_true_iff, String.eqb_eq, IH. split.
    + intros [-> [rest ->]]. by exists rest.
    + intros [rest Heq]. injection Heq as -> ->. split; [done|by exists rest].
Qed.

Lemma relative_to_ok_inside p base :
  Vlm.relative_to_ok p base = true <-> Vlm.inside base p.
Proof.
  unfold Vlm.relative_to_ok, Vlm.inside.
  rewrite andb_true_iff, Bool.eqb_true_iff, is_prefix_spec. done.
Qed.

Lemma lstrip_no_leading_slash s :
  Vlm.startswith Vlm.slash (lstrip Vlm.is_slash s) = false
  /\ Vlm.startswith Vlm.backslash (lstrip Vlm.is_slash s) = false.
Proof.
  induction s as [|c s IH]; simpl; [done|].
  destruct (Vlm.is_slash c) eqn:Hc; [exact IH|].
  unfold Vlm.is_slash in Hc. apply orb_false_elim in Hc as [H1 H2].
  simpl. by rewrite H1, H2.
Qed.

Lemma lstrip_without_leading_slash s :
  Vlm.startswith Vlm.slash s || Vlm.startswith Vlm.backslash s = false ->
  lstrip Vlm.is_slash s = s.
Proof.
  destruct s as [|c s]; simpl; [done|].
  unfold Vlm.is_slash. by intros ->.
Qed.

Lemma stripped_path_is_relative s :
  Vlm.is_absolute (Vlm.Path (lstrip Vlm.is_slash s)) = false.
Proof.
  unfold Vlm.is_absolute, Vlm.Path. simpl.
  by destruct (lstrip_no_leading_slash s) as [-> _].
Qed.

Section sandbox_facts.
Variable get_workspace_path : string.
Variable resolve : Vlm.pypath -> Vlm.error + Vlm.pypath.
Variable exists_ : Vlm.pypath -> Vlm.error + bool.
Variable is_file : Vlm.pypath -> Vlm.error + bool.
Variable read_bytes : Vlm.pypath -> Vlm.error + string.
Variable _validate_image_extension : Vlm.pypath -> bool.
Variable _get_media_type : Vlm.pypath -> string.
Variable b64encode : string -> string.

Local Abbreviation workspace := (Vlm.workspace get_workspace_path resolve).
Local Abbreviation _resolve_path := (Vlm._resolve_path get_workspace_path resolve).
Local Abbreviation read_image :=
  (Vlm.read_image get_workspace_path resolve exists_ is_file read_bytes
     _validate_image_extension _get_media_type b64encode).

Lemma _resolve_path_run path :
  _resolve_path path
  = match workspace with
    | inl e => inl e
    | inr ws =>
        match resolve (Vlm.joinpath ws (Vlm.Path (lstrip Vlm.is_slash path))) with
        | inl e => inl e
        | inr candidate =>
            if Vlm.relative_to_ok candidate ws then inr candidate
            else inl Vlm.PermissionError
        end
    end.
Proof.
  unfold _resolve_path, Vlm._resolve_path.
  destruct workspace as [e|ws]; [reflexivity|].
  assert ((if Vlm.startswith Vlm.slash path || Vlm.startswith Vlm.backslash path
           then lstrip Vlm.is_slash path else path)
          = lstrip Vlm.is_slash path) as ->.
  { destruct (_ || _) eqn:Hlead; [done|].
    by rewrite lstrip_without_leading_slash. }
  by rewrite stripped_path_is_relative.
Qed.

(** What [read_image] does with a path that is not a URL. *)
Lemma read_image_local path prompt :
  String.prefix "http://" path || String.prefix "https://" path = false ->
  read_image path prompt
  = match _resolve_path path with
    | inl e => inl (Vlm.reraise e)
    | inr file_path =>
        match exists_ file_path with
        | inl e => inl (Vlm.reraise e)
        | inr false => inl Vlm.FileNotFoundError
        | inr true =>
            match is_file file_path with
            | inl e => inl (Vlm.reraise e)
            | inr false => inl Vlm.ValueError
            | inr true =>
                if _validate_image_extension file_path
                then match read_bytes file_path with
                     | inl e => inl (Vlm.reraise e)
                     | inr image_data =>
                         inr (Vlm.Base64Image prompt (_get_media_type file_path)
                                (b64encode image_data))
                     end
                else inl Vlm.ValueError
            end
        end
    end.
Proof.
  intros Hlocal. unfold read_image, Vlm.read_image. rewrite Hlocal.
  destruct (_resolve_path path) as [e|file_path]; [reflexivity|].
  destruct (exists_ file_path) as [e|[]]; try reflexivity.
  destruct (is_file file_path) as [e|[]]; try reflexivity.
  by destruct (_validate_image_extension file_path).
Qed.

(** C10 (as the code has it, on POSIX paths). For every path string,
    [_resolve_path] strips the leading ['/'] and ['\'] characters, so that
    what is left is never absolute and is resolved under the workspace.
    It returns a path only when [Path.resolve] returned for the workspace
    and for the joined path and the resolved path lies inside the resolved
    workspace; a path resolved outside of it raises [PermissionError]; and
    an exception of [Path.resolve] itself ([ValueError] for a NUL
    character, for one) is let through.  In the local-file branch of
    [read_image] a path resolved outside the workspace ends in
    [PermissionError], and whatever image is returned was read from a
    path inside the workspace. *)
Theorem resolve_path_stays_in_workspace (path prompt : string) :
  let stripped := lstrip Vlm.is_slash path in
  Vlm.is_absolute (Vlm.Path stripped) = false
  /\ _resolve_path path = _resolve_path stripped
  /\ match workspace with
     | inl e => _resolve_path path = inl e
     | inr ws =>
         match resolve (Vlm.joinpath ws (Vlm.Path stripped)) with
         | inl e => _resolve_path path = inl e
         | inr candidate =>
             (Vlm.inside ws candidate -> _resolve_path path = inr candidate)
             /\ (~ Vlm.inside ws candidate ->
                 _resolve_path path = inl Vlm.PermissionError
                 /\ (String.prefix "http://" path
                     || String.prefix "https://" path = false ->
                     read_image path prompt = inl Vlm.PermissionError))
         end
     end
  /\ (forall r,
        _resolve_path path = inr r ->
        exists ws,
          workspace = inr ws
          /\ resolve (Vlm.joinpath ws (Vlm.Path stripped)) = inr r
          /\ Vlm.inside ws r)
  /\ (forall e,
        _resolve_path path = inl e ->
        e = Vlm.PermissionError
        \/ workspace = inl e
        \/ exists ws,
             workspace = inr ws
             /\ resolve (Vlm.joinpath ws (Vlm.Path stripped)) = inl e)
  /\ (forall img,
        String.prefix "http://" path || String.prefix "https://" path = false ->
        read_image path prompt = inr img ->
        exists ws file_path image_data,
          workspace = inr ws
          /\ Vlm.inside ws file_path
          /\ _resolve_path path = inr file_path
          /\ read_bytes file_path = inr image_data
          /\ img = Vlm.Base64Image prompt (_get_media_type file_path)
                     (b64encode image_data)).
Proof.
  intros stripped.
  assert (lstrip Vlm.is_slash stripped = stripped) as Hidem.
  { apply lstrip_without_leading_slash. unfold stripped.
    by destruct (lstrip_no_leading_slash path) as [-> ->]. }
  pose proof (_resolve_path_run path) as Hrun.
  fold stripped in Hrun.
  split.
  { apply stripped_path_is_relative. }
  split.
  { rewrite (_resolve_path_run stripped), Hidem. exact Hrun. }
  assert (forall r,
            _resolve_path path = inr r ->
            exists ws,
              workspace = inr ws
              /\ resolve (Vlm.joinpath ws (Vlm.Path stripped)) = inr r
              /\ Vlm.inside ws r) as Hinside.
  { intros r Hr. rewrite Hr in Hrun.
    destruct workspace as [e|ws]; [discriminate|].
    destruct (resolve (Vlm.joinpath ws (Vlm.Path stripped))) as [e|candidate]
      eqn:Hcandidate; [discriminate|].
    destruct (Vlm.relative_to_ok candidate ws) eqn:Hok; [|discriminate].
    injection Hrun as <-. exists ws.
    split; [reflexivity|]. split; [exact Hcandidate|].
    by apply relative_to_ok_inside. }
  split.
  { destruct workspace as [e|ws]; [exact Hrun|].
    destruct (resolve (Vlm.joinpath ws (Vlm.Path stripped))) as [e|candidate];
      [exact Hrun|].
    destruct (Vlm.relative_to_ok candidate ws) eqn:Hok.
    - apply relative_to_ok_inside in Hok. split; [done|]. by intros Hout.
    - split.
      + intros Hin. apply relative_to_ok_inside in Hin. congruence.
      + intros _. split; [exact Hrun|]. intros Hlocal.
        by rewrite (read_image_local _ _ Hlocal), Hrun. }
  split; [exact Hinside|].
  split.
  { intros e He. rewrite He in Hrun.
    destruct workspace as [e'|ws]; [right; left; congruence|].
    destruct (resolve (Vlm.joinpath ws (Vlm.Path stripped))) as [e'|candidate]
      eqn:Hcandidate.
    - right. right. exists ws. split; [reflexivity|congruence].
    - destruct (Vlm.relative_to_ok candidate ws); [discriminate|].
      left. congruence. }
  intros img Hlocal Himg. rewrite (read_image_local _ _ Hlocal) in Himg.
  destruct (_resolve_path path) as [e|file_path] eqn:Hpath; [discriminate|].
  destruct (Hinside file_path eq_refl) as (ws & Hws & _ & Hin).
  destruct (exists_ file_path) as [e|[]]; try discriminate.
  destruct (is_file file_path) as [e|[]]; try discriminate.
  destruct (_validate_image_extension file_path); [|discriminate].
  destruct (read_bytes file_path) as [e|image_data] eqn:Hread; [discriminate|].
  injection Himg as <-. by exists ws, file_path, image_data.
Qed.
End sandbox_facts.

(** * The properties at concrete inputs *)

(** ** Inputs on which the theorems above apply *)

Lemma call_and_result_commute_witness :
  let cf := [("id", JStr "7"); ("name", JStr "search")] in
  let rf := [("id", JStr "7"); ("content", JStr "42")] in
  let call :=
    run_dispatch Sample.loads Sample.dumps Sample.str (ToolCall false Sample.call7) in
  let result :=
    run_dispatch Sample.loads Sample.dumps Sample.str (ToolResult false Sample.result7) in
  let done :=
    {| name := JStr "search"; args_str := "{}"; status := complete;
       result := Some "42"; subagent := None |} in
  let call_first := (call >> result) Sample.rich init in
  let result_first := (result >> call) Sample.rich init in
  Sample.loads Sample.call7 = Loaded (JObj cf)
  /\ py_hash (field "id" cf (JStr "")) = Some (KStr "7")
  /\ Sample.loads Sample.result7 = Loaded (JObj rf)
  /\ py_hash (field "id" rf (JStr "")) = Some (KStr "7")
  /\ OrderedDict.lookup (KStr "7") (tool_states init) = None
  /\ clean call_first = true
  /\ clean result_first = true
  /\ OrderedDict.lookup (KStr "7") (tool_states (state_of call_first)) = Some done
  /\ OrderedDict.lookup (KStr "7") (tool_states (state_of result_first)) = Some done
  /\ pending_results (state_of call_first) !! KStr "7" = None
  /\ pending_results (state_of result_first) !! KStr "7" = None.
Proof.
  intros cf rf call result done call_first result_first.
  assert (Sample.loads Sample.call7 = Loaded (JObj cf)) as H1 by reflexivity.
  assert (py_hash (field "id" cf (JStr "")) = Some (KStr "7")) as H2 by reflexivity.
  assert (Sample.loads Sample.result7 = Loaded (JObj rf)) as H3 by reflexivity.
  assert (py_hash (field "id" rf (JStr "")) = Some (KStr "7")) as H4 by reflexivity.
  assert (OrderedDict.lookup (KStr "7") (tool_states init) = None) as H5
    by reflexivity.
  assert (clean call_first = true) as H6 by reflexivity.
  assert (clean result_first = true) as H7 by reflexivity.
  destruct (call_and_result_commute Sample.loads Sample.dumps Sample.str
              false false Sample.call7 Sample.result7 cf rf (KStr "7")
              Sample.rich init H1 H2 H3 H4 H5) as [Hcf Hrf].
  destruct (Hcf H6) as (_ & Ha & Hca & _).
  destruct (Hrf H7) as (_ & Hb & Hcb & _).
  repeat (split; [assumption|]). assumption.
Defined.



Lemma tool_records_along_a_stream_witness :
  let responses :=
    [Sample.ev "tool_call" Sample.call7; Sample.ev "tool_call" Sample.call8;
     Sample.ev "tool_result" Sample.result8; Sample.ev "model_answer" "late"] in
  let run :=
    handle_stream Sample.loads Sample.dumps Sample.str responses Sample.rich init in
  NoDup (OrderedDict.keys (tool_states init))
  /\ outcome_of run = Raise RichError
  /\ OrderedDict.keys (tool_states (state_of run)) = [KStr "7"; KStr "8"]
  /\ NoDup (OrderedDict.keys (tool_states (state_of run)))
  /\ (forall id,
        (length (filter (fun kv => fst kv = id /\ status (snd kv) = pending)
                        (tool_states (state_of run))) <= 1)%nat).
Proof.
  intros responses run.
  assert (NoDup (OrderedDict.keys (tool_states init))) as H by constructor.
  destruct (tool_records_along_a_stream Sample.loads Sample.dumps Sample.str
              responses Sample.rich init H) as (Hnd & Hone & _).
  split; [exact H|]. split; [reflexivity|]. split; [reflexivity|].
  split; [exact Hnd|exact Hone].
Defined.


Lemma unrecognized_response_ignored_witness :
  let response := Sample.ev "usage_report" "42 tokens" in
  ("usage_report" ∉ event_types)
  /\ handle_response Sample.loads Sample.dumps Sample.str response Sample.rich init
     = (Return tt, init, []).
Proof.
  intros response.
  assert ("usage_report" ∉ event_types) as H.
  { unfold event_types. rewrite !not_elem_of_cons.
    repeat split; try discriminate. apply not_elem_of_nil. }
  split; [exact H|].
  apply unrecognized_response_ignored. right.
  eexists. split; [reflexivity|]. right. by exists "usage_report".
Defined.

Lemma malformed_payload_only_reports_witness :
  let rr :=
    handle_tool_result Sample.loads Sample.str Sample.garbage Sample.rich init in
  Sample.loads Sample.garbage = JSONDecodeError
  /\ clean rr = true
  /\ rr = (Return tt, set_current_state (Some tool_result) init,
           [ConsolePrint (ParseErrorPanel "Error parsing tool result: {oops")]).
Proof.
  intros rr.
  assert (Sample.loads Sample.garbage = JSONDecodeError) as H by reflexivity.
  assert (clean rr = true) as Hclean by reflexivity.
  split; [exact H|]. split; [exact Hclean|].
  destruct (malformed_payload_only_reports Sample.loads Sample.dumps Sample.str
              Sample.garbage Sample.rich init H)
    as (_ & _ & _ & _ & _ & _ & Hr & _).
  exact (Hr Hclean).
Defined.

(** ** Inputs on which the specification's wording fails

    The runs below are whole streams, from a fresh handler, on the sample
    console.  A thinking text of [[/y]] is one that rich refuses to render
    as markup. *)

(** C1, as stated, fails once the id already has a record.  After a call
    and a result for id 7, a second pair with the same id is processed in
    the two orders: call first, the record ends Complete with the new
    text; result first, the result is spent on the old record and the new
    record stays Pending.  It also fails when rich raises: with a thinking
    region showing [[/y]], the call handled first stops at the teardown of
    that region and makes no record at all, and the call handled after its
    result completes the record and stops at the print of its panel. *)
Lemma stale_record_breaks_commutation :
  let run responses :=
    handle_stream Sample.loads Sample.dumps Sample.str responses Sample.rich init in
  let first := [Sample.ev "tool_call" Sample.call7;
                Sample.ev "tool_result" Sample.result7] in
  let call_first :=
    run (first ++ [Sample.ev "tool_call" Sample.call7;
                   Sample.ev "tool_result" Sample.result7'])%list in
  let result_first :=
    run (first ++ [Sample.ev "tool_result" Sample.result7';
                   Sample.ev "tool_call" Sample.call7])%list in
  let live_call_first :=
    run [Sample.ev "model_thinking" "[/y]"; Sample.ev "tool_call" Sample.call7;
         Sample.ev "tool_result" Sample.result7] in
  let live_result_first :=
    run [Sample.ev "model_thinking" "[/y]"; Sample.ev "tool_result" Sample.result7;
         Sample.ev "tool_call" Sample.call7] in
  let done :=
    {| name := JStr "search"; args_str := "{}"; status := complete;
       result := Some "42"; subagent := None |} in
  (outcome_of call_first = Return tt
   /\ outcome_of result_first = Return tt
   /\ OrderedDict.lookup (KStr "7") (tool_states (state_of call_first))
      = Some {| name := JStr "search"; args_str := "{}"; status := complete;
                result := Some "43"; subagent := None |}
   /\ OrderedDict.lookup (KStr "7") (tool_states (state_of result_first))
      = Some {| name := JStr "search"; args_str := "{}"; status := pending;
                result := None; subagent := None |})
  /\ (outcome_of live_call_first = Raise RichError
      /\ OrderedDict.lookup (KStr "7") (tool_states (state_of live_call_first))
         = None
      /\ outcome_of live_result_first = Raise RichError
      /\ OrderedDict.lookup (KStr "7") (tool_states (state_of live_result_first))
         = Some done
      /\ effects_of live_result_first
         = [LiveStart ContentRegion
              (ThinkingPanel "[bold yellow]🤔 Model Thinking[/bold yellow]" "[/y]")
              false]).
Proof. split; repeat split. Qed.


(** C4, as stated, fails at each of the three triggers, the phase left
    not being what selects the categories.  At finalization, text buffered
    in a sub-agent thinking phase is written under [think].  At a phase
    change, the same text is written under [think] when the event that
    follows is a model answer, and under [answer] for sub-agent answer
    text followed by a tool call.  At a sub-agent end, text buffered in
    the model's thinking phase is written under [sub_agent_think]. *)
Lemma finalize_files_sub_agent_text_under_think :
  let run responses :=
    handle_stream Sample.loads Sample.dumps Sample.str responses Sample.rich init in
  let sub := run [Sample.ev "sub_agent_thinking" "x"] in
  let finalized :=
    (handle_stream Sample.loads Sample.dumps Sample.str
       [Sample.ev "sub_agent_thinking" "x"] >> finalize) Sample.rich init in
  let changed := run [Sample.ev "sub_agent_thinking" "x"; Sample.ev "model_answer" "y"] in
  let called := run [Sample.ev "sub_agent_answer" "x";
                     Sample.ev "tool_call" Sample.call7] in
  let ended := run [Sample.ev "model_thinking" "x"; Sample.ev "sub_agent_end" "done"] in
  current_state (state_of sub) = Some sub_agent_thinking
  /\ thinking_buffer (state_of sub) = ["x"]
  /\ text_saves (effects_of finalized) = [("think", "x")]
  /\ text_saves (effects_of changed) = [("think", "x")]
  /\ text_saves (effects_of called) = [("answer", "x")]
  /\ text_saves (effects_of ended) = [("sub_agent_think", "x"); ("sub_agent", "done")].
Proof. repeat split. Qed.

(** C5, as stated, fails on a second result for the same id: the record
    that was Complete with ["42"] is modified again and carries ["43"]. *)
Lemma complete_record_rewritten_by_second_result :
  let run responses :=
    handle_stream Sample.loads Sample.dumps Sample.str responses Sample.rich init in
  let first := run [Sample.ev "tool_call" Sample.call7;
                    Sample.ev "tool_result" Sample.result7] in
  let second := run [Sample.ev "tool_call" Sample.call7;
                     Sample.ev "tool_result" Sample.result7;
                     Sample.ev "tool_result" Sample.result7'] in
  outcome_of first = Return tt
  /\ outcome_of second = Return tt
  /\ OrderedDict.lookup (KStr "7") (tool_states (state_of first))
     = Some {| name := JStr "search"; args_str := "{}"; status := complete;
               result := Some "42"; subagent := None |}
  /\ OrderedDict.lookup (KStr "7") (tool_states (state_of second))
     = Some {| name := JStr "search"; args_str := "{}"; status := complete;
               result := Some "43"; subagent := None |}.
Proof. repeat split. Qed.



(** C9, as stated, fails on the other state: a ToolCall that is not JSON,
    arriving in the answer phase, flushes and clears the answer buffer,
    tears the content region down and sets the phase to [tool_call]; a
    ToolResult that is not JSON sets the phase to [tool_result].  It also
    fails when rich raises: the panel echoes the payload as markup, and
    for the payload [oops [/INST]] the print raises, so that the handler
    does not return and the events after it are not processed. *)
Lemma malformed_call_still_changes_phase :
  let run responses :=
    handle_stream Sample.loads Sample.dumps Sample.str responses Sample.rich init in
  let before := run [Sample.ev "model_answer" "a"] in
  let rc := run [Sample.ev "model_answer" "a"; Sample.ev "tool_call" Sample.garbage] in
  let rr := run [Sample.ev "model_answer" "a"; Sample.ev "tool_result" Sample.garbage] in
  let failed := run [Sample.ev "tool_result" "oops [/INST]";
                     Sample.ev "model_answer" "a"] in
  (Sample.loads Sample.garbage = JSONDecodeError
   /\ current_state (state_of before) = Some model_answer
   /\ answer_buffer (state_of before) = ["a"]
   /\ is_some (current_live (state_of before)) = true
   /\ outcome_of rc = Return tt
   /\ current_state (state_of rc) = Some tool_call
   /\ answer_buffer (state_of rc) = []
   /\ current_live (state_of rc) = None
   /\ effects_of rc =
        (effects_of before
           ++ [SaveContent "answer" (TextPayload "a"); LiveStop ContentRegion;
               ConsolePrint (ParseErrorPanel "Error parsing tool call: {oops")])%list
   /\ outcome_of rr = Return tt
   /\ current_state (state_of rr) = Some tool_result)
  /\ (Sample.loads "oops [/INST]" = JSONDecodeError
      /\ outcome_of failed = Raise RichError
      /\ effects_of failed = []
      /\ answer_buffer (state_of failed) = []).
Proof. split; repeat split. Qed.

(** C10, as stated, fails on a path with a NUL character in it:
    [Path.resolve] raises [ValueError], which [_resolve_path] lets through
    and [read_image] raises again, so that the path is neither returned
    nor refused with [PermissionError]. *)
Lemma nul_path_raises_value_error :
  let path := String zero "" in
  Vlm._resolve_path "/home/ws" Vlm.resolve_plain path = inl Vlm.ValueError
  /\ Vlm.read_image "/home/ws" Vlm.resolve_plain
       (fun _ => inr true) (fun _ => inr true) (fun _ => inr "bytes")
       (fun _ => true) (fun _ => "image/png") (fun d => d) path "what is this?"
     = inl Vlm.ValueError.
Proof. split; reflexivity. Qed.

(** ** The sandbox on a file system without symbolic links *)

Example resolve_path_under_workspace :
  Vlm._resolve_path "/home/ws" Vlm.resolve_plain "/etc/passwd"
  = inr {| Vlm.absolute := true; Vlm.parts := ["home"; "ws"; "etc"; "passwd"] |}.
Proof. reflexivity. Qed.

Example resolve_path_rejects_dotdot :
  Vlm._resolve_path "/home/ws" Vlm.resolve_plain "img/../../../etc/passwd"
  = inl Vlm.PermissionError.
Proof. reflexivity. Qed.

Example resolve_path_accepts_inner_dotdot :
  Vlm._resolve_path "/home/ws" Vlm.resolve_plain "\/img/../cat.png"
  = inr {| Vlm.absolute := true; Vlm.parts := ["home"; "ws"; "cat.png"] |}.
Proof. reflexivity. Qed.

(** * Further properties of the code *)

(** ** Resetting, finalizing, and error events *)


(** A computation that writes nothing on the quiet console writes nothing
    on any. *)
Lemma text_saves_none {A : Type} (m : M A) k h :
  faithful m ->
  text_saves (effects_of (m quiet h)) = [] ->
  text_saves (effects_of (m k h)) = [].
Proof.
  intros Hm Hq. destruct (text_saves_cut m k h Hm) as [[rest Hrest] _].
  rewrite Hq in Hrest. symmetry in Hrest. by apply app_eq_nil in Hrest as [? _].
Qed.


(** X2. [finalize] stops the tool region, then the content region, then
    writes what the buffers hold under [think] / [answer].  When neither
    stop raises it returns and leaves both buffers empty and both regions
    down, and the tool records, the result cache and the phase as they
    were; finalizing again then changes nothing and emits nothing, on any
    console. *)
Theorem finalize_settles_the_handler (k : Console) (h : StreamHandler) :
  let r := finalize k h in
  let h' := state_of r in
  clean r = true ->
  outcome_of r = Return tt
  /\ effects_of r =
       ((if is_some (tools_live h) then [LiveStop ToolsRegion] else [])
        ++ (if is_some (current_live h) then [LiveStop ContentRegion] else [])
        ++ flush_writes "think" "answer" h)%list
  /\ thinking_buffer h' = [] /\ answer_buffer h' = []
  /\ current_live h' = None /\ tools_live h' = None
  /\ tool_states h' = tool_states h
  /\ pending_results h' = pending_results h
  /\ current_state h' = current_state h
  /\ (forall k', finalize k' h' = (Return tt, h', [])).
Proof.
  intros r h' Hclean. subst h' r.
  rewrite (faithful_clean _ _ _ faithful_finalize Hclean).
  rewrite finalize_run. simpl. repeat split.
Qed.

(** X3. On every console an error event writes nothing.  When no call to
    rich raises, it tears down both regions, prints the error panel and
    returns, keeping the buffers, the phase, the tool records and the
    result cache; and when the finalization that follows meets no failure
    of rich either, the text that was buffered is written then. *)
Theorem error_event_keeps_the_buffers
    (content : string) (k : Console) (h : StreamHandler) :
  let r := handle_error content k h in
  let h' := state_of r in
  let turn := (handle_error content >> finalize) k h in
  text_saves (effects_of r) = []
  /\ (clean r = true ->
      outcome_of r = Return tt
      /\ effects_of r =
           ((if is_some (tools_live h) then [LiveStop ToolsRegion] else [])
            ++ (if is_some (current_live h) then [LiveStop ContentRegion] else [])
            ++ [ConsolePrint
                  (ErrorPanel "[bold red]❌ Error from ChatStream[/bold red]"
                     content)])%list
      /\ current_live h' = None /\ tools_live h' = None
      /\ thinking_buffer h' = thinking_buffer h
      /\ answer_buffer h' = answer_buffer h
      /\ current_state h' = current_state h
      /\ tool_states h' = tool_states h
      /\ pending_results h' = pending_results h)
  /\ (clean turn = true ->
      outcome_of turn = Return tt
      /\ text_saves (effects_of turn) = buffer_writes "think" "answer" h).
Proof.
  intros r h' turn. subst h' turn r.
  assert ((handle_error content >> finalize) quiet h
          = after_effects (effects_of (handle_error content quiet h))
              (finalize quiet (state_of (handle_error content quiet h)))) as Hturn.
  { apply (bind_returns (handle_error content) (fun _ => finalize) h tt).
    by rewrite handle_error_run. }
  split; [|split].
  - apply text_saves_none; [apply faithful_handle_error|].
    rewrite handle_error_run. simpl.
    by rewrite !text_saves_app, !text_saves_stop.
  - intros Hclean.
    rewrite (faithful_clean _ _ _ (faithful_handle_error content) Hclean).
    rewrite handle_error_run. simpl. repeat split.
  - intros Hclean.
    rewrite (faithful_clean (handle_error content >> finalize) k h);
      [|apply faithful_bind;
         [apply faithful_handle_error|intros _; apply faithful_finalize]
       |exact Hclean].
    rewrite Hturn, finalize_run, handle_error_run. simpl. split; [reflexivity|].
    rewrite !text_saves_app, !text_saves_stop. simpl.
    by rewrite text_saves_flush_writes.
Qed.



Lemma finalize_settles_the_handler_witness :
  let r :=
    finalize (shift (effects_of (handle_model_answer "a" Sample.rich init)) Sample.rich)
      (state_of (handle_model_answer "a" Sample.rich init)) in
  clean r = true
  /\ effects_of r = [LiveStop ContentRegion; SaveContent "answer" (TextPayload "a")]
  /\ answer_buffer (state_of r) = [].
Proof.
  intros r.
  assert (clean r = true) as H by reflexivity.
  destruct (finalize_settles_the_handler
              (shift (effects_of (handle_model_answer "a" Sample.rich init))
                 Sample.rich)
              (state_of (handle_model_answer "a" Sample.rich init)) H)
    as (_ & Heff & _ & Hbuf & _).
  split; [exact H|]. split; [exact Heff|exact Hbuf].
Defined.

Lemma error_event_keeps_the_buffers_witness :
  let h := state_of (handle_model_answer "a" Sample.rich init) in
  let k := shift (effects_of (handle_model_answer "a" Sample.rich init)) Sample.rich in
  let turn := (handle_error "x" >> finalize) k h in
  clean (handle_error "x" k h) = true
  /\ clean turn = true
  /\ answer_buffer (state_of (handle_error "x" k h)) = ["a"]
  /\ text_saves (effects_of turn) = [("answer", "a")].
Proof.
  intros h k turn.
  assert (clean (handle_error "x" k h) = true) as H1 by reflexivity.
  assert (clean turn = true) as H2 by reflexivity.
  destruct (error_event_keeps_the_buffers "x" k h) as (_ & Hr & Hturn).
  destruct (Hr H1) as (_ & _ & _ & _ & _ & Hbuf & _).
  destruct (Hturn H2) as [_ Hsaves].
  split; [exact H1|]. split; [exact H2|]. split; [exact Hbuf|exact Hsaves].
Defined.


(** ** Payloads that are JSON but not what the handlers expect *)

(** A handler that opens with the guarded flush, on any console: either
    the teardown of the content region raises, the buffers written and
    cleared, or the rest of the handler runs after the flush. *)
Lemma head_then_run_at {A : Type} phases think_type answer_type (tail : M A) k h :
  ((let* h := get in
    when (negb (phase_in (current_state h) phases) && is_some (current_live h))
      (_save_and_clear_buffers think_type answer_type >> _stop_current_live)) >>
   tail) k h
  = if head_flush phases h
       && negb (returns (shift (flush_writes think_type answer_type h) k)
                  (LiveStop ContentRegion))
    then (Raise RichError, clear_buffers h, flush_writes think_type answer_type h)
    else after_effects (head_flush_effects phases think_type answer_type h)
           (tail (shift (head_flush_effects phases think_type answer_type h) k)
              (after_head_flush phases h)).
Proof.
  pose proof (head_flush_run_at phases think_type answer_type k h) as Hhead.
  unfold head_flush_effects, after_head_flush in *.
  destruct (head_flush phases h); simpl.
  - destruct (returns _ (LiveStop ContentRegion)); simpl.
    + by rewrite (bind_run_at _ _ _ _ _ _ _ Hhead).
    + rewrite (bind_raises _ _ _ _ RichError) by (by rewrite Hhead).
      by rewrite Hhead.
  - by rewrite (bind_run_at _ _ _ _ _ _ _ Hhead).
Qed.

Lemma flush_writes_no_print think_type answer_type h panel :
  ConsolePrint panel ∉ flush_writes think_type answer_type h.
Proof.
  unfold flush_writes. intros Hin.
  apply elem_of_app in Hin as [Hin|Hin]; destruct (nonempty _);
    try (by apply elem_of_nil in Hin);
    apply list_elem_of_singleton in Hin; discriminate.
Qed.

Section payload_edges.
Variable json_loads : string -> loads_result.
Variable json_dumps : json -> option string.
Variable py_str : json -> string.

Lemma handle_stream_raise r rest k h e :
  outcome_of (handle_response json_loads json_dumps py_str r k h) = Raise e ->
  handle_stream json_loads json_dumps py_str (r :: rest) k h
  = handle_response json_loads json_dumps py_str r k h.
Proof.
  intros Hraise. simpl. unfold bind.
  destruct (handle_response json_loads json_dumps py_str r k h) as [[o h1] o1].
  unfold outcome_of in Hraise. simpl in Hraise. by subst.
Qed.

(** A handler that raises on the quiet console raises on every console,
    the same exception or the one of rich. *)
Lemma raises_on_every_console {A : Type} (m : M A) k h e :
  faithful m ->
  outcome_of (m quiet h) = Raise e ->
  outcome_of (m k h) = Raise e \/ outcome_of (m k h) = Raise RichError.
Proof.
  intros Hm Hq. rewrite (faithful_outcome m k h Hm), Hq.
  destruct (accepts k _); [by left|by right].
Qed.

(** X5. A tool payload that is valid JSON but not an object makes the
    handler raise [AttributeError] (from [.get]), on every console.  The
    result handler has by then only set the phase.  The call handler has
    done its phase change, flush included, and nothing more, unless the
    teardown in that flush raised; either way the tool records, the result
    cache and the tool region are as before, no error panel is printed,
    and the events that follow in the stream are not processed. *)
Theorem non_object_payload_raises
    (sub : bool) (content : string) (v : json) (k : Console) (h : StreamHandler) :
  json_loads content = Loaded v ->
  (forall f, v <> JObj f) ->
  let rr := run_dispatch json_loads json_dumps py_str (ToolResult sub content) k h in
  let rc := run_dispatch json_loads json_dumps py_str (ToolCall sub content) k h in
  rr = (Raise AttributeError,
        set_current_state
          (Some (if sub then sub_agent_tool_result else tool_result)) h, [])
  /\ (clean rc = true ->
      rc = (Raise AttributeError,
            set_current_state (Some (if sub then sub_agent_tool_call else tool_call))
              (after_head_flush (if sub then all_tool_phases else top_tool_phases) h),
            head_flush_effects (if sub then all_tool_phases else top_tool_phases)
              (if sub then "sub_agent_think" else "think")
              (if sub then "sub_agent_answer" else "answer") h))
  /\ (outcome_of rc = Raise AttributeError \/ outcome_of rc = Raise RichError)
  /\ tool_states (state_of rc) = tool_states h
  /\ pending_results (state_of rc) = pending_results h
  /\ tools_live (state_of rc) = tools_live h
  /\ (forall panel, ConsolePrint panel ∉ effects_of rc)
  /\ (forall ev rest,
        classify ev = ToolResult sub content \/ classify ev = ToolCall sub content ->
        handle_stream json_loads json_dumps py_str (ev :: rest) k h
        = handle_response json_loads json_dumps py_str ev k h).
Proof.
  intros Hload Hobj rr rc.
  set (phases := if sub then all_tool_phases else top_tool_phases).
  set (think_type := if sub then "sub_agent_think" else "think").
  set (answer_type := if sub then "sub_agent_answer" else "answer").
  assert (forall k', run_dispatch json_loads json_dumps py_str (ToolResult sub content) k' h
          = (Raise AttributeError,
             set_current_state
               (Some (if sub then sub_agent_tool_result else tool_result)) h, []))
    as Hrr.
  { intros k'. destruct sub; simpl;
      unfold handle_sub_agent_tool_result, handle_tool_result;
      rewrite bind_modify, Hload;
      destruct v; try reflexivity; by destruct (Hobj fields). }
  assert (run_dispatch json_loads json_dumps py_str (ToolCall sub content) quiet h
          = (Raise AttributeError,
             set_current_state (Some (if sub then sub_agent_tool_call else tool_call))
               (after_head_flush phases h),
             head_flush_effects phases think_type answer_type h)) as Hquiet.
  { subst phases think_type answer_type. destruct sub; simpl;
      rewrite ?handle_sub_agent_tool_call_run, ?handle_tool_call_run, Hload;
      unfold after_effects;
      destruct v; simpl; rewrite ?app_nil_r; try reflexivity;
      by destruct (Hobj fields). }
  assert (rc = (Raise RichError, clear_buffers h, flush_writes think_type answer_type h)
          \/ rc = (Raise AttributeError,
                   set_current_state
                     (Some (if sub then sub_agent_tool_call else tool_call))
                     (after_head_flush phases h),
                   head_flush_effects phases think_type answer_type h)) as Hrc.
  { subst rc phases think_type answer_type. destruct sub; simpl;
      unfold handle_sub_agent_tool_call, handle_tool_call;
      rewrite head_then_run_at;
      (destruct (_ && negb _); [by left|right]);
      rewrite bind_modify, Hload; unfold after_effects;
      destruct v; simpl; rewrite ?app_nil_r; try reflexivity;
      by destruct (Hobj fields). }
  split; [apply Hrr|].
  split.
  { intros Hclean. subst rc.
    by rewrite (faithful_clean _ _ _
                  (faithful_run_dispatch json_loads json_dumps py_str
                     (ToolCall sub content)) Hclean). }
  destruct (stores_of_after_head_flush phases h) as (Hts & Hpr & Htl).
  split; [destruct Hrc as [->| ->]; [by right|by left]|].
  split; [by destruct Hrc as [->| ->]|].
  split; [by destruct Hrc as [->| ->]|].
  split; [by destruct Hrc as [->| ->]|].
  split.
  { intros panel Hin.
    destruct Hrc as [Heq|Heq]; rewrite Heq in Hin; simpl in Hin.
    - by apply flush_writes_no_print in Hin.
    - unfold head_flush_effects in Hin.
      destruct (head_flush phases h); [|by apply elem_of_nil in Hin].
      apply elem_of_app in Hin as [Hin|Hin];
        [by apply flush_writes_no_print in Hin|].
      apply list_elem_of_singleton in Hin. discriminate. }
  intros ev rest [Hev|Hev].
  - apply handle_stream_raise with (e := AttributeError).
    by rewrite handle_response_classify, Hev, Hrr.
  - destruct Hrc as [Heq|Heq].
    + apply handle_stream_raise with (e := RichError).
      rewrite handle_response_classify, Hev. fold rc. by rewrite Heq.
    + apply handle_stream_raise with (e := AttributeError).
      rewrite handle_response_classify, Hev. fold rc. by rewrite Heq.
Qed.

(** X6. A tool payload that is a JSON object whose id is a list or an
    object makes the handler raise [TypeError] (an unhashable key), on
    every console unless the teardown in the call handler's flush raised
    first; the tool records, the result cache and the tool region are as
    before and no error panel is printed. *)
Theorem unhashable_id_raises
    (sub : bool) (content : string) (f : list (string * json))
    (k : Console) (h : StreamHandler) :
  json_loads content = Loaded (JObj f) ->
  py_hash (field "id" f (JStr "")) = None ->
  let rr := run_dispatch json_loads json_dumps py_str (ToolResult sub content) k h in
  let rc := run_dispatch json_loads json_dumps py_str (ToolCall sub content) k h in
  rr = (Raise TypeError,
        set_current_state
          (Some (if sub then sub_agent_tool_result else tool_result)) h, [])
  /\ (clean rc = true ->
      outcome_of rc = Raise TypeError
      /\ effects_of rc =
           head_flush_effects (if sub then all_tool_phases else top_tool_phases)
             (if sub then "sub_agent_think" else "think")
             (if sub then "sub_agent_answer" else "answer") h)
  /\ (outcome_of rc = Raise TypeError \/ outcome_of rc = Raise RichError)
  /\ tool_states (state_of rc) = tool_states h
  /\ pending_results (state_of rc) = pending_results h
  /\ tools_live (state_of rc) = tools_live h.
Proof.
  intros Hload Hid rr rc.
  set (phases := if sub then all_tool_phases else top_tool_phases).
  set (think_type := if sub then "sub_agent_think" else "think").
  set (answer_type := if sub then "sub_agent_answer" else "answer").
  assert (rc = (Raise RichError, clear_buffers h, flush_writes think_type answer_type h)
          \/ rc = (Raise TypeError,
                   set_current_state
                     (Some (if sub then sub_agent_tool_call else tool_call))
                     (after_head_flush phases h),
                   head_flush_effects phases think_type answer_type h)) as Hrc.
  { subst rc phases think_type answer_type. destruct sub; simpl;
      unfold handle_sub_agent_tool_call, handle_tool_call;
      rewrite head_then_run_at;
      (destruct (_ && negb _); [by left|right]);
      rewrite bind_modify, Hload; unfold dict_get; rewrite !bind_ret;
      fold (field "id" f (JStr "")); unfold hash_key; rewrite Hid, bind_raise;
      unfold after_effects; simpl; by rewrite app_nil_r. }
  destruct (stores_of_after_head_flush phases h) as (Hts & Hpr & Htl).
  split.
  { subst rr. destruct sub; simpl;
      unfold handle_sub_agent_tool_result, handle_tool_result;
      rewrite bind_modify, Hload; unfold dict_get; rewrite !bind_ret;
      fold (field "id" f (JStr "")); unfold hash_key; by rewrite Hid, bind_raise. }
  split.
  { intros Hclean.
    destruct Hrc as [Heq|Heq]; rewrite Heq in *; [discriminate|by split]. }
  split; [destruct Hrc as [->| ->]; [by right|by left]|].
  repeat split; by destruct Hrc as [->| ->].
Qed.
End payload_edges.

(** ** No text is lost *)

Lemma string_app_nil_r s : s ++ "" = s.
Proof.
  induction s as [|c s IH]; [reflexivity|].
  change (String c (s ++ "") = String c s). by rewrite IH.
Qed.

Lemma string_app_assoc s1 s2 s3 : (s1 ++ s2) ++ s3 = s1 ++ (s2 ++ s3).
Proof.
  induction s1 as [|c s1 IH]; [reflexivity|].
  change (String c ((s1 ++ s2) ++ s3) = String c (s1 ++ (s2 ++ s3))).
  by rewrite IH.
Qed.

Lemma join_cons x xs : join (x :: xs) = x ++ join xs.
Proof.
  destruct xs as [|y ys]; [symmetry; apply string_app_nil_r|reflexivity].
Qed.

Lemma join_app xs ys : join (xs ++ ys) = join xs ++ join ys.
Proof.
  induction xs as [|x xs IH]; [reflexivity|].
  change (join (x :: (xs ++ ys)%list) = join (x :: xs) ++ join ys).
  by rewrite !join_cons, IH, string_app_assoc.
Qed.

Lemma channel_saves_app cats o1 o2 :
  channel_saves cats (o1 ++ o2)
  = (channel_saves cats o1 ++ channel_saves cats o2)%list.
Proof.
  unfold channel_saves. by rewrite text_saves_app, List.filter_app, map_app.
Qed.

Lemma channel_saves_silent cats o : text_saves o = [] -> channel_saves cats o = [].
Proof. unfold channel_saves. by intros ->. Qed.

Lemma flushed_thinking think_type answer_type h :
  standard_pair think_type answer_type ->
  join (channel_saves thinking_categories (flush_writes think_type answer_type h))
  = join (thinking_buffer h).
Proof.
  unfold flush_writes.
  intros [[-> ->]|[-> ->]];
    destruct (thinking_buffer h) as [|t tb], (answer_buffer h) as [|a ab];
    try reflexivity; unfold channel_saves; simpl; by rewrite string_app_nil_r.
Qed.

Lemma flushed_answer think_type answer_type h :
  standard_pair think_type answer_type ->
  join (channel_saves answer_categories (flush_writes think_type answer_type h))
  = join (answer_buffer h).
Proof.
  unfold flush_writes.
  intros [[-> ->]|[-> ->]];
    destruct (thinking_buffer h) as [|t tb], (answer_buffer h) as [|a ab];
    try reflexivity; unfold channel_saves; simpl; by rewrite string_app_nil_r.
Qed.

(** A guarded flush followed by the teardown of the content region: what
    was buffered is written or still buffered. *)
Lemma guarded_flush_ledger (b : bool) think_type answer_type h h0 :
  standard_pair think_type answer_type ->
  thinking_buffer h0 = thinking_buffer h ->
  answer_buffer h0 = answer_buffer h ->
  let o := if b
           then (flush_writes think_type answer_type h ++ [LiveStop ContentRegion])%list
           else [] in
  let h' := if b then set_current_live None (clear_buffers h0) else h0 in
  written_and_buffered thinking_categories (thinking_buffer h') o
  = join (thinking_buffer h)
  /\ written_and_buffered answer_categories (answer_buffer h') o
     = join (answer_buffer h).
Proof.
  intros Hpair Ht Ha. unfold written_and_buffered. destruct b; simpl.
  - rewrite !channel_saves_app, !join_app.
    rewrite (flushed_thinking _ _ _ Hpair), (flushed_answer _ _ _ Hpair).
    split; by rewrite !string_app_nil_r.
  - by rewrite Ht, Ha.
Qed.

Lemma written_and_buffered_frame cats buffer o1 o o2 :
  channel_saves cats o1 = [] -> channel_saves cats o2 = [] ->
  written_and_buffered cats buffer (o1 ++ o ++ o2)
  = written_and_buffered cats buffer o.
Proof.
  intros H1 H2. unfold written_and_buffered.
  by rewrite !channel_saves_app, H1, H2, app_nil_r.
Qed.

Lemma written_and_buffered_append cats buffer fragments o :
  written_and_buffered cats (buffer ++ fragments) o
  = written_and_buffered cats buffer o ++ join fragments.
Proof.
  unfold written_and_buffered. by rewrite join_app, string_app_assoc.
Qed.

Lemma channel_saves_stop cats g live : channel_saves cats (stop_effects g live) = [].
Proof. apply channel_saves_silent, text_saves_stop. Qed.

Section ledger.
Variable json_loads : string -> loads_result.
Variable json_dumps : json -> option string.
Variable py_str : json -> string.

Lemma buffers_of_call_body sub what decoded content h :
  let h' := state_of (call_body json_dumps py_str sub what decoded content h) in
  thinking_buffer h' = thinking_buffer h /\ answer_buffer h' = answer_buffer h
  /\ current_live h' = current_live h /\ current_state h' = current_state h.
Proof.
  unfold call_body. destruct decoded as [d| |e0]; [|done|done].
  destruct (parsed_call _ _ _ _) as [e|[k st]]; [done|].
  unfold register_call. by destruct (pending_results h !! k).
Qed.

Lemma buffers_of_result_body what decoded content h :
  let h' := state_of (result_body py_str what decoded content h) in
  thinking_buffer h' = thinking_buffer h /\ answer_buffer h' = answer_buffer h
  /\ current_live h' = current_live h /\ current_state h' = current_state h.
Proof.
  unfold result_body. destruct decoded as [d| |e0]; [|done|done].
  destruct (parsed_result _ _) as [e|[k res]]; [done|].
  unfold register_result. by destruct (OrderedDict.lookup k (tool_states h)).
Qed.

Lemma head_flush_ledger phases think_type answer_type h :
  standard_pair think_type answer_type ->
  written_and_buffered thinking_categories
    (thinking_buffer (after_head_flush phases h))
    (head_flush_effects phases think_type answer_type h)
  = join (thinking_buffer h)
  /\ written_and_buffered answer_categories
       (answer_buffer (after_head_flush phases h))
       (head_flush_effects phases think_type answer_type h)
     = join (answer_buffer h).
Proof.
  intros Hpair. unfold after_head_flush, head_flush_effects.
  by apply (guarded_flush_ledger (head_flush phases h) _ _ h h Hpair).
Qed.

(** Traces that write nothing under the categories of a buffer. *)
Ltac quiet_trace :=
  unfold channel_saves, tool_transition_effects, draw_effect;
  repeat match goal with
         | |- context [if ?b then _ else _] => destruct b
         end;
  rewrite ?text_saves_app, ?text_saves_stop, ?text_saves_call_body,
    ?text_saves_result_body;
  reflexivity.

Lemma dispatch_ledger d h :
  let r := run_dispatch json_loads json_dumps py_str d quiet h in
  written_and_buffered thinking_categories
    (thinking_buffer (state_of r)) (effects_of r)
  = join (thinking_buffer h) ++ join (thinking_fragments d)
  /\ written_and_buffered answer_categories
       (answer_buffer (state_of r)) (effects_of r)
     = join (answer_buffer h) ++ join (answer_fragments d).
Proof.
  assert (standard_pair "think" "answer") as Htop by (left; done).
  assert (standard_pair "sub_agent_think" "sub_agent_answer") as Hsub
    by (right; done).
  destruct d as [|e content label|sub content|sub content|? ?|content|content];
    simpl.
  - unfold written_and_buffered. simpl. by rewrite !string_app_nil_r.
  - rewrite content_handler_run. simpl.
    unfold content_transition_effects, after_content_transition.
    assert (standard_pair (fst (content_categories e)) (snd (content_categories e)))
      as Hpair by (destruct e; assumption).
    destruct (guarded_flush_ledger (must_flush (content_phase e) h)
                (fst (content_categories e)) (snd (content_categories e))
                h (after_tool_transition h) Hpair) as [HT HA].
    { unfold after_tool_transition. by destruct (leaving_tools h). }
    { unfold after_tool_transition. by destruct (leaving_tools h). }
    simpl in HT, HA.
    rewrite <- app_assoc.
    rewrite !written_and_buffered_frame by quiet_trace.
    destruct e; simpl in *;
      rewrite ?written_and_buffered_append, HT, HA;
      change (join []) with ""; by rewrite ?string_app_nil_r.
  - assert (run_dispatch json_loads json_dumps py_str (ToolCall sub content) quiet h
            = after_effects
                (head_flush_effects (if sub then all_tool_phases else top_tool_phases)
                   (if sub then "sub_agent_think" else "think")
                   (if sub then "sub_agent_answer" else "answer") h)
                (call_body json_dumps py_str sub
                   (if sub then "Error parsing sub_agent tool call: "
                    else "Error parsing tool call: ")
                   (json_loads content) content
                   (set_current_state
                      (Some (if sub then sub_agent_tool_call else tool_call))
                      (after_head_flush
                         (if sub then all_tool_phases else top_tool_phases) h))))
      as Hrun.
    { destruct sub; simpl;
        [apply handle_sub_agent_tool_call_run|apply handle_tool_call_run]. }
    simpl in Hrun. rewrite Hrun. clear Hrun.
    destruct (buffers_of_call_body sub
                (if sub then "Error parsing sub_agent tool call: "
                 else "Error parsing tool call: ")
                (json_loads content) content
                (set_current_state
                   (Some (if sub then sub_agent_tool_call else tool_call))
                   (after_head_flush
                      (if sub then all_tool_phases else top_tool_phases) h)))
      as (Ht & Ha & _).
    simpl in Ht, Ha.
    destruct (head_flush_ledger (if sub then all_tool_phases else top_tool_phases)
                (if sub then "sub_agent_think" else "think")
                (if sub then "sub_agent_answer" else "answer") h)
      as [HT HA]; [by destruct sub|].
    unfold after_effects.
    change (state_of (?a, ?b, ?c)) with b. change (effects_of (?a, ?b, ?c)) with c.
    rewrite Ht, Ha.
    rewrite <- (app_nil_l (head_flush_effects _ _ _ _ ++ _)%list).
    rewrite !written_and_buffered_frame by quiet_trace.
    by rewrite HT, HA, !string_app_nil_r.
  - assert (run_dispatch json_loads json_dumps py_str (ToolResult sub content) quiet h
            = result_body py_str
                (if sub then "Error parsing sub_agent tool result: "
                 else "Error parsing tool result: ")
                (json_loads content) content
                (set_current_state
                   (Some (if sub then sub_agent_tool_result else tool_result)) h))
      as Hrun.
    { destruct sub; simpl;
        [apply handle_sub_agent_tool_result_run|apply handle_tool_result_run]. }
    simpl in Hrun. rewrite Hrun. clear Hrun.
    destruct (buffers_of_result_body
                (if sub then "Error parsing sub_agent tool result: "
                 else "Error parsing tool result: ")
                (json_loads content) content
                (set_current_state
                   (Some (if sub then sub_agent_tool_result else tool_result)) h))
      as (Ht & Ha & _).
    simpl in Ht, Ha. rewrite Ht, Ha. unfold written_and_buffered.
    rewrite !channel_saves_silent by apply text_saves_result_body.
    simpl. by rewrite !string_app_nil_r.
  - rewrite handle_sub_agent_start_run.
    change (state_of (?a, ?b, ?c)) with b. change (effects_of (?a, ?b, ?c)) with c.
    destruct (head_flush_ledger top_tool_phases "think" "answer" h Htop) as [HT HA].
    rewrite <- (app_nil_l (head_flush_effects _ _ _ _ ++ _)%list).
    rewrite !written_and_buffered_frame by quiet_trace.
    simpl. by rewrite HT, HA, !string_app_nil_r.
  - rewrite handle_sub_agent_end_run.
    change (state_of (?a, ?b, ?c)) with b. change (effects_of (?a, ?b, ?c)) with c.
    destruct (guarded_flush_ledger (is_some (current_live h))
                "sub_agent_think" "sub_agent_answer" h h Hsub eq_refl eq_refl)
      as [HT HA].
    simpl in HT, HA.
    rewrite <- (app_nil_l ((if is_some (current_live h) then _ else _) ++ _)%list).
    rewrite !written_and_buffered_frame by quiet_trace.
    simpl. by rewrite HT, HA, !string_app_nil_r.
  - rewrite handle_error_run. simpl. unfold written_and_buffered.
    rewrite !channel_saves_silent
      by (rewrite !text_saves_app, !text_saves_stop; reflexivity).
    simpl. by rewrite !string_app_nil_r.
Qed.
End ledger.

Lemma handler_effects_map o : handler_effects (map Handler o) = o.
Proof.
  induction o as [|x o IH]; [reflexivity|].
  change (x :: handler_effects (map Handler o) = x :: o). by rewrite IH.
Qed.

Section conservation.
Variable json_loads : string -> loads_result.
Variable json_dumps : json -> option string.
Variable py_str : json -> string.

Lemma handle_stream_cons_returns r rest h :
  outcome_of (handle_stream json_loads json_dumps py_str (r :: rest) quiet h) = Return tt ->
  outcome_of (handle_response json_loads json_dumps py_str r quiet h) = Return tt
  /\ handle_stream json_loads json_dumps py_str (r :: rest) quiet h
     = after_effects (effects_of (handle_response json_loads json_dumps py_str r quiet h))
         (handle_stream json_loads json_dumps py_str rest quiet
            (state_of (handle_response json_loads json_dumps py_str r quiet h))).
Proof.
  simpl. unfold bind, after_effects.
  destruct (handle_response json_loads json_dumps py_str r quiet h) as [[[[]|e] h1] o1];
    [|intros Hbad; by compute in Hbad].
  intros _. split; [reflexivity|].
  unfold state_of, effects_of, outcome_of. simpl.
  change (shift o1 quiet) with quiet.
  by destruct (handle_stream json_loads json_dumps py_str rest quiet h1) as [[? ?] ?].
Qed.

(** The ledger of a stream that returns, on the quiet console. *)
Lemma stream_ledger (responses : list (option event)) (h : StreamHandler) :
  let r := handle_stream json_loads json_dumps py_str responses quiet h in
  outcome_of r = Return tt ->
  join (channel_saves thinking_categories (effects_of r))
    ++ join (thinking_buffer (state_of r))
  = join (thinking_buffer h) ++ join (stream_thinking responses)
  /\ join (channel_saves answer_categories (effects_of r))
       ++ join (answer_buffer (state_of r))
     = join (answer_buffer h) ++ join (stream_answer responses).
Proof.
  revert h. induction responses as [|r rest IH]; intros h; simpl.
  - intros _. unfold channel_saves. simpl. by rewrite !string_app_nil_r.
  - intros Hret.
    destruct (handle_stream_cons_returns r rest h Hret) as [Hr Heq].
    simpl in Heq. rewrite Heq in Hret |- *. clear Heq.
    specialize (IH (state_of (handle_response json_loads json_dumps py_str r quiet h)) Hret).
    destruct IH as [IHT IHA].
    pose proof (dispatch_ledger json_loads json_dumps py_str (classify r) h)
      as [HT HA].
    rewrite <- handle_response_classify in HT, HA.
    unfold written_and_buffered in HT, HA.
    unfold stream_thinking, stream_answer in *. simpl.
    unfold after_effects.
    change (state_of (?a, ?b, ?c)) with b. change (effects_of (?a, ?b, ?c)) with c.
    rewrite !channel_saves_app, !join_app, !string_app_assoc.
    rewrite IHT, IHA, <- !string_app_assoc, HT, HA. done.
Qed.

(** X7. Along a stream that is processed to its end, on any console,
    nothing is lost or reordered in either buffer: the texts written under
    [think] or [sub_agent_think], in the order written, followed by what
    the thinking buffer still holds, are the text the buffer held at the
    start followed by the fragments of all thinking events in arrival
    order; and likewise for the answer buffer and [answer] /
    [sub_agent_answer]. *)
Theorem text_is_written_or_still_buffered
    (responses : list (option event)) (k : Console) (h : StreamHandler) :
  let r := handle_stream json_loads json_dumps py_str responses k h in
  outcome_of r = Return tt ->
  join (channel_saves thinking_categories (effects_of r))
    ++ join (thinking_buffer (state_of r))
  = join (thinking_buffer h) ++ join (stream_thinking responses)
  /\ join (channel_saves answer_categories (effects_of r))
       ++ join (answer_buffer (state_of r))
     = join (answer_buffer h) ++ join (stream_answer responses).
Proof.
  intros r Hret. subst r.
  pose proof (clean_returns _ _ Hret) as Hclean.
  rewrite (faithful_clean _ _ _
             (faithful_handle_stream json_loads json_dumps py_str responses)
             Hclean) in *.
  by apply stream_ledger.
Qed.

(** X8. A turn on a fresh handler, on any console.  When the stream is
    processed to its end and the finalization meets no failure of rich,
    the turn has written, per buffer, exactly the fragments of the stream
    in arrival order, and it ends with both buffers empty and both regions
    down.  When a handler raises, the turn goes to the [except Exception]
    branch of [main] with that exception right after the effects of the
    stream: [finalize] is not run, so what the buffers hold at that point
    is not written. *)
Theorem turn_writes_every_fragment
    (k : Console) (responses : list (option event)) :
  let stream := handle_stream json_loads json_dumps py_str responses k init in
  let turn := run_turn json_loads json_dumps py_str k responses in
  match outcome_of stream with
  | Return _ =>
      clean (finalize (shift (effects_of stream) k) (state_of stream)) = true ->
      join (channel_saves thinking_categories (handler_effects (snd turn)))
      = join (stream_thinking responses)
      /\ join (channel_saves answer_categories (handler_effects (snd turn)))
         = join (stream_answer responses)
      /\ thinking_buffer (fst turn) = [] /\ answer_buffer (fst turn) = []
      /\ current_live (fst turn) = None /\ tools_live (fst turn) = None
      /\ snd turn = map Handler (handler_effects (snd turn))
  | Raise e =>
      fst turn = state_of stream
      /\ snd turn = (map Handler (effects_of stream) ++ [RequestError e])%list
  end.
Proof.
  intros stream turn. subst turn. unfold run_turn.
  destruct (outcome_of stream) as [[]|e] eqn:Hout.
  - intros Hfin.
    rewrite (bind_returns_at _ _ k init tt Hout). fold stream.
    rewrite (faithful_clean _ _ _ faithful_finalize Hfin).
    pose proof (clean_returns _ _ Hout) as Hclean. subst stream.
    rewrite (faithful_clean _ _ _
               (faithful_handle_stream json_loads json_dumps py_str responses)
               Hclean) in *.
    destruct (stream_ledger responses init Hout) as [HT HA].
    destruct (handle_stream json_loads json_dumps py_str responses quiet init)
      as [[out h] o].
    change (state_of (out, h, o)) with h in *.
    change (effects_of (out, h, o)) with o in *.
    simpl in HT, HA. rewrite finalize_run. simpl.
    rewrite handler_effects_map.
    rewrite !channel_saves_app, !channel_saves_stop, !join_app.
    rewrite (flushed_thinking "think" "answer" h), (flushed_answer "think" "answer" h)
      by (left; done).
    simpl. repeat split; assumption.
  - by rewrite (bind_raises _ _ k init e Hout).
Qed.
End conservation.

(** ** Invariants of the trace and of the tool region *)

(** Every handler by its closed form. *)
Ltac closed_form :=
  rewrite ?content_handler_run, ?handle_tool_call_run,
    ?handle_sub_agent_tool_call_run, ?handle_tool_result_run,
    ?handle_sub_agent_tool_result_run, ?handle_sub_agent_start_run,
    ?handle_sub_agent_end_run, ?handle_error_run.

(** Case analysis on everything a closed form branches on. *)
Ltac split_cases :=
  repeat (simpl; rewrite ?andb_false_r, ?andb_true_r;
          match goal with
          | |- context [match ?x with _ => _ end] => destruct x eqn:?
          end).

Lemma count_effects_app p o1 o2 :
  count_effects p (o1 ++ o2) = (count_effects p o1 + count_effects p o2)%nat.
Proof. unfold count_effects. by rewrite List.filter_app, length_app. Qed.

Section trace_invariants.
Variable json_loads : string -> loads_result.
Variable json_dumps : json -> option string.
Variable py_str : json -> string.

Lemma dispatch_pairs_panels_and_saves d h :
  let o := effects_of (run_dispatch json_loads json_dumps py_str d quiet h) in
  count_effects is_completion_panel o = count_effects is_tool_call_save o.
Proof.
  destruct d as [|e content label|[] content|[] content|? ?|content|content];
    simpl; closed_form;
    unfold after_effects, call_body, result_body, register_call, register_result,
      content_transition_effects, tool_transition_effects, head_flush_effects,
      update_tools_effects, flush_writes, stop_effects, draw_effect,
      completion_effects;
    split_cases; reflexivity.
Qed.

Lemma replay_app g live o1 o2 :
  replay g live (o1 ++ o2)
  = match replay g live o1 with
    | Some live' => replay g live' o2
    | None => None
    end.
Proof.
  revert live. induction o1 as [|e o1 IH]; intros live; [reflexivity|].
  destruct e as [| |g' ? ?|g' ?|g']; simpl; try apply IH;
    destruct (same_region g g'), live; try reflexivity; apply IH.
Qed.

Lemma dispatch_replay g d h :
  let r := run_dispatch json_loads json_dumps py_str d quiet h in
  replay g (region_live g h) (effects_of r) = Some (region_live g (state_of r)).
Proof.
  destruct h as [ts pr tb ab cs cl tl].
  destruct g, d as [|e content label|[] content|[] content|? ?|content|content];
    simpl; closed_form;
    try match goal with e : content_event |- _ => destruct e end;
    unfold after_effects, call_body, result_body, register_call, register_result,
      content_transition_effects, tool_transition_effects, head_flush_effects,
      update_tools_effects, flush_writes, stop_effects, draw_effect,
      completion_effects, after_content_transition, after_tool_transition,
      after_head_flush, head_flush, must_flush, leaving_tools, state_of, effects_of;
    destruct cl, tl; split_cases; reflexivity.
Qed.

Lemma dispatch_keeps_tools_region d h :
  tools_region_ok py_str h ->
  tools_region_ok py_str (state_of (run_dispatch json_loads json_dumps py_str d quiet h)).
Proof.
  unfold tools_region_ok. destruct h as [ts pr tb ab cs cl tl].
  destruct d as [|e content label|[] content|[] content|? ?|content|content];
    simpl; intros Hok; closed_form;
    try match goal with e : content_event |- _ => destruct e end;
    unfold after_effects, call_body, result_body, register_call, register_result,
      after_content_transition, after_tool_transition,
      after_head_flush, head_flush, must_flush, leaving_tools, state_of;
    split_cases; first [by left | by right | exact Hok].
Qed.

(** Properties of the run from one state to another compose along a
    stream. *)
Lemma handle_stream_trace (P : StreamHandler -> list effect -> StreamHandler -> Prop) :
  (forall h, P h [] h) ->
  (forall h1 o1 h2 o2 h3, P h1 o1 h2 -> P h2 o2 h3 -> P h1 (o1 ++ o2)%list h3) ->
  (forall r h,
      P h (effects_of (handle_response json_loads json_dumps py_str r quiet h))
        (state_of (handle_response json_loads json_dumps py_str r quiet h))) ->
  forall responses h,
    P h (effects_of (handle_stream json_loads json_dumps py_str responses quiet h))
      (state_of (handle_stream json_loads json_dumps py_str responses quiet h)).
Proof.
  intros Hnil Happ Hstep responses.
  induction responses as [|r rest IH]; intros h; [apply Hnil|].
  specialize (Hstep r h). simpl. unfold bind.
  destruct (handle_response json_loads json_dumps py_str r quiet h)
    as [[[[]|e] h1] o1]; [|exact Hstep].
  specialize (IH h1). change (shift o1 quiet) with quiet.
  destruct (handle_stream json_loads json_dumps py_str rest quiet h1) as [[o2 h2] o3].
  eapply Happ; [exact Hstep|exact IH].
Qed.

(** X9. Take any console and a stream during which no call to rich
    raises.  Each live region is driven consistently: it is started only
    when it is not live and updated or stopped only when it is, and the
    handle the handler keeps tells whether the region is live at the end
    of the stream.  When the [finalize] that follows meets no failure of
    rich either, the region is down after it. *)
Theorem live_regions_are_driven_consistently
    (g : region) (responses : list (option event))
    (k : Console) (h : StreamHandler) :
  let r := handle_stream json_loads json_dumps py_str responses k h in
  let f := finalize (shift (effects_of r) k) (state_of r) in
  clean r = true ->
  replay g (region_live g h) (effects_of r) = Some (region_live g (state_of r))
  /\ (clean f = true ->
      replay g (region_live g h) (effects_of r ++ effects_of f) = Some false
      /\ region_live g (state_of f) = false).
Proof.
  assert (forall rs h0,
             replay g (region_live g h0)
               (effects_of (handle_stream json_loads json_dumps py_str rs quiet h0))
             = Some (region_live g
                       (state_of (handle_stream json_loads json_dumps py_str rs quiet h0))))
    as Hstream.
  { apply (handle_stream_trace
             (fun h o h' => replay g (region_live g h) o = Some (region_live g h'))).
    - reflexivity.
    - intros h1 o1 h2 o2 h3 H1 H2. by rewrite replay_app, H1.
    - intros ev h0. rewrite handle_response_classify. apply dispatch_replay. }
  intros r f Hclean. subst f r.
  rewrite (faithful_clean _ _ _
             (faithful_handle_stream json_loads json_dumps py_str responses)
             Hclean).
  pose proof (Hstream responses h) as Hr.
  set (r := handle_stream json_loads json_dumps py_str responses quiet h) in *.
  split; [exact Hr|]. intros Hfin.
  rewrite (faithful_clean _ _ _ faithful_finalize Hfin).
  rewrite replay_app, Hr, finalize_run.
  destruct (state_of r) as [ts pr tb ab cs cl tl].
  unfold flush_writes, stop_effects.
  destruct g, cl, tl, tb, ab; split; reflexivity.
Qed.

(** X10. Take any console and a stream during which no call to rich
    raises.  The tool region, when it is live, shows exactly the records
    that are pending in the handler: it is never left showing a record
    that has completed. *)
Theorem tool_region_shows_the_pending_records
    (responses : list (option event)) (k : Console) (h : StreamHandler) :
  tools_live h = None \/ tools_live h = _render_pending_tools py_str h ->
  let r := handle_stream json_loads json_dumps py_str responses k h in
  clean r = true ->
  tools_live (state_of r) = None
  \/ tools_live (state_of r) = _render_pending_tools py_str (state_of r).
Proof.
  intros Hok r Hclean. subst r.
  rewrite (faithful_clean _ _ _
             (faithful_handle_stream json_loads json_dumps py_str responses)
             Hclean).
  apply (handle_stream_preserves json_loads json_dumps py_str
           (tools_region_ok py_str) (fun _ => True));
    [|by apply Forall_true|exact Hok].
  intros r h0 _ Hh0. rewrite handle_response_classify.
  by apply dispatch_keeps_tools_region.
Qed.

(** The print of a completion panel is a call to rich and the write of
    the entry that follows it is not, so that a trace cut at a call that
    raises keeps its panels and entries in pairs. *)
Lemma paired_app owed o1 o2 :
  paired owed o1 = true -> paired false o2 = true ->
  paired owed (o1 ++ o2) = true.
Proof.
  revert owed. induction o1 as [|e o1 IH]; intros owed H1 H2.
  - destruct owed; [discriminate|exact H2].
  - simpl in *. destruct owed.
    + apply andb_prop in H1 as [-> H1]. simpl. by apply IH.
    + destruct (is_completion_panel e); [by apply IH|].
      apply andb_prop in H1 as [-> H1]. simpl. by apply IH.
Qed.

Lemma paired_performed owed k o :
  paired owed o = true -> paired owed (performed k o) = true.
Proof.
  revert owed k. induction o as [|e o IH]; intros owed k Ho; [exact Ho|].
  simpl in *. destruct owed.
  - apply andb_prop in Ho as [He Ho].
    assert (returns k e = true) as ->.
    { unfold returns. destruct e; try discriminate. reflexivity. }
    simpl. rewrite He. simpl. by apply IH.
  - destruct (returns k e); [|reflexivity]. simpl.
    destruct (is_completion_panel e); [by apply IH|].
    apply andb_prop in Ho as [-> Ho]. simpl. by apply IH.
Qed.

Lemma paired_counts owed o :
  paired owed o = true ->
  (count_effects is_completion_panel o + (if owed then 1 else 0))%nat
  = count_effects is_tool_call_save o.
Proof.
  unfold count_effects.
  revert owed. induction o as [|e o IH]; intros owed Ho.
  - by destruct owed.
  - simpl in *. destruct owed.
    + apply andb_prop in Ho as [He Ho]. rewrite He.
      assert (is_completion_panel e = false) as ->
        by (destruct e; try discriminate; reflexivity).
      specialize (IH false Ho). simpl in *. lia.
    + destruct (is_completion_panel e) eqn:Hp.
      * assert (is_tool_call_save e = false) as ->
          by (destruct e; try discriminate; reflexivity).
        specialize (IH true Ho). simpl in *. lia.
      * apply andb_prop in Ho as [He Ho]. apply negb_true_iff in He. rewrite He.
        exact (IH false Ho).
Qed.

Lemma dispatch_effects_paired d h :
  paired false (effects_of (run_dispatch json_loads json_dumps py_str d quiet h))
  = true.
Proof.
  destruct d as [|e content label|[] content|[] content|? ?|content|content];
    simpl; closed_form;
    unfold after_effects, call_body, result_body, register_call, register_result,
      content_transition_effects, tool_transition_effects, head_flush_effects,
      update_tools_effects, flush_writes, stop_effects, draw_effect,
      completion_effects;
    repeat (simpl;
            match goal with
            | |- context [match ?x with _ => _ end] =>
                lazymatch x with
                | is_completion_panel _ => fail
                | is_tool_call_save _ => fail
                | _ => destruct x eqn:?
                end
            end);
    reflexivity.
Qed.

Lemma stream_effects_paired responses h :
  paired false
    (effects_of (handle_stream json_loads json_dumps py_str responses quiet h))
  = true.
Proof.
  revert responses h.
  apply (handle_stream_trace (fun _ o _ => paired false o = true)).
  - reflexivity.
  - intros _ o1 _ o2 _ H1 H2. by apply paired_app.
  - intros r h. rewrite handle_response_classify. apply dispatch_effects_paired.
Qed.

(** X11. Along any stream, on any console and whether or not a handler
    raises, as many [tool_call] entries are written as completion panels
    are printed. *)
Theorem tool_calls_are_saved_as_often_as_shown
    (responses : list (option event)) (k : Console) (h : StreamHandler) :
  let o := effects_of (handle_stream json_loads json_dumps py_str responses k h) in
  count_effects is_completion_panel o = count_effects is_tool_call_save o.
Proof.
  intros o. subst o.
  rewrite (faithful_effects _ k h
             (faithful_handle_stream json_loads json_dumps py_str responses)).
  pose proof (paired_counts false _
                (paired_performed false k _ (stream_effects_paired responses h)))
    as Hcount.
  simpl in Hcount. by rewrite Nat.add_0_r in Hcount.
Qed.
End trace_invariants.

(** ** Results that arrive early, and calls answered once *)

Section early_results.
Variable json_loads : string -> loads_result.
Variable json_dumps : json -> option string.
Variable py_str : json -> string.

Lemma count_panels_head_flush phases think_type answer_type h :
  count_effects is_completion_panel
    (head_flush_effects phases think_type answer_type h) = 0%nat.
Proof.
  unfold head_flush_effects, flush_writes.
  destruct (head_flush phases h), (thinking_buffer h), (answer_buffer h);
    reflexivity.
Qed.

Lemma count_panels_update_tools h :
  count_effects is_completion_panel (update_tools_effects py_str h) = 0%nat.
Proof.
  unfold update_tools_effects, stop_effects.
  destruct (_render_pending_tools py_str h), (tools_live h); reflexivity.
Qed.

(** Two early results and their call, on the quiet console. *)
Lemma early_results_run
    (sub1 sub2 sub_call : bool) (content1 content2 call_content : string)
    (rf1 rf2 cf : list (string * json)) (k : pykey) (h : StreamHandler) :
  json_loads content1 = Loaded (JObj rf1) ->
  py_hash (field "id" rf1 (JStr "")) = Some k ->
  json_loads content2 = Loaded (JObj rf2) ->
  py_hash (field "id" rf2 (JStr "")) = Some k ->
  json_loads call_content = Loaded (JObj cf) ->
  py_hash (field "id" cf (JStr "")) = Some k ->
  OrderedDict.lookup k (tool_states h) = None ->
  let result1 := run_dispatch json_loads json_dumps py_str (ToolResult sub1 content1) in
  let result2 := run_dispatch json_loads json_dumps py_str (ToolResult sub2 content2) in
  let call := run_dispatch json_loads json_dumps py_str (ToolCall sub_call call_content) in
  let res1 := field "content" rf1 (JStr content1) in
  let res2 := field "content" rf2 (JStr content2) in
  result1 quiet h
  = (Return tt,
     set_pending_results (<[k := res1]> (pending_results h))
       (set_current_state
          (Some (if sub1 then sub_agent_tool_result else tool_result)) h),
     [])
  /\ effects_of ((result1 >> result2) quiet h) = []
  /\ pending_results (state_of ((result1 >> result2) quiet h)) !! k = Some res2
  /\ OrderedDict.lookup k
       (tool_states (state_of ((result1 >> result2 >> call) quiet h)))
     = Some (mark_complete (py_str res2) (call_record json_dumps py_str sub_call cf))
  /\ count_effects is_completion_panel
       (effects_of ((result1 >> result2 >> call) quiet h)) = 1%nat.
Proof.
  intros H1 Hk1 H2 Hk2 Hc Hkc Hfresh result1 result2 call res1 res2.
  assert (forall h0 : StreamHandler,
             OrderedDict.lookup k (tool_states h0) = None ->
             result1 quiet h0
             = (Return tt,
                set_pending_results (<[k := res1]> (pending_results h0))
                  (set_current_state
                     (Some (if sub1 then sub_agent_tool_result else tool_result)) h0),
                [])) as Hr1.
  { intros h0 Hh0. unfold result1. erewrite tool_result_run by eassumption.
    rewrite register_result_early by exact Hh0. reflexivity. }
  assert (forall h0 : StreamHandler,
             OrderedDict.lookup k (tool_states h0) = None ->
             result2 quiet h0
             = (Return tt,
                set_pending_results (<[k := res2]> (pending_results h0))
                  (set_current_state
                     (Some (if sub2 then sub_agent_tool_result else tool_result)) h0),
                [])) as Hr2.
  { intros h0 Hh0. unfold result2. erewrite tool_result_run by eassumption.
    rewrite register_result_early by exact Hh0. reflexivity. }
  split; [by apply Hr1|].
  erewrite (bind_run result1) by (by apply Hr1). rewrite after_effects_nil.
  erewrite (bind_run result1) by (by apply Hr1). rewrite after_effects_nil.
  erewrite (bind_run result2) by (by apply Hr2). rewrite after_effects_nil.
  rewrite Hr2 by exact Hfresh.
  split; [reflexivity|]. split; [simpl; apply lookup_insert_eq|].
  unfold call. erewrite tool_call_run by eassumption.
  set (B := set_pending_results _ _).
  set (B0 := set_current_state _ (after_head_flush _ B)).
  assert (pending_results B0 !! k = Some res2) as HB0.
  { unfold B0. simpl.
    destruct (stores_of_after_head_flush
                (if sub_call then all_tool_phases else top_tool_phases) B)
      as (_ & -> & _).
    apply lookup_insert_eq. }
  destruct (register_call_record py_str k
              (call_record json_dumps py_str sub_call cf) B0) as [Hrec _].
  rewrite HB0 in Hrec. split; [exact Hrec|].
  unfold after_effects. change (effects_of (?a, ?b, ?c)) with c.
  rewrite count_effects_app, count_panels_head_flush.
  unfold register_call. rewrite HB0. simpl.
  rewrite count_effects_app.
  by destruct (tools_live (after_head_flush _ B)).
Qed.

(** X12. A result whose id has no record yet is only put in the result
    cache, on every console: nothing is printed or written, and apart from
    the phase nothing else changes.  A second early result for the same id
    replaces the first, so that the call that follows, when it meets no
    failure of rich, completes with the text of the second and a single
    panel is printed: the first result is never shown. *)
Theorem early_results_are_silent_and_the_last_wins
    (sub1 sub2 sub_call : bool) (content1 content2 call_content : string)
    (rf1 rf2 cf : list (string * json)) (id : pykey)
    (k : Console) (h : StreamHandler) :
  json_loads content1 = Loaded (JObj rf1) ->
  py_hash (field "id" rf1 (JStr "")) = Some id ->
  json_loads content2 = Loaded (JObj rf2) ->
  py_hash (field "id" rf2 (JStr "")) = Some id ->
  json_loads call_content = Loaded (JObj cf) ->
  py_hash (field "id" cf (JStr "")) = Some id ->
  OrderedDict.lookup id (tool_states h) = None ->
  let result1 := run_dispatch json_loads json_dumps py_str (ToolResult sub1 content1) in
  let result2 := run_dispatch json_loads json_dumps py_str (ToolResult sub2 content2) in
  let call := run_dispatch json_loads json_dumps py_str (ToolCall sub_call call_content) in
  let res1 := field "content" rf1 (JStr content1) in
  let res2 := field "content" rf2 (JStr content2) in
  let all := (result1 >> result2 >> call) k h in
  result1 k h
  = (Return tt,
     set_pending_results (<[id := res1]> (pending_results h))
       (set_current_state
          (Some (if sub1 then sub_agent_tool_result else tool_result)) h),
     [])
  /\ effects_of ((result1 >> result2) k h) = []
  /\ pending_results (state_of ((result1 >> result2) k h)) !! id = Some res2
  /\ (clean all = true ->
      OrderedDict.lookup id (tool_states (state_of all))
      = Some (mark_complete (py_str res2) (call_record json_dumps py_str sub_call cf))
      /\ count_effects is_completion_panel (effects_of all) = 1%nat).
Proof.
  intros H1 Hk1 H2 Hk2 Hc Hkc Hfresh result1 result2 call res1 res2 all.
  destruct (early_results_run sub1 sub2 sub_call content1 content2 call_content
              rf1 rf2 cf id h H1 Hk1 H2 Hk2 Hc Hkc Hfresh)
    as (Hr1 & Hboth & Hcache & Hrec & Hone).
  fold result1 result2 call res1 res2 in Hr1, Hboth, Hcache, Hrec, Hone.
  assert (faithful result1) as F1 by apply faithful_run_dispatch.
  assert (faithful result2) as F2 by apply faithful_run_dispatch.
  assert (faithful call) as Fc by apply faithful_run_dispatch.
  assert (faithful (result1 >> result2)) as F12
    by (apply faithful_bind; [exact F1|intros _; exact F2]).
  assert (faithful (result1 >> result2 >> call)) as Fall
    by (repeat (apply faithful_bind; [|intros _]); assumption).
  split.
  { rewrite (faithful_accepted _ k h F1); [exact Hr1|by rewrite Hr1]. }
  rewrite (faithful_accepted _ k h F12) by (by rewrite Hboth).
  split; [exact Hboth|]. split; [exact Hcache|].
  intros Hclean. subst all.
  rewrite (faithful_clean _ k h Fall Hclean). by split.
Qed.

(** A fresh call and its result, on the quiet console. *)
Lemma call_then_result_run
    (sub_call sub_result : bool) (call_content result_content : string)
    (cf rf : list (string * json)) (k : pykey) (h : StreamHandler) :
  json_loads call_content = Loaded (JObj cf) ->
  py_hash (field "id" cf (JStr "")) = Some k ->
  json_loads result_content = Loaded (JObj rf) ->
  py_hash (field "id" rf (JStr "")) = Some k ->
  pending_results h !! k = None ->
  let call := run_dispatch json_loads json_dumps py_str (ToolCall sub_call call_content) in
  let result :=
    run_dispatch json_loads json_dumps py_str (ToolResult sub_result result_content) in
  let o := effects_of ((call >> result) quiet h) in
  count_effects is_completion_panel o = 1%nat
  /\ count_effects is_tool_call_save o = 1%nat.
Proof.
  intros Hc Hkc Hr Hkr Hcache call result o.
  assert (count_effects is_completion_panel o = 1%nat) as Hone.
  { subst o.
    set (h0 := set_current_state
                 (Some (if sub_call then sub_agent_tool_call else tool_call))
                 (after_head_flush
                    (if sub_call then all_tool_phases else top_tool_phases) h)).
    assert (pending_results h0 !! k = None) as Hh0.
    { unfold h0. simpl.
      by destruct (stores_of_after_head_flush
                     (if sub_call then all_tool_phases else top_tool_phases) h)
        as (_ & -> & _). }
    assert (call quiet h
            = after_effects
                (head_flush_effects
                   (if sub_call then all_tool_phases else top_tool_phases)
                   (if sub_call then "sub_agent_think" else "think")
                   (if sub_call then "sub_agent_answer" else "answer") h)
                (register_call py_str k
                   (call_record json_dumps py_str sub_call cf) h0)) as Hcall.
    { unfold call. by erewrite tool_call_run by eassumption. }
    rewrite (bind_returns call _ h tt)
      by (rewrite Hcall; apply register_call_returns).
    unfold after_effects at 1. change (effects_of (?a, ?b, ?c)) with c.
    rewrite count_effects_app.
    assert (count_effects is_completion_panel (effects_of (call quiet h)) = 0%nat) as ->.
    { rewrite Hcall. unfold after_effects. change (effects_of (?a, ?b, ?c)) with c.
      rewrite count_effects_app, count_panels_head_flush.
      unfold register_call. rewrite Hh0. simpl. apply count_panels_update_tools. }
    destruct (register_call_record py_str k
                (call_record json_dumps py_str sub_call cf) h0) as [Hrec _].
    rewrite Hh0 in Hrec.
    assert (OrderedDict.lookup k (tool_states (state_of (call quiet h)))
            = Some (call_record json_dumps py_str sub_call cf)) as Hrec'.
    { rewrite Hcall. exact Hrec. }
    unfold result. erewrite tool_result_run by eassumption.
    unfold register_result. simpl. rewrite Hrec'.
    change (effects_of (?a, ?b, ?c)) with c.
    rewrite count_effects_app.
    match goal with
    | |- context [(?a :: ?b :: update_tools_effects py_str ?x)] =>
        change (a :: b :: update_tools_effects py_str x)
          with ([a; b] ++ update_tools_effects py_str x)%list
    end.
    rewrite count_effects_app, count_panels_update_tools.
    unfold stop_effects. by destruct (tools_live _). }
  split; [exact Hone|].
  rewrite <- Hone. symmetry. subst o.
  rewrite (bind_returns call (fun _ => result) h tt).
  - unfold after_effects. change (effects_of (?a, ?b, ?c)) with c.
    rewrite !count_effects_app.
    pose proof (dispatch_pairs_panels_and_saves json_loads json_dumps py_str
                  (ToolCall sub_call call_content) h) as P1.
    pose proof (dispatch_pairs_panels_and_saves json_loads json_dumps py_str
                  (ToolResult sub_result result_content) (state_of (call quiet h))) as P2.
    cbv zeta in P1, P2. fold call in P1. fold result in P2. by rewrite P1, P2.
  - unfold call. erewrite tool_call_run by eassumption.
    apply register_call_returns.
Qed.

(** X13. A call whose id has neither a record nor a cached result,
    followed by its result, prints exactly one completion panel and writes
    exactly one [tool_call] entry, whatever else the handler holds, on any
    console on which the two meet no failure of rich. *)
Theorem call_then_result_is_shown_once
    (sub_call sub_result : bool) (call_content result_content : string)
    (cf rf : list (string * json)) (id : pykey)
    (k : Console) (h : StreamHandler) :
  json_loads call_content = Loaded (JObj cf) ->
  py_hash (field "id" cf (JStr "")) = Some id ->
  json_loads result_content = Loaded (JObj rf) ->
  py_hash (field "id" rf (JStr "")) = Some id ->
  pending_results h !! id = None ->
  let call := run_dispatch json_loads json_dumps py_str (ToolCall sub_call call_content) in
  let result :=
    run_dispatch json_loads json_dumps py_str (ToolResult sub_result result_content) in
  let r := (call >> result) k h in
  clean r = true ->
  count_effects is_completion_panel (effects_of r) = 1%nat
  /\ count_effects is_tool_call_save (effects_of r) = 1%nat.
Proof.
  intros Hc Hkc Hr Hkr Hcache call result r Hclean. subst r.
  destruct (call_then_result_run sub_call sub_result call_content result_content
              cf rf id h Hc Hkc Hr Hkr Hcache) as (Hpanel & Hsave).
  fold call result in Hpanel, Hsave.
  rewrite (faithful_clean (call >> result) k h);
    [by split
    |apply faithful_bind; [|intros _]; apply faithful_run_dispatch
    |exact Hclean].
Qed.
End early_results.

(** ** The image checks of [read_image] *)

Lemma rfind_Some c s i :
  VlmFiles.rfind c s = Some i ->
  exists a b, s = a ++ String c b /\ String.length a = i
              /\ VlmFiles.rfind c b = None.
Proof.
  revert i. induction s as [|c' s IH]; intros i; simpl; [done|].
  destruct (VlmFiles.rfind c s) as [j|] eqn:Hj.
  - intros [= <-]. destruct (IH j eq_refl) as (a & b & -> & <- & Hb).
    by exists (String c' a), b.
  - destruct (Ascii.eqb c' c) eqn:Hc; [|done].
    apply Ascii.eqb_eq in Hc as ->. intros [= <-]. by exists "", s.
Qed.

Lemma rfind_app_last c a b :
  VlmFiles.rfind c b = None ->
  VlmFiles.rfind c (a ++ String c b) = Some (String.length a).
Proof.
  intros Hb. induction a as [|c' a IH].
  - change ("" ++ String c b) with (String c b). simpl.
    by rewrite Hb, Ascii.eqb_refl.
  - change (String c' a ++ String c b) with (String c' (a ++ String c b)).
    simpl. by rewrite IH.
Qed.

Lemma str_from_app a b : VlmFiles.str_from (String.length a) (a ++ b) = b.
Proof.
  induction a as [|c a IH]; [by destruct b|].
  change (String c a ++ b) with (String c (a ++ b)). exact IH.
Qed.

Section media_facts.
Variable lower : string -> string.
Hypothesis lower_empty : lower "" = "".

(** The shape of the names [_validate_image_extension] accepts. *)
Lemma validated_extension_shape (path : string) :
  VlmFiles._validate_image_extension lower path = true ->
  exists stem ext,
    VlmFiles.name (Vlm.Path path) = stem ++ String "."%char ext
    /\ stem <> "" /\ ext <> ""
    /\ VlmFiles.rfind "."%char ext = None
    /\ In (lower (String "."%char ext)) VlmFiles.supported_extensions.
Proof.
  unfold VlmFiles._validate_image_extension, VlmFiles.suffix.
  set (nm := VlmFiles.name (Vlm.Path path)). cbv zeta.
  rewrite existsb_exists.
  intros (x & Hin & Heq). apply String.eqb_eq in Heq. subst x.
  destruct (VlmFiles.rfind "." nm) as [i|] eqn:Hi.
  - destruct (Nat.ltb 0 i && Nat.ltb i (String.length nm - 1)) eqn:Hb.
    + apply andb_true_iff in Hb as [H0 H1].
      apply Nat.ltb_lt in H0, H1.
      destruct (rfind_Some _ _ _ Hi) as (a & b & Hnm & Hlen & Hb).
      exists a, b. rewrite Hnm in H1, Hin. rewrite string_length_app in H1.
      simpl in H1. rewrite <- Hlen, str_from_app in Hin.
      split; [done|]. split; [intros ->; simpl in Hlen; lia|].
      split; [intros ->; simpl in H1; lia|]. done.
    + rewrite lower_empty in Hin. simpl in Hin. intuition discriminate.
  - rewrite lower_empty in Hin. simpl in Hin. intuition discriminate.
Qed.

(** X14. [_validate_image_extension] accepts a path exactly when its last
    component is [stem.ext] with a non-empty stem, a non-empty [ext]
    without a dot, and [.ext] lower-cased is one of the six supported
    extensions.  So a name that is only an extension ([.png]), a name
    without a dot, and a name that ends in a dot are all refused, and only
    the last of several extensions counts. *)
Theorem image_extension_is_the_last_dotted_part (path : string) :
  VlmFiles._validate_image_extension lower path = true
  <-> exists stem ext,
        VlmFiles.name (Vlm.Path path) = stem ++ String "."%char ext
        /\ stem <> "" /\ ext <> ""
        /\ VlmFiles.rfind "."%char ext = None
        /\ In (lower (String "."%char ext)) VlmFiles.supported_extensions.
Proof.
  split; [apply validated_extension_shape|].
  intros (stem & ext & Hnm & Hstem & Hext & Hdot & Hin).
  unfold VlmFiles._validate_image_extension, VlmFiles.suffix. cbv zeta.
  apply existsb_exists.
  exists (lower (String "." ext)). split; [exact Hin|].
  apply String.eqb_eq. f_equal. rewrite Hnm.
  rewrite rfind_app_last by exact Hdot.
  assert (Nat.ltb 0 (String.length stem)
          && Nat.ltb (String.length stem)
               (String.length (stem ++ String "." ext) - 1) = true) as ->.
  { apply andb_true_iff. rewrite !Nat.ltb_lt, string_length_app. simpl.
    destruct stem, ext; simpl; try done; lia. }
  apply str_from_app.
Qed.
End media_facts.

(** [image_extension_is_the_last_dotted_part] on an upper-case extension
    under a directory. *)
Lemma image_extension_is_the_last_dotted_part_witness :
  VlmFiles.ascii_lower "" = ""
  /\ (VlmFiles._validate_image_extension VlmFiles.ascii_lower "pics/Photo.tar.PNG"
       = true
      <-> exists stem ext,
            VlmFiles.name (Vlm.Path "pics/Photo.tar.PNG")
            = stem ++ String "."%char ext
            /\ stem <> "" /\ ext <> ""
            /\ VlmFiles.rfind "."%char ext = None
            /\ In (VlmFiles.ascii_lower (String "."%char ext))
                 VlmFiles.supported_extensions).
Proof.
  split; [reflexivity|].
  apply (image_extension_is_the_last_dotted_part VlmFiles.ascii_lower).
  reflexivity.
Defined.

Section read_guard.
Variable get_workspace_path : string.
Variable resolve : Vlm.pypath -> Vlm.error + Vlm.pypath.
Variable exists_ : Vlm.pypath -> Vlm.error + bool.
Variable is_file : Vlm.pypath -> Vlm.error + bool.
Variable _validate_image_extension : Vlm.pypath -> bool.
Variable _get_media_type : Vlm.pypath -> string.
Variable b64encode : string -> string.

(** X15. [read_image] consults the bytes of a file only after every check
    has passed: two file systems whose files differ only outside the
    workspace, or where the path does not exist, is not a regular file or
    has no supported extension, or where one of the checks raises, give
    the same answer (image or error) for every argument. *)
Theorem read_image_reads_only_admitted_files
    (read_bytes1 read_bytes2 : Vlm.pypath -> Vlm.error + string)
    (path_or_url prompt : string) :
  (forall ws p,
      Vlm.workspace get_workspace_path resolve = inr ws ->
      Vlm.inside ws p ->
      exists_ p = inr true -> is_file p = inr true ->
      _validate_image_extension p = true ->
      read_bytes1 p = read_bytes2 p) ->
  Vlm.read_image get_workspace_path resolve exists_ is_file read_bytes1
    _validate_image_extension _get_media_type b64encode path_or_url prompt
  = Vlm.read_image get_workspace_path resolve exists_ is_file read_bytes2
      _validate_image_extension _get_media_type b64encode path_or_url prompt.
Proof.
  intros Hsame. unfold Vlm.read_image.
  destruct (String.prefix "http://" path_or_url
            || String.prefix "https://" path_or_url); [done|].
  rewrite _resolve_path_run.
  destruct (Vlm.workspace get_workspace_path resolve) as [e|ws] eqn:Hws; [done|].
  destruct (resolve _) as [e|candidate]; [done|].
  destruct (Vlm.relative_to_ok candidate ws) eqn:Hok; [|done].
  apply relative_to_ok_inside in Hok.
  destruct (exists_ candidate) as [e|[]] eqn:He; [done| |done].
  destruct (is_file candidate) as [e|[]] eqn:Hf; [done| |done].
  destruct (_validate_image_extension candidate) eqn:Hv; [|done].
  simpl. by rewrite (Hsame ws candidate eq_refl Hok He Hf Hv).
Qed.
End read_guard.

(** [read_image_reads_only_admitted_files] on a workspace [/ws] whose
    second file system cannot read anything outside it. *)
Lemma read_image_reads_only_admitted_files_witness :
  let read_image read_bytes :=
    Vlm.read_image "/ws" Vlm.resolve_plain (fun _ => inr true) (fun _ => inr true)
      read_bytes (fun _ => true) (fun _ => "image/png") (fun d => d) in
  let inside_only p :=
    if Vlm.relative_to_ok p (Vlm.resolve_lexical (Vlm.Path "/ws"))
    then inr "bytes" else inl Vlm.RuntimeError in
  read_image (fun _ => inr "bytes") "a/../../etc/x.png" "look"
  = read_image inside_only "a/../../etc/x.png" "look".
Proof.
  intros read_image inside_only.
  apply (read_image_reads_only_admitted_files "/ws" Vlm.resolve_plain
           (fun _ => inr true) (fun _ => inr true) (fun _ => true)
           (fun _ => "image/png") (fun d => d)
           (fun _ => inr "bytes") inside_only).
  intros ws p Hws Hin _ _ _. injection Hws as <-. unfold inside_only.
  apply relative_to_ok_inside in Hin. by rewrite Hin.
Defined.

(** ** Which events end a stream early *)

Section raising.
Variable json_loads : string -> loads_result.
Variable json_dumps : json -> option string.
Variable py_str : json -> string.

(** What a tool handler ends with, rich apart, by its payload. *)
Local Abbreviation payload_outcome content :=
  (match json_loads content with
   | Loaded (JObj f) =>
       if is_some (py_hash (field "id" f (JStr ""))) then Return tt
       else Raise TypeError
   | Loaded _ => Raise AttributeError
   | JSONDecodeError => Return tt
   | LoadsRaises e => Raise e
   end).

Lemma outcome_after_effects {A : Type} o (x : outcome A * StreamHandler * list effect) :
  outcome_of (after_effects o x) = outcome_of x.
Proof. by destruct x as [[? ?] ?]. Qed.

Lemma call_body_outcome sub what content h :
  outcome_of (call_body json_dumps py_str sub what (json_loads content) content h)
  = payload_outcome content.
Proof.
  unfold call_body, parsed_call.
  destruct (json_loads content) as [[| | | | |f]| |e]; try reflexivity.
  destruct (py_hash (field "id" f (JStr ""))); [|reflexivity].
  apply register_call_returns.
Qed.

Lemma result_body_outcome what content h :
  outcome_of (result_body py_str what (json_loads content) content h)
  = payload_outcome content.
Proof.
  unfold result_body, parsed_result.
  destruct (json_loads content) as [[| | | | |f]| |e]; try reflexivity.
  destruct (py_hash (field "id" f (JStr ""))); [|reflexivity].
  apply register_result_returns.
Qed.

Lemma dispatch_outcome d h :
  outcome_of (run_dispatch json_loads json_dumps py_str d quiet h)
  = match d with
    | ToolCall _ content | ToolResult _ content => payload_outcome content
    | _ => Return tt
    end.
Proof.
  destruct d as [|e content label|[] content|[] content|? ?|content|content]; simpl.
  - reflexivity.
  - by rewrite content_handler_run.
  - rewrite handle_sub_agent_tool_call_run, outcome_after_effects.
    apply call_body_outcome.
  - rewrite handle_tool_call_run, outcome_after_effects. apply call_body_outcome.
  - rewrite handle_sub_agent_tool_result_run. apply result_body_outcome.
  - rewrite handle_tool_result_run. apply result_body_outcome.
  - by rewrite handle_sub_agent_start_run.
  - by rewrite handle_sub_agent_end_run.
  - by rewrite handle_error_run.
Qed.

Lemma dispatch_returns_iff d h :
  outcome_of (run_dispatch json_loads json_dumps py_str d quiet h) = Return tt
  <-> workable json_loads d = true.
Proof.
  rewrite dispatch_outcome. unfold workable.
  destruct d as [|e content label|sub content|sub content|? ?|content|content];
    try done;
    destruct (json_loads content) as [[| | | | |f]| |e]; try done;
    by destruct (py_hash (field "id" f (JStr ""))).
Qed.

(** On the quiet console a stream returns exactly when all its events are
    workable, and raises [KeyError] only if [json.loads] does. *)
Lemma quiet_stream_outcome responses h :
  let r := handle_stream json_loads json_dumps py_str responses quiet h in
  (outcome_of r = Return tt
   <-> forallb (fun r => workable json_loads (classify r)) responses = true)
  /\ ((forall content, json_loads content <> LoadsRaises KeyError) ->
      outcome_of r <> Raise KeyError).
Proof.
  revert h. induction responses as [|r rest IH]; intros h; [done|].
  cbv zeta. simpl.
  destruct (outcome_of (handle_response json_loads json_dumps py_str r quiet h))
    as [[]|e] eqn:Hr.
  - rewrite (bind_returns _ _ h tt Hr), outcome_after_effects.
    rewrite handle_response_classify in Hr. apply dispatch_returns_iff in Hr.
    rewrite Hr. apply IH.
  - rewrite (bind_raises _ _ quiet h e Hr). simpl.
    rewrite handle_response_classify in Hr.
    assert (workable json_loads (classify r) = false) as Hbad.
    { destruct (workable json_loads (classify r)) eqn:Hw; [|done].
      apply (dispatch_returns_iff _ h) in Hw. congruence. }
    rewrite Hbad. split; [done|].
    intros Hloads [= ->]. rewrite dispatch_outcome in Hr.
    destruct (classify r) as [|? ? ?|sub content|sub content|? ?|?|?];
      try discriminate;
      specialize (Hloads content);
      destruct (json_loads content) as [[| | | | |f]| |e]; try discriminate;
      try (destruct (py_hash (field "id" f (JStr ""))); discriminate);
      congruence.
Qed.

(** X16. Rich apart, the only events a handler raises on are tool events
    whose content [json.loads] refuses with another exception than
    [JSONDecodeError], or decodes to something that is not an object
    ([AttributeError]) or to an object with an unhashable id
    ([TypeError]).  On every console, a stream that is processed to its
    end has no such event; a stream without such an event is processed to
    its end unless a call to rich raises; and a stream with such an event
    stops at the first one at the latest, the events after it untouched.
    The dictionary lookups of the handlers never raise [KeyError]. *)
Theorem stream_stops_only_at_unworkable_payloads
    (responses : list (option event)) (k : Console) (h : StreamHandler) :
  let ok r := workable json_loads (classify r) in
  let run := handle_stream json_loads json_dumps py_str in
  (outcome_of (run responses k h) = Return tt -> forallb ok responses = true)
  /\ (forallb ok responses = true ->
      outcome_of (run responses k h) = Return tt
      \/ outcome_of (run responses k h) = Raise RichError)
  /\ ((forall content, json_loads content <> LoadsRaises KeyError) ->
      outcome_of (run responses k h) <> Raise KeyError)
  /\ (forall before r after,
        responses = (before ++ r :: after)%list ->
        forallb ok before = true -> ok r = false ->
        run responses k h = run (before ++ [r])%list k h
        /\ exists e, outcome_of (run responses k h) = Raise e).
Proof.
  intros ok run.
  pose proof (faithful_handle_stream json_loads json_dumps py_str) as Hfaithful.
  destruct (quiet_stream_outcome responses h) as [Hiff Hkey]. cbv zeta in Hiff, Hkey.
  split; [|split; [|split]].
  - intros Hret. apply Hiff.
    by rewrite <- (faithful_clean _ k h (Hfaithful responses) (clean_returns _ _ Hret)).
  - intros Hok. apply Hiff in Hok. unfold run.
    rewrite (faithful_outcome _ k h (Hfaithful responses)), Hok.
    destruct (accepts k _); [by left|by right].
  - intros Hloads. unfold run.
    rewrite (faithful_outcome _ k h (Hfaithful responses)).
    destruct (accepts k _); [by apply Hkey|discriminate].
  - intros before r after -> Hbefore Hr. clear Hiff Hkey. revert k h.
    induction before as [|b before IH]; intros k h.
    + change (([] ++ r :: after)%list) with (r :: after).
      change (([] ++ [r])%list) with [r].
      assert (exists e,
                 outcome_of (handle_response json_loads json_dumps py_str r k h)
                 = Raise e) as [e He].
      { destruct (outcome_of (handle_response json_loads json_dumps py_str r k h))
          as [[]|e] eqn:Hout; [|by exists e].
        pose proof (faithful_clean _ k h
                      (faithful_handle_response json_loads json_dumps py_str r)
                      (clean_returns _ _ Hout)) as Hquiet.
        rewrite Hquiet, handle_response_classify in Hout.
        apply dispatch_returns_iff in Hout. unfold ok in Hr. congruence. }
      unfold run.
      rewrite !(handle_stream_raise json_loads json_dumps py_str r _ k h e He).
      split; [done|by exists e].
    + change (forallb ok (b :: before)) with (ok b && forallb ok before) in Hbefore.
      apply andb_true_iff in Hbefore as [Hb Hbefore].
      change (((b :: before) ++ r :: after)%list)
        with (b :: (before ++ r :: after)%list).
      change (((b :: before) ++ [r])%list) with (b :: (before ++ [r])%list).
      destruct (outcome_of (handle_response json_loads json_dumps py_str b k h))
        as [[]|e] eqn:Hout.
      * unfold run. simpl. rewrite !(bind_returns_at _ _ k h tt Hout).
        destruct (IH Hbefore
                    (shift (effects_of
                              (handle_response json_loads json_dumps py_str b k h)) k)
                    (state_of (handle_response json_loads json_dumps py_str b k h)))
          as (Heq & e & He).
        unfold run in Heq, He. rewrite Heq in He |- *. split; [done|].
        exists e. by rewrite outcome_after_effects.
      * unfold run.
        rewrite !(handle_stream_raise json_loads json_dumps py_str b _ k h e Hout).
        split; [done|by exists e].
Qed.
End raising.

(** ** File completions of the prompt *)

Section file_completion_facts.
Variable get_workspace_path : string.
Variable realpath : string -> option string.
Variable normpath dirname basename : string -> string.
Variable join : string -> string -> string.
Variable isabs isdir : string -> bool.
Variable listdir : string -> option (list string).
Variable lower : string -> string.
Variable sorted : list string -> list string.

Local Abbreviation visit := (ShellPrompt.visit join isdir lower).
Local Abbreviation scan := (ShellPrompt.scan join isdir lower).
Local Abbreviation get_file_completions :=
  (ShellPrompt.get_file_completions get_workspace_path realpath normpath dirname
     basename join isabs isdir listdir lower sorted).
Local Abbreviation search_base :=
  (ShellPrompt.search_base get_workspace_path normpath join).
Local Abbreviation search_dir :=
  (ShellPrompt.search_dir get_workspace_path normpath dirname join isdir).
Local Abbreviation prefix_part :=
  (ShellPrompt.prefix_part get_workspace_path normpath basename join isdir lower).
Local Abbreviation workspace :=
  (if String.eqb get_workspace_path "" then "." else get_workspace_path).

(** The counter of the loop counts the completions yielded, not the
    entries visited. *)
Lemma scan_take dir pre extensions entries count :
  scan dir pre extensions entries count
  = take (30 - count) (omap (visit dir pre extensions) entries).
Proof.
  revert count. induction entries as [|entry rest IH]; intros count.
  - simpl. by rewrite take_nil.
  - cbn [ShellPrompt.scan omap list_omap].
    destruct (Nat.leb 30 count) eqn:Hfull.
    + apply Nat.leb_le in Hfull.
      replace (30 - count)%nat with 0%nat by lia. reflexivity.
    + apply Nat.leb_gt in Hfull.
      destruct (visit dir pre extensions entry) as [c|]; [|apply IH].
      rewrite IH. replace (30 - count)%nat with (S (30 - S count)) by lia.
      reflexivity.
Qed.

Lemma get_file_completions_run partial_path extensions :
  get_file_completions partial_path extensions
  = let p := if String.eqb partial_path "" then "./" else partial_path in
    match realpath workspace with
    | None => None
    | Some w =>
        if ShellPrompt.contains ".." p || isabs p then Some []
        else
          match realpath (search_base partial_path) with
          | None => None
          | Some b =>
              if negb (String.prefix w b) then Some []
              else
                match realpath (search_dir partial_path) with
                | None => None
                | Some d =>
                    if String.prefix w d && isdir (search_dir partial_path)
                    then
                      match listdir (search_dir partial_path) with
                      | Some entries =>
                          Some (take 30
                                  (omap (visit (search_dir partial_path)
                                           (prefix_part partial_path) extensions)
                                     (sorted entries)))
                      | None => Some []
                      end
                    else Some []
                end
          end
    end.
Proof.
  unfold ShellPrompt.get_file_completions, ShellPrompt.search_dir,
    ShellPrompt.prefix_part, ShellPrompt.search_base. cbv zeta.
  destruct (realpath workspace) as [w|]; [|reflexivity].
  destruct (ShellPrompt.contains ".." _ || isabs _); [reflexivity|].
  destruct (realpath (normpath _)) as [b|]; [|reflexivity].
  destruct (String.prefix w b); [|reflexivity]. simpl.
  destruct (realpath (if isdir _ then _ else _)) as [d|]; [|reflexivity].
  destruct (String.prefix w d); [|reflexivity].
  destruct (isdir (if isdir _ then _ else _)); [|reflexivity].
  simpl. destruct (listdir _); [|reflexivity].
  by rewrite scan_take.
Qed.

(** X17. [get_file_completions] offers at most 30 completions, and offers
    any only when the partial path (["./"] for an empty one) has no [..]
    and is not absolute, the real paths of the search base and of the
    directory listed both begin with the real path of the workspace, and
    that directory is a directory that could be listed.  A listing that
    fails gives no completion and no error.  The generator raises only
    where [realpath] does: on the workspace or, for a partial path that is
    neither absolute nor has [..], on the search base or on the directory
    to list. *)
Theorem file_completions_are_guarded_and_bounded
    (partial_path : string) (extensions : option (list string)) :
  let p := if String.eqb partial_path "" then "./" else partial_path in
  match get_file_completions partial_path extensions with
  | Some result =>
      (length result <= 30)%nat
      /\ (result <> [] ->
          ShellPrompt.contains ".." p = false
          /\ isabs p = false
          /\ (exists w b d,
                 realpath workspace = Some w
                 /\ realpath (search_base partial_path) = Some b
                 /\ realpath (search_dir partial_path) = Some d
                 /\ String.prefix w b = true
                 /\ String.prefix w d = true)
          /\ isdir (search_dir partial_path) = true
          /\ exists entries, listdir (search_dir partial_path) = Some entries)
      /\ (listdir (search_dir partial_path) = None -> result = [])
  | None =>
      realpath workspace = None
      \/ (ShellPrompt.contains ".." p = false
          /\ isabs p = false
          /\ (realpath (search_base partial_path) = None
              \/ realpath (search_dir partial_path) = None))
  end.
Proof.
  intros p. rewrite get_file_completions_run. cbv zeta. fold p.
  destruct (realpath workspace) as [w|]; [|by left].
  destruct (ShellPrompt.contains ".." p || isabs p) eqn:Hsafe.
  { split; [simpl; lia|]. split; done. }
  apply orb_false_elim in Hsafe as [Hdots Habs].
  destruct (realpath (search_base partial_path)) as [b|];
    [|right; repeat split; try done; by left].
  destruct (String.prefix w b) eqn:Hb; simpl;
    [|split; [lia|split; done]].
  destruct (realpath (search_dir partial_path)) as [d|];
    [|right; repeat split; try done; by right].
  destruct (String.prefix w d) eqn:Hd; simpl;
    [|split; [lia|split; done]].
  destruct (isdir (search_dir partial_path)); simpl;
    [|split; [lia|split; done]].
  destruct (listdir (search_dir partial_path)) as [entries|];
    [|split; [simpl; lia|split; done]].
  split; [rewrite length_take; lia|]. split; [|done].
  intros _. repeat split; try done; [by exists w, b, d|by exists entries].
Qed.

End file_completion_facts.

(** The completions of the sample workspace: for an empty input, for a
    typed name with an extension filter, for a typed dot, and for a path
    that leaves the workspace. *)
Example completions_of_the_sample_workspace :
  map ShellPrompt.text <$> ShellPrompt.Fs.completions "" None
  = Some ["a.txt"; "b.md"; "docs/"]
  /\ map ShellPrompt.text <$> ShellPrompt.Fs.completions "./B" (Some [".md"])
     = Some ["b.md"]
  /\ map ShellPrompt.text <$> ShellPrompt.Fs.completions "./" (Some [".md"])
     = Some ["b.md"; "docs/"]
  /\ map ShellPrompt.text <$> ShellPrompt.Fs.completions "./.e" None = Some [".env"]
  /\ ShellPrompt.Fs.completions "./../etc" None = Some []
  /\ ShellPrompt.Fs.completions (String zero "") None = None.
Proof. by vm_compute. Qed.

(** * The further properties at concrete inputs *)

(** [non_object_payload_raises] on the payload [42]. *)
Lemma non_object_payload_raises_witness :
  Sample2.loads Sample2.number = Loaded (JInt 42)
  /\ (forall f, JInt 42 <> JObj f)
  /\ run_dispatch Sample2.loads Sample.dumps Sample.str
       (ToolResult false Sample2.number) Sample.rich init
     = (Raise AttributeError, set_current_state (Some tool_result) init, [])
  /\ outcome_of
       (handle_stream Sample2.loads Sample.dumps Sample.str
          [Sample.ev "tool_call" Sample2.number; Sample.ev "model_answer" "late"]
          Sample.rich init)
     = Raise AttributeError.
Proof.
  assert (Sample2.loads Sample2.number = Loaded (JInt 42)) as H1 by reflexivity.
  assert (forall f, JInt 42 <> JObj f) as H2 by (intros f; discriminate).
  destruct (non_object_payload_raises Sample2.loads Sample.dumps Sample.str
              false Sample2.number (JInt 42) Sample.rich init H1 H2)
    as (Hrr & _ & _ & _ & _ & _ & _ & Hstream).
  split; [exact H1|]. split; [exact H2|]. split; [exact Hrr|].
  rewrite (Hstream (Sample.ev "tool_call" Sample2.number)
             [Sample.ev "model_answer" "late"] (or_intror eq_refl)).
  reflexivity.
Defined.

(** [unhashable_id_raises] on the payload [{"id": [1]}]. *)
Lemma unhashable_id_raises_witness :
  let f := [("id", JArr [JInt 1])] in
  let rc := run_dispatch Sample2.loads Sample.dumps Sample.str
              (ToolCall true Sample2.list_id) Sample.rich init in
  Sample2.loads Sample2.list_id = Loaded (JObj f)
  /\ py_hash (field "id" f (JStr "")) = None
  /\ run_dispatch Sample2.loads Sample.dumps Sample.str
       (ToolResult true Sample2.list_id) Sample.rich init
     = (Raise TypeError, set_current_state (Some sub_agent_tool_result) init, [])
  /\ clean rc = true
  /\ outcome_of rc = Raise TypeError.
Proof.
  intros f rc.
  assert (Sample2.loads Sample2.list_id = Loaded (JObj f)) as H1 by reflexivity.
  assert (py_hash (field "id" f (JStr "")) = None) as H2 by reflexivity.
  assert (clean rc = true) as H3 by reflexivity.
  destruct (unhashable_id_raises Sample2.loads Sample.dumps Sample.str
              true Sample2.list_id f Sample.rich init H1 H2) as (Hrr & Hrc & _).
  destruct (Hrc H3) as [Hout _].
  split; [exact H1|]. split; [exact H2|]. split; [exact Hrr|].
  split; [exact H3|exact Hout].
Defined.

(** [text_is_written_or_still_buffered] on a stream that thinks, answers,
    calls a tool and thinks again. *)
Lemma text_is_written_or_still_buffered_witness :
  let responses :=
    [Sample.ev "model_thinking" "a"; Sample.ev "model_thinking" "b";
     Sample.ev "model_answer" "c"; Sample.ev "tool_call" Sample.call7;
     Sample.ev "sub_agent_thinking" "d"] in
  let r :=
    handle_stream Sample.loads Sample.dumps Sample.str responses Sample.rich init in
  outcome_of r = Return tt
  /\ join (channel_saves thinking_categories (effects_of r))
       ++ join (thinking_buffer (state_of r))
     = join (thinking_buffer init) ++ join (stream_thinking responses)
  /\ join (channel_saves answer_categories (effects_of r))
       ++ join (answer_buffer (state_of r))
     = join (answer_buffer init) ++ join (stream_answer responses).
Proof.
  intros responses r.
  assert (outcome_of r = Return tt) as H by (by vm_compute).
  split; [exact H|].
  exact (text_is_written_or_still_buffered Sample.loads Sample.dumps Sample.str
           responses Sample.rich init H).
Defined.

(** [turn_writes_every_fragment] on a turn that thinks and answers. *)
Lemma turn_writes_every_fragment_witness :
  let responses := [Sample.ev "model_thinking" "a"; Sample.ev "model_answer" "b"] in
  let stream :=
    handle_stream Sample.loads Sample.dumps Sample.str responses Sample.rich init in
  let turn := run_turn Sample.loads Sample.dumps Sample.str Sample.rich responses in
  outcome_of stream = Return tt
  /\ clean (finalize (shift (effects_of stream) Sample.rich) (state_of stream)) = true
  /\ join (channel_saves thinking_categories (handler_effects (snd turn))) = "a"
  /\ join (channel_saves answer_categories (handler_effects (snd turn))) = "b".
Proof.
  intros responses stream turn.
  assert (outcome_of stream = Return tt) as H1 by reflexivity.
  assert (clean (finalize (shift (effects_of stream) Sample.rich) (state_of stream))
          = true) as H2 by reflexivity.
  pose proof (turn_writes_every_fragment Sample.loads Sample.dumps Sample.str
                Sample.rich responses) as Hturn.
  cbv zeta in Hturn. fold stream in Hturn. rewrite H1 in Hturn.
  destruct (Hturn H2) as (HT & HA & _).
  split; [exact H1|]. split; [exact H2|]. split; [exact HT|exact HA].
Defined.

(** [live_regions_are_driven_consistently] on a call followed by an
    answer. *)
Lemma live_regions_are_driven_consistently_witness :
  let responses := [Sample.ev "tool_call" Sample.call7; Sample.ev "model_answer" "b"] in
  let r :=
    handle_stream Sample.loads Sample.dumps Sample.str responses Sample.rich init in
  clean r = true
  /\ replay ToolsRegion false (effects_of r)
     = Some (region_live ToolsRegion (state_of r)).
Proof.
  intros responses r.
  assert (clean r = true) as H by reflexivity.
  destruct (live_regions_are_driven_consistently Sample.loads Sample.dumps Sample.str
              ToolsRegion responses Sample.rich init H) as [Hreplay _].
  split; [exact H|exact Hreplay].
Defined.

(** [tool_region_shows_the_pending_records] from a fresh handler, on a
    call followed by its result. *)
Lemma tool_region_shows_the_pending_records_witness :
  let r :=
    handle_stream Sample.loads Sample.dumps Sample.str
      [Sample.ev "tool_call" Sample.call7; Sample.ev "tool_result" Sample.result7]
      Sample.rich init in
  (tools_live init = None
   \/ tools_live init = _render_pending_tools Sample.str init)
  /\ clean r = true
  /\ (tools_live (state_of r) = None
      \/ tools_live (state_of r) = _render_pending_tools Sample.str (state_of r)).
Proof.
  intros r.
  assert (tools_live init = None
          \/ tools_live init = _render_pending_tools Sample.str init) as H
    by (left; reflexivity).
  assert (clean r = true) as Hclean by reflexivity.
  split; [exact H|]. split; [exact Hclean|].
  exact (tool_region_shows_the_pending_records Sample.loads Sample.dumps Sample.str
           [Sample.ev "tool_call" Sample.call7;
            Sample.ev "tool_result" Sample.result7] Sample.rich init H Hclean).
Defined.

(** [early_results_are_silent_and_the_last_wins] on two results for id 7
    that arrive before the call. *)
Lemma early_results_are_silent_and_the_last_wins_witness :
  let rf1 := [("id", JStr "7"); ("content", JStr "42")] in
  let rf2 := [("id", JStr "7"); ("content", JStr "43")] in
  let cf := [("id", JStr "7"); ("name", JStr "search")] in
  let result1 :=
    run_dispatch Sample.loads Sample.dumps Sample.str (ToolResult false Sample.result7) in
  let result2 :=
    run_dispatch Sample.loads Sample.dumps Sample.str (ToolResult false Sample.result7') in
  let call :=
    run_dispatch Sample.loads Sample.dumps Sample.str (ToolCall false Sample.call7) in
  let all := (result1 >> result2 >> call) Sample.rich init in
  Sample.loads Sample.result7 = Loaded (JObj rf1)
  /\ py_hash (field "id" rf1 (JStr "")) = Some (KStr "7")
  /\ Sample.loads Sample.result7' = Loaded (JObj rf2)
  /\ py_hash (field "id" rf2 (JStr "")) = Some (KStr "7")
  /\ Sample.loads Sample.call7 = Loaded (JObj cf)
  /\ py_hash (field "id" cf (JStr "")) = Some (KStr "7")
  /\ OrderedDict.lookup (KStr "7") (tool_states init) = None
  /\ clean all = true
  /\ effects_of ((result1 >> result2) Sample.rich init) = []
  /\ OrderedDict.lookup (KStr "7") (tool_states (state_of all))
     = Some (mark_complete "43" (call_record Sample.dumps Sample.str false cf))
  /\ count_effects is_completion_panel (effects_of all) = 1%nat.
Proof.
  intros rf1 rf2 cf result1 result2 call all.
  assert (Sample.loads Sample.result7 = Loaded (JObj rf1)) as H1 by reflexivity.
  assert (py_hash (field "id" rf1 (JStr "")) = Some (KStr "7")) as H2 by reflexivity.
  assert (Sample.loads Sample.result7' = Loaded (JObj rf2)) as H3 by reflexivity.
  assert (py_hash (field "id" rf2 (JStr "")) = Some (KStr "7")) as H4 by reflexivity.
  assert (Sample.loads Sample.call7 = Loaded (JObj cf)) as H5 by reflexivity.
  assert (py_hash (field "id" cf (JStr "")) = Some (KStr "7")) as H6 by reflexivity.
  assert (OrderedDict.lookup (KStr "7") (tool_states init) = None) as H7
    by reflexivity.
  assert (clean all = true) as H8 by reflexivity.
  destruct (early_results_are_silent_and_the_last_wins
              Sample.loads Sample.dumps Sample.str false false false
              Sample.result7 Sample.result7' Sample.call7 rf1 rf2 cf (KStr "7")
              Sample.rich init H1 H2 H3 H4 H5 H6 H7) as (_ & Hquiet & _ & Hall).
  destruct (Hall H8) as [Hrec Hone].
  repeat (split; [assumption|]). assumption.
Defined.

(** [call_then_result_is_shown_once] on the call and the result of id 7. *)
Lemma call_then_result_is_shown_once_witness :
  let cf := [("id", JStr "7"); ("name", JStr "search")] in
  let rf := [("id", JStr "7"); ("content", JStr "42")] in
  let call :=
    run_dispatch Sample.loads Sample.dumps Sample.str (ToolCall false Sample.call7) in
  let result :=
    run_dispatch Sample.loads Sample.dumps Sample.str (ToolResult true Sample.result7) in
  let r := (call >> result) Sample.rich init in
  Sample.loads Sample.call7 = Loaded (JObj cf)
  /\ py_hash (field "id" cf (JStr "")) = Some (KStr "7")
  /\ Sample.loads Sample.result7 = Loaded (JObj rf)
  /\ py_hash (field "id" rf (JStr "")) = Some (KStr "7")
  /\ pending_results init !! KStr "7" = None
  /\ clean r = true
  /\ count_effects is_completion_panel (effects_of r) = 1%nat
  /\ count_effects is_tool_call_save (effects_of r) = 1%nat.
Proof.
  intros cf rf call result r.
  assert (Sample.loads Sample.call7 = Loaded (JObj cf)) as H1 by reflexivity.
  assert (py_hash (field "id" cf (JStr "")) = Some (KStr "7")) as H2 by reflexivity.
  assert (Sample.loads Sample.result7 = Loaded (JObj rf)) as H3 by reflexivity.
  assert (py_hash (field "id" rf (JStr "")) = Some (KStr "7")) as H4 by reflexivity.
  assert (pending_results init !! KStr "7" = None) as H5 by reflexivity.
  assert (clean r = true) as H6 by reflexivity.
  destruct (call_then_result_is_shown_once Sample.loads Sample.dumps Sample.str
              false true Sample.call7 Sample.result7 cf rf (KStr "7") Sample.rich init
              H1 H2 H3 H4 H5 H6) as (Hpanel & Hsave).
  repeat (split; [assumption|]). assumption.
Defined.

(** [stream_stops_only_at_unworkable_payloads] on a stream whose second
    event carries the payload [42]. *)
Lemma stream_stops_only_at_unworkable_payloads_witness :
  let run := handle_stream Sample2.loads Sample.dumps Sample.str in
  let before := [Sample.ev "model_answer" "a"] in
  let r := Sample.ev "tool_call" Sample2.number in
  let after := [Sample.ev "model_answer" "late"] in
  forallb (fun r => workable Sample2.loads (classify r)) before = true
  /\ workable Sample2.loads (classify r) = false
  /\ run (before ++ r :: after)%list Sample.rich init
     = run (before ++ [r])%list Sample.rich init.
Proof.
  intros run before r after.
  assert (forallb (fun r => workable Sample2.loads (classify r)) before = true)
    as H1 by reflexivity.
  assert (workable Sample2.loads (classify r) = false) as H2 by reflexivity.
  destruct (stream_stops_only_at_unworkable_payloads
              Sample2.loads Sample.dumps Sample.str
              (before ++ r :: after)%list Sample.rich init)
    as (_ & _ & _ & Hstop).
  destruct (Hstop before r after eq_refl H1 H2) as [Heq _].
  split; [exact H1|]. split; [exact H2|exact Heq].
Defined.


(** ** The file whose extension [read_image] checks *)

Lemma split_slash_plain w :
  VlmFiles.has_char Vlm.slash w = false -> Vlm.split_slash w = [w].
Proof.
  induction w as [|c w IH]; simpl; [done|].
  intros Hw. apply orb_false_elim in Hw as [Hc Hw].
  by rewrite Hc, (IH Hw).
Qed.

Lemma split_slash_app w s :
  VlmFiles.has_char Vlm.slash w = false ->
  Vlm.split_slash (w ++ String Vlm.slash s) = w :: Vlm.split_slash s.
Proof.
  induction w as [|c w IH]; intros Hw.
  - reflexivity.
  - simpl in Hw. apply orb_false_elim in Hw as [Hc Hw].
    change (String c w ++ String Vlm.slash s)
      with (String c (w ++ String Vlm.slash s)).
    simpl. by rewrite Hc, (IH Hw).
Qed.

Lemma split_slash_concat ps :
  ps <> [] ->
  forallb VlmFiles.plain_part ps = true ->
  Vlm.split_slash (String.concat "/" ps) = ps.
Proof.
  induction ps as [|x ps IH]; [done|]. intros _ Hps.
  change (forallb VlmFiles.plain_part (x :: ps))
    with (VlmFiles.plain_part x && forallb VlmFiles.plain_part ps) in Hps.
  apply andb_true_iff in Hps as [Hx Hps].
  assert (VlmFiles.has_char Vlm.slash x = false) as Hslash.
  { unfold VlmFiles.plain_part in Hx. apply andb_true_iff in Hx as [_ Hx].
    by apply negb_true_iff in Hx. }
  destruct ps as [|y ps].
  - simpl. by apply split_slash_plain.
  - change (String.concat "/" (x :: y :: ps))
      with (x ++ String Vlm.slash (String.concat "/" (y :: ps))).
    rewrite split_slash_app by exact Hslash. f_equal. by apply IH.
Qed.

Lemma filter_plain_parts ps :
  forallb VlmFiles.plain_part ps = true ->
  filter (fun w : string => w <> "" /\ w <> ".") ps = ps.
Proof.
  induction ps as [|x ps IH]; [done|]. intros Hps.
  change (forallb VlmFiles.plain_part (x :: ps))
    with (VlmFiles.plain_part x && forallb VlmFiles.plain_part ps) in Hps.
  apply andb_true_iff in Hps as [Hx Hps].
  unfold VlmFiles.plain_part in Hx.
  apply andb_true_iff in Hx as [Hx _]. apply andb_true_iff in Hx as [H1 H2].
  apply negb_true_iff, String.eqb_neq in H1, H2.
  rewrite filter_cons_True by done. by rewrite IH.
Qed.

(** [Path(str(p))] is [p] again, for a path made of plain components. *)
Lemma path_of_str p :
  VlmFiles.well_formed p = true -> Vlm.Path (VlmFiles.str p) = p.
Proof.
  destruct p as [abs ps]. unfold VlmFiles.well_formed, VlmFiles.str.
  cbn [Vlm.parts Vlm.absolute].
  intros Hps. destruct ps as [|x ps]; [by destruct abs|].
  assert (Vlm.startswith Vlm.slash (String.concat "/" (x :: ps)) = false) as Hrel.
  { change (forallb VlmFiles.plain_part (x :: ps))
      with (VlmFiles.plain_part x && forallb VlmFiles.plain_part ps) in Hps.
    apply andb_true_iff in Hps as [Hx _]. unfold VlmFiles.plain_part in Hx.
    apply andb_true_iff in Hx as [Hx Hslash].
    apply andb_true_iff in Hx as [Hne _].
    apply negb_true_iff in Hslash.
    destruct x as [|c x]; [done|]. simpl in Hslash.
    apply orb_false_elim in Hslash as [Hc _].
    destruct ps as [|y ps]; simpl; exact Hc. }
  assert (Vlm.split_slash (String.concat "/" (x :: ps)) = x :: ps) as Hsplit
    by (by apply split_slash_concat).
  revert Hrel Hsplit. generalize (String.concat "/" (x :: ps)). intros s Hrel Hsplit.
  unfold Vlm.Path. destruct abs.
  - change ("/" ++ s) with (String Vlm.slash s).
    change (Vlm.split_slash (String Vlm.slash s)) with ("" :: Vlm.split_slash s).
    change (Vlm.startswith Vlm.slash (String Vlm.slash s)) with true.
    rewrite Hsplit.
    rewrite filter_cons_False by (intros [? _]; done).
    by rewrite filter_plain_parts.
  - change ("" ++ s) with s.
    by rewrite Hrel, Hsplit, filter_plain_parts.
Qed.

Section local_image_facts.
Variable get_workspace_path : string.
Variable resolve : Vlm.pypath -> Vlm.error + Vlm.pypath.
Variable exists_ : Vlm.pypath -> Vlm.error + bool.
Variable is_file : Vlm.pypath -> Vlm.error + bool.
Variable read_bytes : Vlm.pypath -> Vlm.error + string.
Variable b64encode : string -> string.
Variable lower : string -> string.
Variable guess_type : string -> option string.
Hypothesis lower_empty : lower "" = "".

Local Abbreviation workspace := (Vlm.workspace get_workspace_path resolve).
Local Abbreviation read_image :=
  (VlmFiles.read_image get_workspace_path resolve exists_ is_file read_bytes
     b64encode lower guess_type).

(** X19. An image that [read_image] returns from a local file was read
    from an existing regular file inside the workspace whose own name (the
    last component of the resolved path, not of the argument) is
    [stem.ext] with [.ext] lower-cased among the supported extensions; its
    media type is never empty, [image/jpeg] standing in when none is
    guessed.  The resolved path is taken to be made of plain components,
    as [Path.resolve] returns it. *)
Theorem local_image_has_a_supported_name
    (path_or_url prompt prompt' mime_type data : string) :
  (forall ws candidate,
      workspace = inr ws ->
      resolve (Vlm.joinpath ws (Vlm.Path (lstrip Vlm.is_slash path_or_url)))
      = inr candidate ->
      VlmFiles.well_formed candidate = true) ->
  read_image path_or_url prompt = inr (Vlm.Base64Image prompt' mime_type data) ->
  exists ws candidate,
    workspace = inr ws
    /\ resolve (Vlm.joinpath ws (Vlm.Path (lstrip Vlm.is_slash path_or_url)))
       = inr candidate
    /\ prompt' = prompt
    /\ Vlm.inside ws candidate
    /\ exists_ candidate = inr true /\ is_file candidate = inr true
    /\ (exists image_data,
          read_bytes candidate = inr image_data /\ data = b64encode image_data)
    /\ (exists stem ext,
          VlmFiles.name candidate = stem ++ String "."%char ext
          /\ stem <> "" /\ ext <> ""
          /\ VlmFiles.rfind "."%char ext = None
          /\ In (lower (String "."%char ext)) VlmFiles.supported_extensions)
    /\ mime_type <> ""
    /\ (mime_type = "image/jpeg"
        \/ guess_type (VlmFiles.str candidate) = Some mime_type).
Proof.
  intros Hplain Hread.
  unfold VlmFiles.read_image, Vlm.read_image in Hread.
  destruct (String.prefix "http://" path_or_url
            || String.prefix "https://" path_or_url); [discriminate|].
  rewrite _resolve_path_run in Hread.
  destruct workspace as [e|ws] eqn:Hws; [discriminate|].
  destruct (resolve _) as [e|candidate] eqn:Hcandidate; [discriminate|].
  specialize (Hplain ws candidate eq_refl Hcandidate).
  destruct (Vlm.relative_to_ok candidate ws) eqn:Hok; [|discriminate].
  apply relative_to_ok_inside in Hok.
  destruct (exists_ candidate) as [e|[]] eqn:He; try discriminate.
  destruct (is_file candidate) as [e|[]] eqn:Hf; try discriminate.
  destruct (VlmFiles._validate_image_extension lower (VlmFiles.str candidate))
    eqn:Hv; [|discriminate].
  simpl in Hread.
  destruct (read_bytes candidate) as [e|image_data] eqn:Hbytes; [discriminate|].
  injection Hread as <- <- <-.
  exists ws, candidate.
  split; [done|]. split; [done|]. split; [done|]. split; [done|].
  split; [done|]. split; [done|].
  split; [by exists image_data|].
  split.
  { apply (validated_extension_shape lower lower_empty) in Hv.
    by rewrite path_of_str in Hv. }
  unfold VlmFiles._get_media_type.
  destruct (guess_type (VlmFiles.str candidate)) as [m|]; [|by split; [|left]].
  destruct (String.eqb_spec m "") as [->|Hm]; [by split; [|left]|].
  split; [done|by right].
Qed.
End local_image_facts.

(** [local_image_has_a_supported_name] on the picture [pics/Cat.PNG] of the
    workspace [/ws]. *)
Lemma local_image_has_a_supported_name_witness :
  let read_image :=
    VlmFiles.read_image "/ws" Vlm.resolve_plain (fun _ => inr true)
      (fun _ => inr true) (fun _ => inr "bytes") (fun d => d)
      VlmFiles.ascii_lower (fun _ => None) in
  VlmFiles.ascii_lower "" = ""
  /\ read_image "/pics/../pics/Cat.PNG" "look"
     = inr (Vlm.Base64Image "look" "image/jpeg" "bytes")
  /\ exists candidate stem ext,
       Vlm.resolve_plain
         (Vlm.joinpath (Vlm.resolve_lexical (Vlm.Path "/ws"))
            (Vlm.Path (lstrip Vlm.is_slash "/pics/../pics/Cat.PNG")))
       = inr candidate
       /\ VlmFiles.name candidate = stem ++ String "."%char ext
       /\ In (VlmFiles.ascii_lower (String "."%char ext))
            VlmFiles.supported_extensions.
Proof.
  intros read_image.
  assert (VlmFiles.ascii_lower "" = "") as H0 by reflexivity.
  assert (forall ws candidate,
             Vlm.workspace "/ws" Vlm.resolve_plain = inr ws ->
             Vlm.resolve_plain
               (Vlm.joinpath ws
                  (Vlm.Path (lstrip Vlm.is_slash "/pics/../pics/Cat.PNG")))
             = inr candidate ->
             VlmFiles.well_formed candidate = true) as H1.
  { intros ws candidate [= <-] [= <-]. reflexivity. }
  assert (read_image "/pics/../pics/Cat.PNG" "look"
          = inr (Vlm.Base64Image "look" "image/jpeg" "bytes")) as H2
    by reflexivity.
  destruct (local_image_has_a_supported_name "/ws" Vlm.resolve_plain
              (fun _ => inr true) (fun _ => inr true) (fun _ => inr "bytes")
              (fun d => d) VlmFiles.ascii_lower (fun _ => None) H0
              "/pics/../pics/Cat.PNG" "look" "look" "image/jpeg" "bytes" H1 H2)
    as (ws & candidate & Hws & Hcandidate & _ & _ & _ & _ & _
        & (stem & ext & Hname & _ & _ & _ & Hin) & _).
  injection Hws as <-.
  split; [exact H0|]. split; [exact H2|].
  by exists candidate, stem, ext.
Defined.
